(* ===== verification/_CoqProject ===== *)
-Q . S2P
Prelude.v
JsString.v
JsValue.v
Dom.v
Json.v
JsonRoundtrip.v
JsonFuel.v
ListController.v
Persistence.v
Profile.v
App.v
Bounds.v
Shape.v
Session.v
Tabs.v
Early.v
Refinement.v
Witnesses.v
