(* ===== verification/Prelude.v ===== *)
(** * A verification development of the shopping-list page script

    The program verified here is the single browser script
    [src/scripts.js] of the shopping-list application.  It has no
    algorithmic core: it is event wiring over four pieces of shared
    mutable state, and this development models that wiring faithfully,
    handler by handler, down to the JavaScript conversions the script
    relies on.

    ** The program and its parts

    - Module-level state (scripts.js lines 18-22): the counters
      [totalItems] and [gotItems], the array [items] of
      [{text, got}] objects, the flag [showingDemo] and the [profile].
    - The DOM the script touches: the children of [#itemList] (one [li]
      per entry, with the classes [item], [demo], [got], an
      [.item-text] span and a style [display]), the input [#itemInput]
      (its value and focus), the three stats fields, the profile card
      slots, the location and the alerts shown.
    - [localStorage]: a string-keyed store of strings, written with
      JSON text under [shoppingList] and [userProfile].
    - The handlers: [DOMContentLoaded] (lines 25-42), [showDemoItems]
      (44-66), the item form [submit] (69-84), [createItem] (87-105),
      the delegated [click] on the list (108-143), the filter [click]
      (146-157), [updateStats] (160-164), [saveItems] (167-169), the
      [keydown] handler (172-177), [updateProfileUI] (180-186) and the
      register form [submit] (190-202).

    ** Files

    - [Prelude] (this file): a state-and-exception monad [stm] with its
      notation in [stm_scope], the invariant combinators over it, the
      reflexive-transitive closure [star], counting over lists, the hint
      databases [shop], [shop_rw] and [handlers], the tactics
      [st_simpl] and [st_run] that run a handler symbolically, and
      [st_grows], a growth measure of a computation with its rules for
      each combinator (section [Grows]).
    - [JsString]: [String.prototype.trim] over 8-bit strings and the
      decimal rendering of integers ([Number::toString]).
    - [JsValue]: the JavaScript values the script handles ([undefined],
      [null], booleans, integral numbers, strings, arrays, plain
      objects) with their decidable equality, truthiness, [ToString],
      the [textContent] conversion, property reads with their
      [TypeError], [CreateDataProperty] and [forEach].
    - [Json]: [JSON.stringify] and [JSON.parse] on those values, the
      parser a structural recursion on fuel, with its one-step equations.
    - [JsonRoundtrip]: [JSON.parse] reads back what [JSON.stringify]
      writes, up to the normalisation [json_norm] (object members and
      array elements that are [undefined]).
    - [JsonFuel]: every parser call consumes text, so the fuel never
      decides the parser's result.
    - [Dom]: the list entries ([li]), the markup of the page (which
      elements exist), the global state [St] of one page and the
      [localStorage] operations; [same_list_state], the equivalence
      on states that the list invariant respects ([Proper] instance in
      ListController).
    - [ListController]: the list handlers of the script, each a
      definition in the monad [M = stm St exn] over the markup [pg], in
      a [Section]; the list invariant and the handlers' behaviour.
    - [Persistence]: [saveItems] followed by [loadItems] on the next
      page load, and the effect of the load loop ([load_body]).
    - [Profile]: [updateProfileUI], the profile half of the load
      handler and the register handler.
    - [App]: the [DOMContentLoaded] handler composing both halves, the
      events a page receives, the step relation [step] of the event
      loop, reachability, the demo phase machine, and the theorems over
      reachable states; [run] executes a list of events, and
      [valid_run] decides whether the loop may deliver them (the
      [Decision] instance [target_ok_dec]).
    - [Bounds]: how many entries each listener adds, by [st_grows]; the
      counters after a run, bounded by its length.
    - [Shape]: the shape [{text: string, got: boolean}] of the objects
      of [items] and of the saved list, an invariant of every handler.
    - [Session]: a session over the pages of the site, which share
      [localStorage]: events on the current page, and the navigation
      that [window.location.href] starts to a fresh page.
    - [Tabs]: several tabs of the site over one [localStorage]: each
      tab has its own state and event loop, and a browser step delivers
      one event to one tab against the shared store; interleavings are
      the runs of that step relation.
    - [Early]: user events before [DOMContentLoaded] ([App.early_step]):
      the counter invariant holds along the early loop while the texts
      of the entries are distinct until the load.
    - [Refinement]: an abstract shopping list ([AbstractList], a list of
      texts with their [got] flags) and an abstract machine over it
      ([astep]), with the simulation by the page's event loop.
    - [Witnesses]: every theorem with a hypothesis applied to a concrete
      page and a concrete run, discharged by evaluation.

    ** What the theorems show

    - Invariants (App): in every state reachable from a fresh page,
      [totalItems] and [gotItems] count the real and the checked
      entries, demo entries are never counted, and each stats field
      shows the counts [updateStats] last wrote; proved by rule
      induction on [step] from per-handler preservation lemmas
      (ListController, section [Facts]).
    - The phase machine (App): the page goes from uninitialised to demo
      display to the real list and never back.
    - Functional behaviour (ListController, Profile): each handler on
      every branch, including the early returns, the demo guard of the
      list click and the [TypeError] thrown by a missing element.
    - Round trips: [trim] removes exactly the surrounding whitespace
      (JsString); [JSON.parse] reads back what [JSON.stringify] writes
      (JsonRoundtrip); a reload restores the saved list (Persistence);
      once a page has loaded, [localStorage] holds exactly its [items]
      in every state it reaches, so a reload of any reachable state
      reads its [items] back (Tabs).
    - Model lemmas (not properties of the script, but what the
      modelling choices rest on): the loop of [trim_end] equals the
      reference definition by string reversal (JsString); the
      functional update [set_got_first] equals [items.find] followed by
      the in-place assignment to the object it returns
      (ListController); [JSON.parse] as modelled is a total function of
      its text, any fuel above the length giving its answer (JsonFuel);
      a state is reachable by [step] exactly when a list of events
      accepted by [valid_run] leads to it by [run], so reachability of
      concrete states is decided by evaluation (App); with one tab the
      browser model runs exactly the page's event loop (Tabs).
    - Bounds (App): in every reachable state
      [0 <= gotItems <= totalItems <= number of entries].  (Bounds) A
      run of [n] events from a fresh page whose saved array has [k]
      elements ends with at most [k + 2 + n] entries, so [totalItems]
      stays below [k + 2 + n]: the doubles of the script are exact
      integers, and agree with the model's [Z], for every session of
      fewer than [2^53 - k - 2] events.
    - Types (Shape): from a storage holding plain items, every reachable
      state holds plain items and saves plain items.
    - Refinement (Refinement): with distinct texts, each run of the
      page's event loop is matched by a run of the abstract list, whose
      state the page's entries, [items] and saved text represent; a
      fresh page loading the saved text of a non-empty abstract list
      starts in a state that represents it.
    - Errors (App, Profile): a saved list that is not JSON (within
      [Json.in_fragment], where the model's parser rejects what the
      built-in rejects) or not an array throws out of the load listener
      before the profile half runs; Escape on a page without
      [#itemInput] throws out of the [keydown] listener.
    - Liveness (App): from any state the user can still add an item, by
      a run of at most three events.
    - Sessions (Session): a registration is read back and shown by the
      profile page the register handler navigates to, when that page
      has the list markup and the saved list is readable.
    - Interleavings (Tabs): under every interleaving of the events of
      any number of tabs, the saved list is the list saved before or
      exactly the [items] of one open tab; a tab that saves writes its
      own [items] over whatever another tab saved, so an item saved by
      one tab and not loaded by the other is lost (last writer wins).
    - Early events (Early): user events delivered before
      [DOMContentLoaded] keep the counter invariant as long as no two
      entries share a text until the load; the load then renders every
      early entry a second time; and if real entries are shown before
      the load while the saved list is empty, the load enters demo mode
      over them and the next submission breaks the counters.
    - Boundary inputs (Profile): what the profile card shows for an
      absent, corrupt or partial stored profile.
    - Findings, each a theorem for all states: removing one of two
      entries with the same text removes both objects from [items] and
      the saved list while one entry stays shown (ListController);
      items submitted before the page has loaded are shown twice after
      the load (Early); a page without [#itemList] never fills its
      profile card (App).  The concrete runs of [Witnesses] show each
      situation reachable.

    ** Fuel

    [JSON.parse] is modelled by a parser on fuel ([Json.parse_value]);
    [json_parse] gives it one more than the length of the text.  Every
    call consumes at least one character of the text
    ([JsonFuel.parse_shortens]), so this fuel is enough, and any larger
    fuel gives the same result ([JsonFuel.json_parse_fuel]);
    [JsonRoundtrip.fuel_bound_length] shows that the fuel the serialised
    form of a value needs is at most its length.  No other definition
    uses fuel: the handlers' loops are [st_iter] over finite lists.

    ** Plan (status kept up to date in PROJECT.json)

    1. List controller handlers and their per-branch behaviour: done.
    2. The counter invariant over reachable states: done.
    3. The demo state machine: done.
    4. [JSON.stringify]/[JSON.parse] round trip, and persistence: a
       reload reproduces the list: done.
    5. A refinement of an abstract item-list specification by the DOM
       level handlers, under distinct item texts, and the counterexample
       with duplicate texts: done.
    6. The profile controller, and the session from the register page
       to the profile page: done.  Back navigation and the browser's
       history are not modelled.

    ** Modelling choices and what is not modelled

    - JavaScript strings are sequences of UTF-16 code units; they are
      modelled as Stdlib [string] (8-bit characters), i.e. code units
      below 256.
    - JavaScript numbers are modelled as integers [Z]; the counters stay
      below 2^53, where doubles are exact, in any session of fewer than
      2^53 - k - 2 events over a saved array of k elements
      ([Bounds.run_bounds]).  [JSON.parse]
      of a number with a fraction or an exponent, or of a [\u] escape
      above 255, is outside the model and rejected by it; the error
      theorems are stated for texts in [Json.in_fragment], which have
      neither.  [Number::toString] of integers of 1e21 and above (in
      exponent form) is not modelled: the counters never get there.
    - Exceptions are values of the monad: a handler that throws keeps the
      state changes made before the throw, as the browser does.
    - The HTML pages are not in the repository: which elements exist is
      the parameter [page] of every handler.
    - The filter listener (line 149) walks
      [document.querySelectorAll(".item")]; the model walks the entries
      of [#itemList], which are the same elements as long as the markup
      has no other element of class [item].
    - The register listener's three [getElementById] lookups (lines
      192-194) are one markup flag: nothing changes before the first of
      them would throw.
    - Rendering details that do not change state the script reads
      (colours, opacity, the text of buttons, lines 56-61 of
      [showDemoItems]) are not modelled. *)

From stdpp Require Export base list gmap strings.
From Stdlib Require Export ZArith Lia.

Create HintDb shop discriminated.
Create Rewrite HintDb shop_rw.

(** ** The state-and-exception monad *)

Inductive res (E A : Type) : Type :=
| Ok (a : A)
| Err (e : E).
Arguments Ok {E A} a.
Arguments Err {E A} e.

(** A computation reads the state and returns a result and the new state;
    a thrown exception keeps the state reached so far. *)
Definition stm (S E A : Type) : Type := S -> res E A * S.

Section Monad.
Context {S E : Type}.

Definition st_ret {A} (a : A) : stm S E A := fun s => (Ok a, s).

Definition st_bind {A B} (c : stm S E A) (k : A -> stm S E B) : stm S E B :=
  fun s => match c s with
           | (Ok a, s') => k a s'
           | (Err e, s') => (Err e, s')
           end.

Definition st_get : stm S E S := fun s => (Ok s, s).

Definition st_modify (f : S -> S) : stm S E unit := fun s => (Ok tt, f s).

Definition st_throw {A} (e : E) : stm S E A := fun s => (Err e, s).

(** A pure computation that may fail, run without touching the state. *)
Definition st_lift {A} (r : res E A) : stm S E A := fun s => (r, s).

(** [list.forEach(f)]: the callbacks run in order; a throw stops the loop. *)
Fixpoint st_iter {A} (f : A -> stm S E unit) (l : list A) : stm S E unit :=
  match l with
  | [] => st_ret tt
  | x :: l' => st_bind (f x) (fun _ => st_iter f l')
  end.

Definition exec {A} (c : stm S E A) (s : S) : S := snd (c s).
End Monad.

Declare Scope stm_scope.
Delimit Scope stm_scope with stm.
Notation "x <- c ;; k" := (st_bind c (fun x => k))
  (at level 100, c at next level, right associativity) : stm_scope.
Notation "c ;; k" := (st_bind c (fun _ => k))
  (at level 100, right associativity) : stm_scope.
Open Scope stm_scope.

Section MonadLaws.
Context {S E : Type}.

Lemma st_bind_ret_l {A B} (a : A) (k : A -> stm S E B) s :
  st_bind (st_ret a) k s = k a s.
Proof. reflexivity. Qed.

Lemma st_bind_ret_r {A} (c : stm S E A) s : st_bind c st_ret s = c s.
Proof. unfold st_bind, st_ret. by destruct (c s) as [[] ?]. Qed.

Lemma st_bind_assoc {A B C} (c : stm S E A) (k : A -> stm S E B)
      (k' : B -> stm S E C) s :
  st_bind (st_bind c k) k' s = st_bind c (fun a => st_bind (k a) k') s.
Proof. unfold st_bind. by destruct (c s) as [[] ?]. Qed.

Lemma st_iter_app {A} (f : A -> stm S E unit) l1 l2 s :
  st_iter f (l1 ++ l2) s = st_bind (st_iter f l1) (fun _ => st_iter f l2) s.
Proof.
  revert s. induction l1 as [|x l1 IH]; intros s; simpl; [done|].
  rewrite st_bind_assoc. unfold st_bind at 1 2. destruct (f x s) as [[] s']; [|done].
  apply IH.
Qed.

(** A callback that returns normally passes its state to the rest of the loop. *)
Lemma st_iter_cons_ok {A} (f : A -> stm S E unit) x l s s1 :
  f x s = (Ok tt, s1) -> st_iter f (x :: l) s = st_iter f l s1.
Proof. intros H. simpl. unfold st_bind. by rewrite H. Qed.

(** ** Invariants of computations

    [st_preserves P c]: whatever [c] returns, normally or by a throw, the
    final state satisfies [P] when the initial one does. *)
Definition st_preserves {A} (P : S -> Prop) (c : stm S E A) : Prop :=
  forall s, P s -> P (snd (c s)).

Lemma preserves_ret {A} P (a : A) : st_preserves P (st_ret a).
Proof. by intros s. Qed.

Lemma preserves_throw {A} P e : st_preserves P (@st_throw S E A e).
Proof. by intros s. Qed.

Lemma preserves_get P : st_preserves P st_get.
Proof. by intros s. Qed.

Lemma preserves_lift {A} P (r : res E A) : st_preserves P (st_lift r).
Proof. by intros s. Qed.

(** A step whose result is known: the continuation runs on it. *)
Lemma preserves_lift_ok {A B} P (v : A) (k : A -> stm S E B) :
  st_preserves P (k v) -> st_preserves P (st_bind (st_lift (Ok v)) k).
Proof. done. Qed.

Lemma preserves_bind {A B} P (c : stm S E A) (k : A -> stm S E B) :
  st_preserves P c -> (forall a, st_preserves P (k a)) ->
  st_preserves P (st_bind c k).
Proof.
  intros Hc Hk s Hs. unfold st_bind.
  specialize (Hc s Hs). destruct (c s) as [[a|e] s']; simpl in *; [by apply Hk | done].
Qed.

Lemma preserves_modify P (f : S -> S) :
  (forall s, P s -> P (f s)) -> st_preserves P (st_modify f).
Proof. intros Hf s. apply Hf. Qed.

Lemma preserves_if {A} P (b : bool) (c1 c2 : stm S E A) :
  st_preserves P c1 -> st_preserves P c2 -> st_preserves P (if b then c1 else c2).
Proof. by destruct b. Qed.

Lemma preserves_iter {A} P (f : A -> stm S E unit) l :
  (forall x, x ∈ l -> st_preserves P (f x)) -> st_preserves P (st_iter f l).
Proof.
  induction l as [|x l IH]; intros Hf; simpl.
  - apply preserves_ret.
  - apply preserves_bind; [apply Hf; set_solver|].
    intros _. apply IH. intros y Hy. apply Hf. set_solver.
Qed.
End MonadLaws.

#[export] Hint Resolve preserves_ret preserves_throw preserves_get preserves_lift : shop.

(** The definitions of the modelled handlers, unfolded by [preserves_tac]. *)
Create HintDb handlers discriminated.

(** Decompose [st_preserves P c] along the structure of [c]; the goals
    left are [P (f s)] for the state updates [f] of [c]. *)
Ltac preserves_step :=
  match goal with
  | |- st_preserves _ (st_bind _ _) => apply preserves_bind; [|intros ?]
  | |- st_preserves _ (if _ then _ else _) => apply preserves_if
  | |- st_preserves _ (st_modify _) => apply preserves_modify; intros ?s ?Hs
  | |- st_preserves _ (st_iter _ _) => apply preserves_iter; intros ? _
  | |- st_preserves _ (st_ret _) => apply preserves_ret
  | |- st_preserves _ (st_throw _) => apply preserves_throw
  | |- st_preserves _ st_get => apply preserves_get
  | |- st_preserves _ (st_lift _) => apply preserves_lift
  | |- st_preserves _ (match ?x with _ => _ end) => destruct x
  end.

Ltac preserves_tac :=
  repeat first [preserves_step | progress autounfold with handlers]; simpl in *; try done.

(** ** Growth of a measure

    [st_grows mu n c]: whatever [c] returns, normally or by a throw, it
    raises the measure [mu] of the state by at most [n].  Unlike
    [st_preserves] this relates the final state to the initial one; a
    sequence grows by the sum of what its parts grow by. *)

Section Grows.
Context {S E : Type} (mu : S -> nat).

Definition st_grows {A} (n : nat) (c : stm S E A) : Prop :=
  forall s, mu (snd (c s)) <= mu s + n.

Lemma grows_ret {A} n (a : A) : st_grows n (st_ret a).
Proof. intros s. simpl. lia. Qed.

Lemma grows_throw {A} n e : st_grows n (@st_throw S E A e).
Proof. intros s. simpl. lia. Qed.

Lemma grows_get n : st_grows n st_get.
Proof. intros s. simpl. lia. Qed.

Lemma grows_lift {A} n (r : res E A) : st_grows n (st_lift r).
Proof. intros s. simpl. lia. Qed.

Lemma grows_modify n (f : S -> S) : (forall s, mu (f s) <= mu s + n) -> st_grows n (st_modify f).
Proof. intros Hf s. apply Hf. Qed.

Lemma grows_if {A} n (b : bool) (c1 c2 : stm S E A) :
  st_grows n c1 -> st_grows n c2 -> st_grows n (if b then c1 else c2).
Proof. by destruct b. Qed.

Lemma grows_bind {A B} n m (c : stm S E A) (k : A -> stm S E B) :
  st_grows n c -> (forall a, st_grows m (k a)) -> st_grows (n + m) (st_bind c k).
Proof.
  intros Hc Hk s. unfold st_bind. specialize (Hc s).
  destruct (c s) as [[a|e] s']; simpl in *; [specialize (Hk a s')|]; lia.
Qed.

(** The two forms of [grows_bind] where one side does not grow. *)
Lemma grows_bind_0l {A B} n (c : stm S E A) (k : A -> stm S E B) :
  st_grows 0 c -> (forall a, st_grows n (k a)) -> st_grows n (st_bind c k).
Proof. intros Hc Hk. apply (grows_bind 0 n); assumption. Qed.

Lemma grows_bind_0r {A B} n (c : stm S E A) (k : A -> stm S E B) :
  st_grows n c -> (forall a, st_grows 0 (k a)) -> st_grows n (st_bind c k).
Proof. intros Hc Hk. rewrite <- (Nat.add_0_r n). by apply grows_bind. Qed.

Lemma grows_iter {A} n (f : A -> stm S E unit) l :
  (forall x, st_grows n (f x)) -> st_grows (length l * n) (st_iter f l).
Proof.
  intros Hf. induction l as [|x l IH]; simpl; [apply grows_ret|].
  by apply grows_bind.
Qed.

Lemma grows_mono {A} n m (c : stm S E A) : n <= m -> st_grows n c -> st_grows m c.
Proof. intros Hnm Hc s. specialize (Hc s). lia. Qed.

End Grows.

(** ** Reflexive-transitive closure, for reachable states *)

Section Star.
Context {A : Type} (R : A -> A -> Prop).

Inductive star : A -> A -> Prop :=
| star_refl a : star a a
| star_step a b c : R a b -> star b c -> star a c.

Lemma star_one a b : R a b -> star a b.
Proof. eauto using star. Qed.

Lemma star_trans a b c : star a b -> star b c -> star a c.
Proof. induction 1; eauto using star. Qed.

Lemma star_invariant (P : A -> Prop) :
  (forall a b, P a -> R a b -> P b) -> forall a b, star a b -> P a -> P b.
Proof. intros Hstep a b Hab. induction Hab; eauto. Qed.
End Star.

(** ** Lists *)

Lemma lookup_map {A B} (f : A -> B) (l : list A) i :
  map f l !! i = option_map f (l !! i).
Proof. revert i. induction l as [|x l IH]; intros [|i]; simpl; auto. Qed.

(** The Standard Library's [map] is stdpp's [fmap] on lists. *)
Lemma map_fmap {A B} (f : A -> B) (l : list A) : map f l = f <$> l.
Proof. induction l as [|x l IH]; simpl; [done|]. by rewrite IH. Qed.

(** ** Counting the entries of a list that satisfy a test *)

Fixpoint count_by {A} (f : A -> bool) (l : list A) : nat :=
  match l with
  | [] => 0
  | x :: l' => (if f x then 1 else 0) + count_by f l'
  end.

Section CountBy.
Context {A : Type} (f : A -> bool).

Lemma count_by_app l1 l2 :
  count_by f (l1 ++ l2) = count_by f l1 + count_by f l2.
Proof. induction l1; simpl; lia. Qed.

Lemma count_by_le l : count_by f l <= length l.
Proof. induction l as [|x l IH]; simpl; [lia|destruct (f x); lia]. Qed.

Lemma count_by_mono (g : A -> bool) l :
  (forall x, f x = true -> g x = true) -> count_by f l <= count_by g l.
Proof.
  intros Hfg. induction l as [|x l IH]; simpl; [lia|].
  destruct (f x) eqn:E; [rewrite (Hfg x E); lia|destruct (g x); lia].
Qed.

Lemma count_by_delete l i x :
  l !! i = Some x ->
  count_by f (delete i l) + (if f x then 1 else 0) = count_by f l.
Proof.
  revert i. induction l as [|y l IH]; intros [|i] Hi; simpl in *; try done.
  - simplify_eq. lia.
  - specialize (IH i Hi). lia.
Qed.

Lemma count_by_insert l i x y :
  l !! i = Some x ->
  count_by f (<[i:=y]> l) + (if f x then 1 else 0) =
  count_by f l + (if f y then 1 else 0).
Proof.
  revert i. induction l as [|z l IH]; intros [|i] Hi; simpl in *; try done.
  - simplify_eq. lia.
  - specialize (IH i Hi). lia.
Qed.

Lemma count_by_nil_all l :
  count_by f l = 0 <-> Forall (fun x => f x = false) l.
Proof.
  induction l as [|x l IH]; simpl; [split; auto|].
  rewrite Forall_cons. destruct (f x); split; intros; try lia; naive_solver.
Qed.

Lemma count_by_ext (g : A -> bool) l :
  (forall x, x ∈ l -> f x = g x) -> count_by f l = count_by g l.
Proof.
  induction l as [|x l IH]; intros Hfg; simpl; [done|].
  rewrite Hfg by set_solver. rewrite IH; [done|]. intros y Hy. apply Hfg. set_solver.
Qed.
Lemma count_by_split (g : A -> bool) l :
  count_by f l = count_by (fun x => f x && g x) l + count_by (fun x => f x && negb (g x)) l.
Proof.
  induction l as [|x l IH]; simpl; [done|]. rewrite IH.
  destruct (f x), (g x); simpl; lia.
Qed.

Lemma count_by_map (g : A -> A) l :
  (forall x, f (g x) = f x) -> count_by f (map g l) = count_by f l.
Proof. intros Hg. induction l as [|x l IH]; simpl; [done|]. by rewrite Hg, IH. Qed.
End CountBy.

#[export] Hint Rewrite @count_by_app : shop_rw.

(** ** Running computations symbolically *)

(** Unfold the monad's operations and reduce. *)
Ltac st_simpl :=
  unfold exec, st_bind, st_ret, st_modify, st_get, st_throw, st_lift in *; simpl in *.

(** Unfold, then split on every test the computation makes. *)
Ltac st_run := st_simpl; repeat (case_match; st_simpl; simplify_eq/=).
