(* ===== verification/JsString.v ===== *)
(** * JavaScript string primitives used by the script

    [String.prototype.trim] (called on the item input at scripts.js line
    71 and on the three register fields at lines 192-194) and the
    rendering of integral numbers by [Number::toString] (used when a
    counter is written to a [textContent], lines 161-163).  Strings are
    8-bit, see the header of [Prelude]; the whitespace set is the
    ECMAScript WhiteSpace and LineTerminator code points below 256. *)

From S2P Require Import Prelude.
From Stdlib Require Import Ascii DecimalString.

Module Trim.

(** TAB, LF, VT, FF, CR, SPACE and NO-BREAK SPACE. *)
Definition is_js_space (c : ascii) : bool :=
  bool_decide (nat_of_ascii c ∈ [9; 10; 11; 12; 13; 32; 160]).

Fixpoint trim_start (s : string) : string :=
  match s with
  | EmptyString => EmptyString
  | String c s' => if is_js_space c then trim_start s' else s
  end.

Fixpoint trim_end (s : string) : string :=
  match s with
  | EmptyString => EmptyString
  | String c s' =>
      match trim_end s' with
      | EmptyString => if is_js_space c then EmptyString else String c EmptyString
      | r => String c r
      end
  end.

(** [TrimString(S, start+end)]. *)
Definition trim (s : string) : string := trim_end (trim_start s).

(** Every character of [s] is whitespace. *)
Fixpoint all_space (s : string) : bool :=
  match s with
  | EmptyString => true
  | String c s' => is_js_space c && all_space s'
  end.

(** [s] neither starts nor ends with whitespace. *)
Definition trimmed (s : string) : Prop :=
  trim_start s = s /\ trim_end s = s.

End Trim.
Export Trim.

Module NumberToString.

(** [Number::toString] on an integral number. *)
Definition Z_to_string (z : Z) : string :=
  NilEmpty.string_of_int (Z.to_int z).

End NumberToString.
Export NumberToString.

(** ** Lemmas on strings *)

Lemma str_app_assoc (a b c : string) : (a +:+ b) +:+ c = a +:+ (b +:+ c).
Proof. induction a as [|x a IH]; [reflexivity|]. exact (f_equal (String x) IH). Qed.

Lemma str_app_nil_r (a : string) : a +:+ EmptyString = a.
Proof. induction a as [|x a IH]; [reflexivity|]. exact (f_equal (String x) IH). Qed.

Lemma str_length_app (a b : string) :
  String.length (a +:+ b) = String.length a + String.length b.
Proof. induction a as [|x a IH]; [reflexivity|]. simpl. by rewrite IH. Qed.

(** [simpl] leaves [+:+] folded; these two unfold it one step. *)
Lemma str_app_nil_l (a : string) : EmptyString +:+ a = a.
Proof. reflexivity. Qed.

Lemma str_app_cons c (a b : string) : String c a +:+ b = String c (a +:+ b).
Proof. reflexivity. Qed.

Lemma str_app_char_l c (a b : string) : (String c EmptyString +:+ a) +:+ b = String c (a +:+ b).
Proof. reflexivity. Qed.

#[export] Hint Rewrite str_app_assoc str_app_nil_r str_app_nil_l str_app_cons : shop_rw.

(** ** Lemmas on [trim] *)

Lemma trim_start_app_space p s :
  all_space p = true -> trim_start (p +:+ s) = trim_start s.
Proof.
  induction p as [|c p IH]; simpl; [done|].
  intros [Hc Hp]%andb_prop. rewrite Hc. by apply IH.
Qed.

Lemma trim_end_nil_iff s : trim_end s = EmptyString <-> all_space s = true.
Proof.
  induction s as [|c s IH]; simpl; [done|].
  destruct (trim_end s) as [|c' r] eqn:Ht.
  - destruct (is_js_space c); simpl; split; intros; try done; by apply IH.
  - split; [done|]. intros [_ Hs]%andb_prop. apply IH in Hs. discriminate.
Qed.

Lemma trim_end_app_space s q :
  all_space q = true -> trim_end (s +:+ q) = trim_end s.
Proof.
  induction s as [|c s IH]; simpl; intros Hq.
  - by apply trim_end_nil_iff.
  - by rewrite IH.
Qed.

Lemma trim_start_space_prefix s :
  exists p, s = p +:+ trim_start s /\ all_space p = true.
Proof.
  induction s as [|c s IH]; simpl.
  - by exists EmptyString.
  - destruct (is_js_space c) eqn:Hc.
    + destruct IH as [p [Hs Hp]]. exists (String c p).
      split; [exact (f_equal (String c) Hs) | simpl; by rewrite Hc, Hp].
    + by exists EmptyString.
Qed.

Lemma trim_end_space_suffix s :
  exists q, s = trim_end s +:+ q /\ all_space q = true.
Proof.
  induction s as [|c s IH]; simpl.
  - by exists EmptyString.
  - destruct IH as [q [Hs Hq]].
    destruct (trim_end s) as [|c' r] eqn:Ht; rewrite Hs; [destruct (is_js_space c) eqn:Hc|].
    + exists (String c q). split; [reflexivity | simpl; by rewrite Hc, Hq].
    + by exists q.
    + by exists q.
Qed.

Lemma trim_start_idem s : trim_start (trim_start s) = trim_start s.
Proof.
  induction s as [|c s IH]; simpl; [done|].
  destruct (is_js_space c) eqn:Hc; [done|]. simpl. by rewrite Hc.
Qed.

Lemma trim_end_cons c s :
  trim_end (String c s) =
  match trim_end s with
  | EmptyString => if is_js_space c then EmptyString else String c EmptyString
  | r => String c r
  end.
Proof. reflexivity. Qed.

Lemma trim_end_idem s : trim_end (trim_end s) = trim_end s.
Proof.
  induction s as [|c s IH]; [done|]. rewrite (trim_end_cons c s).
  destruct (trim_end s) as [|c' r] eqn:Ht.
  - destruct (is_js_space c) eqn:Hc; [done|]. simpl. by rewrite Hc.
  - by rewrite trim_end_cons, IH.
Qed.

Lemma trim_start_of_trim_end s :
  trim_start s = s -> trim_start (trim_end s) = trim_end s.
Proof.
  destruct s as [|c s]; simpl; [done|].
  destruct (is_js_space c) eqn:Hc; [|intros _].
  - intros H. pose proof (f_equal String.length H) as Hl.
    enough (String.length (trim_start s) <= String.length s) by (simpl in Hl; lia).
    clear. induction s as [|c s IH]; simpl; [lia|]. destruct (is_js_space c); simpl; lia.
  - destruct (trim_end s) as [|c' r]; simpl; [|by rewrite Hc].
    by rewrite Hc.
Qed.

Lemma trim_all_space s : all_space s = true -> trim s = EmptyString.
Proof.
  intros Hs. unfold trim. apply trim_end_nil_iff.
  assert (trim_start s = EmptyString) as ->; [|done].
  revert Hs. clear. induction s as [|c s IH]; simpl; [done|].
  intros [-> Hs]%andb_prop. auto.
Qed.

(** C18: [trim s] is [s] with a whitespace prefix and a whitespace
    suffix removed, and it neither starts nor ends with whitespace. *)
Theorem trim_spec s :
  exists p q, s = p +:+ trim s +:+ q /\ all_space p = true /\ all_space q = true /\
    trimmed (trim s).
Proof.
  destruct (trim_start_space_prefix s) as [p [Hp Hps]].
  destruct (trim_end_space_suffix (trim_start s)) as [q [Hq Hqs]].
  exists p, q. unfold trim, trimmed. rewrite <- Hq. repeat split; auto.
  - apply trim_start_of_trim_end, trim_start_idem.
  - apply trim_end_idem.
Qed.

#[export] Hint Rewrite trim_start_idem trim_end_idem : shop_rw.

(** ** [trim_end] against a reference definition

    The end of a string is trimmed in one pass by [trim_end]; the
    reference definition reverses the string, trims its start and
    reverses back. *)

Fixpoint str_rev (s : string) : string :=
  match s with
  | EmptyString => EmptyString
  | String c s' => str_rev s' +:+ String c EmptyString
  end.

Definition trim_end_ref (s : string) : string := str_rev (trim_start (str_rev s)).

Lemma str_rev_app a b : str_rev (a +:+ b) = str_rev b +:+ str_rev a.
Proof.
  induction a as [|c a IH]; simpl; [by rewrite str_app_nil_r|].
  by rewrite IH, str_app_assoc.
Qed.

Lemma str_rev_involutive s : str_rev (str_rev s) = s.
Proof. induction s as [|c s IH]; [done|]. simpl. by rewrite str_rev_app, IH. Qed.

Lemma all_space_app a b : all_space (a +:+ b) = all_space a && all_space b.
Proof. induction a as [|c a IH]; [done|]. simpl. by rewrite IH, andb_assoc. Qed.

Lemma all_space_rev s : all_space (str_rev s) = all_space s.
Proof.
  induction s as [|c s IH]; [done|]. simpl.
  rewrite all_space_app, IH. simpl. by rewrite andb_true_r, andb_comm.
Qed.

Lemma trim_start_app a b :
  trim_start (a +:+ b) = if all_space a then trim_start b else trim_start a +:+ b.
Proof.
  induction a as [|c a IH]; [done|]. simpl.
  destruct (is_js_space c); simpl; [done|done].
Qed.

(** [trim_end] computes what the reference definition computes:
    reversing, trimming the start and reversing back. *)
Lemma trim_end_equiv s : trim_end s = trim_end_ref s.
Proof.
  unfold trim_end_ref. induction s as [|c s IH]; [done|].
  rewrite trim_end_cons. simpl. rewrite trim_start_app, all_space_rev.
  destruct (all_space s) eqn:Hs.
  - apply trim_end_nil_iff in Hs. rewrite Hs. simpl.
    by destruct (is_js_space c).
  - destruct (trim_end s) as [|c' r] eqn:Ht.
    + apply trim_end_nil_iff in Ht. congruence.
    + by rewrite str_rev_app, <- IH.
Qed.
