(* ===== verification/JsValue.v ===== *)
(** * The JavaScript values the script handles

    Every value the script reads from [JSON.parse], stores in [items] or
    writes to the page: [undefined], [null], booleans, numbers (integral,
    see [Prelude]), strings, arrays and plain objects.  Objects are lists
    of own properties in the order ECMAScript enumerates them.  The file
    gives the conversions the script relies on implicitly: truthiness
    ([if (got)], [||], [&&]), [ToString] (string concatenation, line
    185), the [textContent] setter (lines 92, 116, 161-163, 183), the
    property reads [obj.text], [obj.got], [saved.length],
    [profile.username], [profile.email] with the [TypeError] a read on
    [null] or [undefined] throws, and [Array.prototype.forEach].

    Objects and arrays are references in JavaScript; the script never
    mutates a value it shares (the [{text, got}] objects of [items] are
    created fresh by [createItem] and only reachable from [items]), so
    values are modelled as immutable data. *)

From S2P Require Import Prelude JsString.
From Stdlib Require Import Ascii DecimalString.

Inductive value : Type :=
| VUndefined
| VNull
| VBool (b : bool)
| VNum (n : Z)
| VStr (s : string)
| VArr (elems : list value)
| VObj (props : list (string * value)).

(** The exceptions a handler can throw. *)
Inductive exn : Type :=
| TypeError (msg : string)
| SyntaxError (msg : string).

(** Induction over values, with a hypothesis for every element of an
    array and every property of an object. *)
Section ValueInd.
Context (P : value -> Prop)
  (Hundef : P VUndefined) (Hnull : P VNull)
  (Hbool : forall b, P (VBool b)) (Hnum : forall n, P (VNum n))
  (Hstr : forall s, P (VStr s))
  (Harr : forall l, Forall P l -> P (VArr l))
  (Hobj : forall ps, Forall (fun kv => P kv.2) ps -> P (VObj ps)).

Fixpoint value_ind' (v : value) : P v :=
  match v with
  | VUndefined => Hundef
  | VNull => Hnull
  | VBool b => Hbool b
  | VNum n => Hnum n
  | VStr s => Hstr s
  | VArr l =>
      Harr l ((fix go (l : list value) : Forall P l :=
                 match l with
                 | [] => Forall_nil_2 _
                 | x :: l' => Forall_cons_2 _ x l' (value_ind' x) (go l')
                 end) l)
  | VObj ps =>
      Hobj ps ((fix go (ps : list (string * value)) : Forall (fun kv => P kv.2) ps :=
                  match ps with
                  | [] => Forall_nil_2 _
                  | kv :: ps' => Forall_cons_2 _ kv ps' (value_ind' kv.2) (go ps')
                  end) ps)
  end.
End ValueInd.

(** Decidable equality, by the nested recursion of [value_ind']. *)
Fixpoint value_eqb (v w : value) : bool :=
  match v, w with
  | VUndefined, VUndefined | VNull, VNull => true
  | VBool b, VBool b' => Bool.eqb b b'
  | VNum n, VNum n' => Z.eqb n n'
  | VStr s, VStr s' => String.eqb s s'
  | VArr l, VArr l' =>
      (fix go (l l' : list value) : bool :=
         match l, l' with
         | [], [] => true
         | x :: l, x' :: l' => value_eqb x x' && go l l'
         | _, _ => false
         end) l l'
  | VObj ps, VObj ps' =>
      (fix go (ps ps' : list (string * value)) : bool :=
         match ps, ps' with
         | [], [] => true
         | (k, x) :: ps, (k', x') :: ps' => String.eqb k k' && value_eqb x x' && go ps ps'
         | _, _ => false
         end) ps ps'
  | _, _ => false
  end.

Lemma value_eqb_spec v w : value_eqb v w = true <-> v = w.
Proof.
  revert w. induction v as [| | b | n | s | l Hl | ps Hps] using value_ind';
    intros [| | b' | n' | s' | l' | ps']; simpl; try (split; congruence).
  - rewrite Bool.eqb_true_iff. naive_solver.
  - rewrite Z.eqb_eq. naive_solver.
  - rewrite String.eqb_eq. naive_solver.
  - revert l'. induction Hl as [|x l Hx Hl IH]; intros [|x' l']; try (split; congruence).
    rewrite andb_true_iff, Hx, IH. naive_solver.
  - revert ps'. induction Hps as [|[k x] ps Hx Hps IH]; intros [|[k' x'] ps'];
      try (split; congruence).
    rewrite !andb_true_iff, String.eqb_eq, Hx, IH. naive_solver.
Qed.

#[global] Instance value_eq_dec : EqDecision value.
Proof.
  intros v w. destruct (value_eqb v w) eqn:E; [left | right];
    [by apply value_eqb_spec | intros H%value_eqb_spec; congruence].
Defined.

Module Conv.

(** [ToBoolean]. *)
Definition truthy (v : value) : bool :=
  match v with
  | VUndefined | VNull => false
  | VBool b => b
  | VNum n => bool_decide (n <> 0%Z)
  | VStr s => bool_decide (s <> EmptyString)
  | VArr _ | VObj _ => true
  end.

(** [ToString]; an array converts by [join(",")], where [undefined] and
    [null] elements give the empty string. *)
Fixpoint to_string (v : value) : string :=
  match v with
  | VUndefined => "undefined"
  | VNull => "null"
  | VBool b => if b then "true" else "false"
  | VNum n => Z_to_string n
  | VStr s => s
  | VArr l =>
      (fix join (l : list value) : string :=
         match l with
         | [] => EmptyString
         | x :: l' =>
             let sx := match x with
                       | VUndefined | VNull => EmptyString
                       | _ => to_string x
                       end in
             match l' with
             | [] => sx
             | _ => sx +:+ "," +:+ join l'
             end
         end) l
  | VObj _ => "[object Object]"
  end.

(** Assigning [v] to [node.textContent] (a nullable DOMString):
    [null] and [undefined] give the empty string. *)
Definition text_content (v : value) : string :=
  match v with
  | VUndefined | VNull => EmptyString
  | _ => to_string v
  end.

(** [v === s] for a string [s]. *)
Definition strict_eq_str (v : value) (s : string) : bool :=
  match v with
  | VStr s' => bool_decide (s' = s)
  | _ => false
  end.

(** [v === n] for a number [n]. *)
Definition strict_eq_num (v : value) (n : Z) : bool :=
  match v with
  | VNum m => bool_decide (m = n)
  | _ => false
  end.

End Conv.
Export Conv.

Module Props.

(** The own property [k] of a property list. *)
Fixpoint prop_lookup (k : string) (ps : list (string * value)) : option value :=
  match ps with
  | [] => None
  | (k', v) :: ps' => if bool_decide (k' = k) then Some v else prop_lookup k ps'
  end.

(** A property key that is an array index: the canonical decimal form of
    an integer below 2^32 - 1. *)
Definition array_index (k : string) : option N :=
  match NilEmpty.uint_of_string k with
  | Some d =>
      let n := N.of_uint d in
      if bool_decide (Z_to_string (Z.of_N n) = k /\ (n < 4294967295)%N)
      then Some n else None
  | None => None
  end.

(** [v[k]] on a value that is not [null] or [undefined]: own properties
    of objects, [length] and the indexed elements of arrays and strings.
    Inherited properties of the built-in prototypes are functions and
    are outside the values modelled; the script reads none of them. *)
Definition get_prop (v : value) (k : string) : res exn value :=
  match v with
  | VUndefined | VNull =>
      Err (TypeError ("Cannot read properties of " +:+ to_string v))
  | VArr l =>
      Ok (if bool_decide (k = "length") then VNum (Z.of_nat (length l))
          else match array_index k with
               | Some i => default VUndefined (l !! N.to_nat i)
               | None => VUndefined
               end)
  | VStr s =>
      Ok (if bool_decide (k = "length") then VNum (Z.of_nat (String.length s))
          else match array_index k with
               | Some i => match String.get (N.to_nat i) s with
                           | Some c => VStr (String c EmptyString)
                           | None => VUndefined
                           end
               | None => VUndefined
               end)
  | VObj ps => Ok (default VUndefined (prop_lookup k ps))
  | VBool _ | VNum _ => Ok VUndefined
  end.

(** Whether key [k] is enumerated before key [k'] when both are new:
    array indices first in ascending order, then other keys in creation
    order ([OrdinaryOwnPropertyKeys]). *)
Definition index_before (k k' : string) : bool :=
  match array_index k, array_index k' with
  | Some i, Some j => bool_decide (i < j)%N
  | Some _, None => true
  | _, _ => false
  end.

(** Insert a new own property at its enumeration position. *)
Fixpoint insert_new_prop (k : string) (v : value) (ps : list (string * value))
  : list (string * value) :=
  match ps with
  | [] => [(k, v)]
  | (k', v') :: ps' =>
      if index_before k k' then (k, v) :: ps
      else (k', v') :: insert_new_prop k v ps'
  end.

(** [CreateDataProperty(obj, k, v)] on a plain object: an existing
    property keeps its position and takes the new value. *)
Definition set_prop (k : string) (v : value) (ps : list (string * value))
  : list (string * value) :=
  match prop_lookup k ps with
  | Some _ => (fun kv : string * value =>
                 if bool_decide (kv.1 = k) then (k, v) else kv) <$> ps
  | None => insert_new_prop k v ps
  end.

End Props.
Export Props.

(** [arr.forEach(f)]: on an array, [f] runs on each element in order; on
    any other value the call throws a [TypeError] (the property is not a
    function, or the receiver is [null]/[undefined]). *)
Definition js_forEach {S} (v : value) (f : value -> stm S exn unit) : stm S exn unit :=
  match v with
  | VArr l => st_iter f l
  | _ => st_throw (TypeError "forEach is not a function")
  end.

(** ** Lemmas *)

Lemma get_prop_obj k ps :
  get_prop (VObj ps) k = Ok (default VUndefined (prop_lookup k ps)).
Proof. reflexivity. Qed.

Lemma get_prop_throws v k :
  (exists e, get_prop v k = Err e) <-> v = VUndefined \/ v = VNull.
Proof. destruct v; simpl; split; intros H; naive_solver. Qed.

Lemma text_content_str s : text_content (VStr s) = s.
Proof. reflexivity. Qed.

Lemma strict_eq_str_spec v s : strict_eq_str v s = true <-> v = VStr s.
Proof.
  destruct v; simpl; split; intros H; try done; try by simplify_eq.
  - apply bool_decide_eq_true in H. by subst.
  - apply bool_decide_eq_true. by simplify_eq.
Qed.

Lemma prop_lookup_set_eq k v ps : prop_lookup k (set_prop k v ps) = Some v.
Proof.
  unfold set_prop. destruct (prop_lookup k ps) eqn:Hk.
  - induction ps as [|[k' v'] ps IH]; simpl in *; [done|].
    case_bool_decide; simpl; rewrite ?bool_decide_true by done; [done|].
    rewrite bool_decide_false by done. auto.
  - induction ps as [|[k' v'] ps IH]; simpl in *.
    + by rewrite bool_decide_true.
    + case_bool_decide; [done|]. destruct (index_before k k'); simpl.
      * by rewrite bool_decide_true.
      * rewrite bool_decide_false by done. auto.
Qed.

#[export] Hint Rewrite get_prop_obj text_content_str : shop_rw.
