(* ===== verification/Dom.v ===== *)
(** * The page: its markup, the list entries, and the global state

    [page] says which elements the markup has: the script looks each one
    up once at load (scripts.js lines 2-15 and 189) and every access to a
    missing one throws a [TypeError] (or, behind [?.], attaches no
    listener).  [li] is one child of [#itemList] as [createItem] (lines
    87-99) and [showDemoItems] (lines 51-64) build it: its classes
    [demo] and [got] (every entry has [item]), the text of its
    [.item-text] span, and its [style.display].  [St] is the whole state
    of one page: the module-level variables of lines 18-22, the DOM the
    script writes, [localStorage], the alerts and the location.  [M] is
    the monad of the handlers. *)

From S2P Require Import Prelude JsString JsValue.

(** Which elements the markup of the page has. *)
Record page : Type := mkPage {
  pg_itemForm : bool;         (** [#itemForm] *)
  pg_itemInput : bool;        (** [#itemInput] *)
  pg_itemList : bool;         (** [#itemList] *)
  pg_totalItems : bool;       (** [#totalItems] *)
  pg_gotItems : bool;         (** [#gotItems] *)
  pg_remainingItems : bool;   (** [#remainingItems] *)
  pg_filters : bool;          (** [.filters] *)
  pg_profileCard : bool;      (** [.profile-card] *)
  pg_strong : bool;           (** a [strong] inside the profile card *)
  pg_emailTag : bool;         (** a [p:last-of-type] inside the profile card *)
  pg_registerForm : bool;     (** [.register-form] *)
  pg_registerInputs : bool    (** [#username], [#email] and [#password] *)
}.

(** [style.display] as the filter handler sets it. *)
Inductive display : Type := DFlex | DNone.

Record li : Type := mkLi {
  li_demo : bool;                 (** class [demo] *)
  li_got : bool;                  (** class [got] *)
  li_text : string;               (** [.item-text] [textContent] *)
  li_display : option display     (** [style.display], [None] until set *)
}.

(** An element of [items]: the object [{text, got}] of line 104. *)
Record item : Type := mkItem {
  it_text : value;
  it_got : value
}.

Record St : Type := mkSt {
  st_list : list li; (** the [li] children of [#itemList], in order *)
  st_items : list item; (** the array [items] (line 20) *)
  st_total : Z; (** [totalItems] (line 18) *)
  st_got : Z; (** [gotItems] (line 19) *)
  st_showingDemo : bool; (** [showingDemo] (line 21) *)
  st_profile : value; (** [profile] (line 22) *)
  st_storage : gmap string string; (** [localStorage] *)
  st_input : string; (** [itemInput.value] *)
  st_focused : bool; (** whether [itemInput] has the focus *)
  st_total_view : option string; (** [totalItemsEl.textContent], [None] while the markup's own text is shown *)
  st_got_view : option string; (** [gotItemsEl.textContent] *)
  st_remaining_view : option string; (** [remainingItemsEl.textContent] *)
  st_name_view : option string; (** the profile card's [strong] text *)
  st_email_view : option string; (** the profile card's last [p] text *)
  st_alerts : list string; (** the messages shown by [alert], latest last *)
  st_location : option string; (** [window.location.href] once assigned *)
  st_loaded : bool (** whether [DOMContentLoaded] has been dispatched *)
}.

(** Field updates of [St]. *)
Definition upd_list (g : list li -> list li) (s : St) : St :=
  mkSt (g (st_list s)) (st_items s) (st_total s) (st_got s) (st_showingDemo s) (st_profile s) (st_storage s) (st_input s) (st_focused s) (st_total_view s) (st_got_view s) (st_remaining_view s) (st_name_view s) (st_email_view s) (st_alerts s) (st_location s) (st_loaded s).
Definition upd_items (g : list item -> list item) (s : St) : St :=
  mkSt (st_list s) (g (st_items s)) (st_total s) (st_got s) (st_showingDemo s) (st_profile s) (st_storage s) (st_input s) (st_focused s) (st_total_view s) (st_got_view s) (st_remaining_view s) (st_name_view s) (st_email_view s) (st_alerts s) (st_location s) (st_loaded s).
Definition upd_total (g : Z -> Z) (s : St) : St :=
  mkSt (st_list s) (st_items s) (g (st_total s)) (st_got s) (st_showingDemo s) (st_profile s) (st_storage s) (st_input s) (st_focused s) (st_total_view s) (st_got_view s) (st_remaining_view s) (st_name_view s) (st_email_view s) (st_alerts s) (st_location s) (st_loaded s).
Definition upd_got (g : Z -> Z) (s : St) : St :=
  mkSt (st_list s) (st_items s) (st_total s) (g (st_got s)) (st_showingDemo s) (st_profile s) (st_storage s) (st_input s) (st_focused s) (st_total_view s) (st_got_view s) (st_remaining_view s) (st_name_view s) (st_email_view s) (st_alerts s) (st_location s) (st_loaded s).
Definition upd_showingDemo (g : bool -> bool) (s : St) : St :=
  mkSt (st_list s) (st_items s) (st_total s) (st_got s) (g (st_showingDemo s)) (st_profile s) (st_storage s) (st_input s) (st_focused s) (st_total_view s) (st_got_view s) (st_remaining_view s) (st_name_view s) (st_email_view s) (st_alerts s) (st_location s) (st_loaded s).
Definition upd_profile (g : value -> value) (s : St) : St :=
  mkSt (st_list s) (st_items s) (st_total s) (st_got s) (st_showingDemo s) (g (st_profile s)) (st_storage s) (st_input s) (st_focused s) (st_total_view s) (st_got_view s) (st_remaining_view s) (st_name_view s) (st_email_view s) (st_alerts s) (st_location s) (st_loaded s).
Definition upd_storage (g : gmap string string -> gmap string string) (s : St) : St :=
  mkSt (st_list s) (st_items s) (st_total s) (st_got s) (st_showingDemo s) (st_profile s) (g (st_storage s)) (st_input s) (st_focused s) (st_total_view s) (st_got_view s) (st_remaining_view s) (st_name_view s) (st_email_view s) (st_alerts s) (st_location s) (st_loaded s).
Definition upd_input (g : string -> string) (s : St) : St :=
  mkSt (st_list s) (st_items s) (st_total s) (st_got s) (st_showingDemo s) (st_profile s) (st_storage s) (g (st_input s)) (st_focused s) (st_total_view s) (st_got_view s) (st_remaining_view s) (st_name_view s) (st_email_view s) (st_alerts s) (st_location s) (st_loaded s).
Definition upd_focused (g : bool -> bool) (s : St) : St :=
  mkSt (st_list s) (st_items s) (st_total s) (st_got s) (st_showingDemo s) (st_profile s) (st_storage s) (st_input s) (g (st_focused s)) (st_total_view s) (st_got_view s) (st_remaining_view s) (st_name_view s) (st_email_view s) (st_alerts s) (st_location s) (st_loaded s).
Definition upd_total_view (g : option string -> option string) (s : St) : St :=
  mkSt (st_list s) (st_items s) (st_total s) (st_got s) (st_showingDemo s) (st_profile s) (st_storage s) (st_input s) (st_focused s) (g (st_total_view s)) (st_got_view s) (st_remaining_view s) (st_name_view s) (st_email_view s) (st_alerts s) (st_location s) (st_loaded s).
Definition upd_got_view (g : option string -> option string) (s : St) : St :=
  mkSt (st_list s) (st_items s) (st_total s) (st_got s) (st_showingDemo s) (st_profile s) (st_storage s) (st_input s) (st_focused s) (st_total_view s) (g (st_got_view s)) (st_remaining_view s) (st_name_view s) (st_email_view s) (st_alerts s) (st_location s) (st_loaded s).
Definition upd_remaining_view (g : option string -> option string) (s : St) : St :=
  mkSt (st_list s) (st_items s) (st_total s) (st_got s) (st_showingDemo s) (st_profile s) (st_storage s) (st_input s) (st_focused s) (st_total_view s) (st_got_view s) (g (st_remaining_view s)) (st_name_view s) (st_email_view s) (st_alerts s) (st_location s) (st_loaded s).
Definition upd_name_view (g : option string -> option string) (s : St) : St :=
  mkSt (st_list s) (st_items s) (st_total s) (st_got s) (st_showingDemo s) (st_profile s) (st_storage s) (st_input s) (st_focused s) (st_total_view s) (st_got_view s) (st_remaining_view s) (g (st_name_view s)) (st_email_view s) (st_alerts s) (st_location s) (st_loaded s).
Definition upd_email_view (g : option string -> option string) (s : St) : St :=
  mkSt (st_list s) (st_items s) (st_total s) (st_got s) (st_showingDemo s) (st_profile s) (st_storage s) (st_input s) (st_focused s) (st_total_view s) (st_got_view s) (st_remaining_view s) (st_name_view s) (g (st_email_view s)) (st_alerts s) (st_location s) (st_loaded s).
Definition upd_alerts (g : list string -> list string) (s : St) : St :=
  mkSt (st_list s) (st_items s) (st_total s) (st_got s) (st_showingDemo s) (st_profile s) (st_storage s) (st_input s) (st_focused s) (st_total_view s) (st_got_view s) (st_remaining_view s) (st_name_view s) (st_email_view s) (g (st_alerts s)) (st_location s) (st_loaded s).
Definition upd_location (g : option string -> option string) (s : St) : St :=
  mkSt (st_list s) (st_items s) (st_total s) (st_got s) (st_showingDemo s) (st_profile s) (st_storage s) (st_input s) (st_focused s) (st_total_view s) (st_got_view s) (st_remaining_view s) (st_name_view s) (st_email_view s) (st_alerts s) (g (st_location s)) (st_loaded s).
Definition upd_loaded (g : bool -> bool) (s : St) : St :=
  mkSt (st_list s) (st_items s) (st_total s) (st_got s) (st_showingDemo s) (st_profile s) (st_storage s) (st_input s) (st_focused s) (st_total_view s) (st_got_view s) (st_remaining_view s) (st_name_view s) (st_email_view s) (st_alerts s) (st_location s) (g (st_loaded s)).

(** Read the fields of a state built by field updates: [cbn] unfolds an
    update only under the projection that reads it, so the state term
    does not grow. *)
Ltac st_fields_once :=
  cbn [upd_list upd_items upd_total upd_got upd_showingDemo upd_profile upd_storage
       upd_input upd_focused upd_total_view upd_got_view upd_remaining_view upd_name_view
       upd_email_view upd_alerts upd_location upd_loaded
       st_list st_items st_total st_got st_showingDemo st_profile st_storage st_input
       st_focused st_total_view st_got_view st_remaining_view st_name_view st_email_view
       st_alerts st_location st_loaded fst snd negb] in *.
Ltac st_fields := st_fields_once; st_fields_once.

(** The state of a page before its script runs: nothing rendered, nothing
    loaded, and [localStorage] as an earlier session left it. *)
Definition fresh_state (store : gmap string string) : St :=
  mkSt [] [] 0%Z 0%Z false VNull store EmptyString false None None None None None [] None false.

(** The handlers' monad: state [St], exceptions [exn]. *)
Notation M := (stm St exn).

(** Accessing an element that the markup lacks: [null.prop] throws. *)
Definition need (present : bool) (what : string) : M unit :=
  if present then st_ret tt else st_throw (TypeError ("Cannot access " +:+ what +:+ " of null")).

(** [localStorage.getItem(k)]: [None] is [null]. *)
Definition getItem (k : string) : M (option string) :=
  s <- st_get ;; st_ret (st_storage s !! k).

(** [localStorage.setItem(k, v)]: the value is converted by [ToString]. *)
Definition setItem (k : string) (v : value) : M unit :=
  st_modify (upd_storage (insert k (to_string v))).

(** ** Entries of the list *)

(** Entries that are real, i.e. not demo placeholders. *)
Definition is_real (x : li) : bool := negb (li_demo x).

(** Real entries with class [got]. *)
Definition is_real_got (x : li) : bool := negb (li_demo x) && li_got x.

(** Real entries without class [got]: the items still needed. *)
Definition is_real_need (x : li) : bool := negb (li_demo x) && negb (li_got x).

(** [li.classList.toggle("got")]. *)
Definition toggle_got (x : li) : li :=
  mkLi (li_demo x) (negb (li_got x)) (li_text x) (li_display x).

Definition set_display (d : display) (x : li) : li :=
  mkLi (li_demo x) (li_got x) (li_text x) (Some d).

(** The markup of a page with the shopping list: the input, the list and
    the three stats fields. *)
Definition list_page (pg : page) : Prop :=
  pg_itemInput pg = true /\ pg_itemList pg = true /\ pg_totalItems pg = true /\
  pg_gotItems pg = true /\ pg_remainingItems pg = true.

(** Two states that agree on everything the list controller keeps: the
    entries, [items], the counters, the demo flag and the stats fields. *)
Definition same_list_state (s s' : St) : Prop :=
  st_list s' = st_list s /\ st_items s' = st_items s /\
  st_total s' = st_total s /\ st_got s' = st_got s /\
  st_showingDemo s' = st_showingDemo s /\
  st_total_view s' = st_total_view s /\ st_got_view s' = st_got_view s /\
  st_remaining_view s' = st_remaining_view s.

(** It is an equivalence, coarser than equality: the list invariant and
    the representation of the abstract list respect it. *)
#[export] Instance same_list_state_equiv : Equivalence same_list_state.
Proof.
  unfold same_list_state. split.
  - intros s. auto 10.
  - intros s s' H. intuition congruence.
  - intros s1 s2 s3 H1 H2. intuition congruence.
Qed.

#[export] Hint Unfold need getItem setItem : handlers.
