(* ===== verification/Json.v ===== *)
(** * [JSON.stringify] and [JSON.parse]

    The script persists with [JSON.stringify] (lines 168 and 198) and
    reads back with [JSON.parse] (lines 27 and 37).  Both are built-ins,
    modelled here from ECMA-262 (SerializeJSONProperty, QuoteJSONString,
    and the JSON grammar of ECMA-404) on the values of [JsValue]:

    - [stringify] returns [None] for [undefined] (the built-in returns
      [undefined]); inside an array [undefined] becomes [null]; an object
      property whose value is [undefined] is left out;
    - [json_parse] throws [SyntaxError] on text that is not JSON.  The
      model's numbers are integers: a number with a fraction or an
      exponent, and a [\uXXXX] escape of a code unit above 255, are
      outside the values modelled and are rejected by the model (the
      built-in accepts them).  [in_fragment] tests for these constructs:
      on a text that passes it, [json_parse] rejects exactly what the
      built-in rejects.  Everything the script itself writes is in the
      modelled fragment: see [JsonRoundtrip].

    The parser runs on fuel; [JsonFuel] shows that the fuel [json_parse]
    gives it never decides the result. *)

From S2P Require Import Prelude JsString JsValue.
From Stdlib Require Import Ascii DecimalString.

Module Stringify.

Definition dq : ascii := ascii_of_nat 34.   (** the double quote *)
Definition bsl : ascii := ascii_of_nat 92.  (** the backslash *)

(** A lower-case hexadecimal digit. *)
Definition hex_digit (n : nat) : ascii :=
  ascii_of_nat (if n <? 10 then 48 + n else 87 + n).

(** One code unit of QuoteJSONString. *)
Definition escape_char (c : ascii) : string :=
  let n := nat_of_ascii c in
  if n =? 8 then String bsl "b"
  else if n =? 9 then String bsl "t"
  else if n =? 10 then String bsl "n"
  else if n =? 12 then String bsl "f"
  else if n =? 13 then String bsl "r"
  else if n =? 34 then String bsl (String dq EmptyString)
  else if n =? 92 then String bsl (String bsl EmptyString)
  else if n <? 32 then
    String bsl ("u00" +:+ String (hex_digit (n / 16)) (String (hex_digit (n mod 16)) EmptyString))
  else String c EmptyString.

Fixpoint quote_chars (s : string) : string :=
  match s with
  | EmptyString => EmptyString
  | String c s' => escape_char c +:+ quote_chars s'
  end.

(** QuoteJSONString. *)
Definition quote (s : string) : string :=
  String dq (quote_chars s +:+ String dq EmptyString).

(** The elements joined with commas. *)
Fixpoint join_comma (l : list string) : string :=
  match l with
  | [] => EmptyString
  | [x] => x
  | x :: l' => x +:+ "," +:+ join_comma l'
  end.

(** SerializeJSONProperty. *)
Fixpoint stringify (v : value) : option string :=
  match v with
  | VUndefined => None
  | VNull => Some "null"
  | VBool b => Some (if b then "true" else "false")
  | VNum n => Some (Z_to_string n)
  | VStr s => Some (quote s)
  | VArr l =>
      Some ("[" +:+ join_comma
               ((fix elems (l : list value) : list string :=
                   match l with
                   | [] => []
                   | x :: l' => default "null" (stringify x) :: elems l'
                   end) l) +:+ "]")
  | VObj ps =>
      Some ("{" +:+ join_comma
               ((fix members (ps : list (string * value)) : list string :=
                   match ps with
                   | [] => []
                   | (k, x) :: ps' =>
                       match stringify x with
                       | Some sx => (quote k +:+ ":" +:+ sx) :: members ps'
                       | None => members ps'
                       end
                   end) ps) +:+ "}")
  end.

(** [JSON.stringify(v)] as a JavaScript value. *)
Definition json_stringify (v : value) : value :=
  match stringify v with
  | Some s => VStr s
  | None => VUndefined
  end.

End Stringify.
Export Stringify.

Module Parse.

(** JSON whitespace: TAB, LF, CR, SPACE. *)
Definition is_json_ws (c : ascii) : bool :=
  bool_decide (nat_of_ascii c ∈ [9; 10; 13; 32]).

Fixpoint skip_ws (s : string) : string :=
  match s with
  | String c s' => if is_json_ws c then skip_ws s' else s
  | EmptyString => s
  end.

Definition is_digit (c : ascii) : bool :=
  bool_decide (48 <= nat_of_ascii c <= 57).

Definition digit_val (c : ascii) : N := N.of_nat (nat_of_ascii c - 48).

(** The digits at the head of [s], as a number, and the rest. *)
Fixpoint take_digits (acc : N) (s : string) : N * string :=
  match s with
  | String c s' => if is_digit c then take_digits (acc * 10 + digit_val c)%N s' else (acc, s)
  | EmptyString => (acc, s)
  end.

(** [s] starts with the given character. *)
Definition starts (c : ascii) (s : string) : bool :=
  match s with
  | String c' _ => bool_decide (c' = c)
  | EmptyString => false
  end.

(** The number grammar [-? (0 | [1-9][0-9]* )], without fraction or
    exponent (see the file header). *)
Definition parse_number (s : string) : option (Z * string) :=
  let '(neg, s1) := match s with
                    | String c r => if bool_decide (c = "-"%char) then (true, r) else (false, s)
                    | EmptyString => (false, s)
                    end in
  match s1 with
  | String c r =>
      if is_digit c then
        let '(n, rest) := if bool_decide (c = "0"%char) then (0%N, r)
                          else take_digits (digit_val c) r in
        if starts "."%char rest || starts "e"%char rest || starts "E"%char rest
        then None
        else Some ((if neg then Z.opp (Z.of_N n) else Z.of_N n), rest)
      else None
  | EmptyString => None
  end.

Definition hex_val (c : ascii) : option nat :=
  let n := nat_of_ascii c in
  if (48 <=? n) && (n <=? 57) then Some (n - 48)
  else if (97 <=? n) && (n <=? 102) then Some (n - 87)
  else if (65 <=? n) && (n <=? 70) then Some (n - 55)
  else None.

(** The body of a string literal after its opening quote: its
    characters and the text after the closing quote. *)
Fixpoint parse_chars (s : string) : option (string * string) :=
  match s with
  | EmptyString => None
  | String c r =>
      let n := nat_of_ascii c in
      if n =? 34 then Some (EmptyString, r)
      else if n <? 32 then None
      else if n =? 92 then
        match r with
        | String e r' =>
            let m := nat_of_ascii e in
            let unesc := if m =? 34 then Some dq
                         else if m =? 92 then Some bsl
                         else if m =? 47 then Some "/"%char
                         else if m =? 98 then Some (ascii_of_nat 8)
                         else if m =? 102 then Some (ascii_of_nat 12)
                         else if m =? 110 then Some (ascii_of_nat 10)
                         else if m =? 114 then Some (ascii_of_nat 13)
                         else if m =? 116 then Some (ascii_of_nat 9)
                         else None in
            match unesc with
            | Some u =>
                match parse_chars r' with
                | Some (t, rest) => Some (String u t, rest)
                | None => None
                end
            | None =>
                if m =? 117 then
                  match r' with
                  | String h1 (String h2 (String h3 (String h4 r''))) =>
                      match hex_val h1, hex_val h2, hex_val h3, hex_val h4 with
                      | Some a, Some b, Some c3, Some d =>
                          let code := ((a * 16 + b) * 16 + c3) * 16 + d in
                          if code <? 256 then
                            match parse_chars r'' with
                            | Some (t, rest) => Some (String (ascii_of_nat code) t, rest)
                            | None => None
                            end
                          else None
                      | _, _, _, _ => None
                      end
                  | _ => None
                  end
                else None
            end
        | EmptyString => None
        end
      else match parse_chars r with
           | Some (t, rest) => Some (String c t, rest)
           | None => None
           end
  end.

(** [s] without its first character. *)
Definition drop1 (s : string) : string :=
  match s with
  | String _ r => r
  | EmptyString => EmptyString
  end.

(** [s] starts with the characters of [lit]; the rest. *)
Fixpoint expect (lit s : string) : option string :=
  match lit, s with
  | EmptyString, _ => Some s
  | String c lit', String c' s' => if bool_decide (c = c') then expect lit' s' else None
  | String _ _, EmptyString => None
  end.

(** A value, the elements of an array after [\[], the members of an
    object after [{]; [fuel] bounds the nesting and the number of
    elements (the length of the text is enough). *)
Fixpoint parse_value (fuel : nat) (s : string) : option (value * string) :=
  match fuel with
  | O => None
  | S f =>
      match skip_ws s with
      | EmptyString => None
      | String c r as s0 =>
          if bool_decide (c = "n"%char) then
            option_map (fun r' => (VNull, r')) (expect "ull" r)
          else if bool_decide (c = "t"%char) then
            option_map (fun r' => (VBool true, r')) (expect "rue" r)
          else if bool_decide (c = "f"%char) then
            option_map (fun r' => (VBool false, r')) (expect "alse" r)
          else if bool_decide (c = dq) then
            option_map (fun p => (VStr p.1, p.2)) (parse_chars r)
          else if bool_decide (c = "["%char) then
            if starts "]"%char (skip_ws r) then
              Some (VArr [], drop1 (skip_ws r))
            else parse_elems f r []
          else if bool_decide (c = "{"%char) then
            if starts "}"%char (skip_ws r) then
              Some (VObj [], drop1 (skip_ws r))
            else parse_members f r []
          else option_map (fun p => (VNum p.1, p.2)) (parse_number s0)
      end
  end
with parse_elems (fuel : nat) (s : string) (acc : list value) : option (value * string) :=
  match fuel with
  | O => None
  | S f =>
      match parse_value f s with
      | Some (v, r) =>
          match skip_ws r with
          | String c r' =>
              if bool_decide (c = ","%char) then parse_elems f r' (acc ++ [v])
              else if bool_decide (c = "]"%char) then Some (VArr (acc ++ [v]), r')
              else None
          | EmptyString => None
          end
      | None => None
      end
  end
with parse_members (fuel : nat) (s : string) (ps : list (string * value))
  : option (value * string) :=
  match fuel with
  | O => None
  | S f =>
      match skip_ws s with
      | String c r =>
          if bool_decide (c = dq) then
            match parse_chars r with
            | Some (k, r1) =>
                match skip_ws r1 with
                | String c1 r2 =>
                    if bool_decide (c1 = ":"%char) then
                      match parse_value f r2 with
                      | Some (v, r3) =>
                          match skip_ws r3 with
                          | String c3 r4 =>
                              if bool_decide (c3 = ","%char) then parse_members f r4 (set_prop k v ps)
                              else if bool_decide (c3 = "}"%char) then Some (VObj (set_prop k v ps), r4)
                              else None
                          | EmptyString => None
                          end
                      | None => None
                      end
                    else None
                | EmptyString => None
                end
            | None => None
            end
          else None
      | EmptyString => None
      end
  end.

(** [JSON.parse(text)]. *)
Definition json_parse (text : string) : res exn value :=
  match parse_value (S (String.length text)) text with
  | Some (v, rest) =>
      match skip_ws rest with
      | EmptyString => Ok v
      | _ => Err (SyntaxError "Unexpected non-whitespace character after JSON")
      end
  | None => Err (SyntaxError "Unexpected token")
  end.

(** A [\uXXXX] escape, after its backslash, of a code unit above 255. *)
Definition wide_escape (s : string) : bool :=
  match s with
  | String u (String h1 (String h2 (String h3 (String h4 _)))) =>
      bool_decide (u = "u"%char) &&
      match hex_val h1, hex_val h2, hex_val h3, hex_val h4 with
      | Some a, Some b, Some c, Some d => 256 <=? ((a * 16 + b) * 16 + c) * 16 + d
      | _, _, _, _ => false
      end
  | _ => false
  end.

(** The texts on which a rejection by [json_parse] is a rejection by
    the built-in: no digit directly followed by [.], [e] or [E] (the
    start of a fraction or an exponent), and no backslash followed by a
    wide [\u] escape.  These are the only places where [parse_number]
    (the test after the digits) and [parse_chars] (the test
    [code <? 256]) reject text that ECMA-404 accepts; every other
    [None] of the parser is a token ECMA-404 rejects too, and the fuel
    never decides the result ([JsonFuel]).  The test ignores string
    boundaries, so it also excludes some texts that are in the
    fragment. *)
Fixpoint in_fragment (s : string) : bool :=
  match s with
  | EmptyString => true
  | String c r =>
      negb (is_digit c && (starts "."%char r || starts "e"%char r || starts "E"%char r)) &&
      negb (bool_decide (nat_of_ascii c = 92) && wide_escape r) &&
      in_fragment r
  end.

End Parse.
Export Parse.

(** ** One step of each parser *)

Lemma parse_value_S f s :
  parse_value (S f) s =
  match skip_ws s with
  | EmptyString => None
  | String c r as s0 =>
      if bool_decide (c = "n"%char) then option_map (fun r' => (VNull, r')) (expect "ull" r)
      else if bool_decide (c = "t"%char) then option_map (fun r' => (VBool true, r')) (expect "rue" r)
      else if bool_decide (c = "f"%char) then option_map (fun r' => (VBool false, r')) (expect "alse" r)
      else if bool_decide (c = dq) then option_map (fun p => (VStr p.1, p.2)) (parse_chars r)
      else if bool_decide (c = "["%char) then
        if starts "]"%char (skip_ws r) then Some (VArr [], drop1 (skip_ws r)) else parse_elems f r []
      else if bool_decide (c = "{"%char) then
        if starts "}"%char (skip_ws r) then Some (VObj [], drop1 (skip_ws r)) else parse_members f r []
      else option_map (fun p => (VNum p.1, p.2)) (parse_number s0)
  end.
Proof. reflexivity. Qed.

Lemma parse_elems_S f s acc :
  parse_elems (S f) s acc =
  match parse_value f s with
  | Some (v, r) =>
      match skip_ws r with
      | String c r' =>
          if bool_decide (c = ","%char) then parse_elems f r' (acc ++ [v])
          else if bool_decide (c = "]"%char) then Some (VArr (acc ++ [v]), r')
          else None
      | EmptyString => None
      end
  | None => None
  end.
Proof. reflexivity. Qed.

Lemma parse_members_S f s ps :
  parse_members (S f) s ps =
  match skip_ws s with
  | String c r =>
      if bool_decide (c = dq) then
        match parse_chars r with
        | Some (k, r1) =>
            match skip_ws r1 with
            | String c1 r2 =>
                if bool_decide (c1 = ":"%char) then
                  match parse_value f r2 with
                  | Some (v, r3) =>
                      match skip_ws r3 with
                      | String c3 r4 =>
                          if bool_decide (c3 = ","%char) then parse_members f r4 (set_prop k v ps)
                          else if bool_decide (c3 = "}"%char) then Some (VObj (set_prop k v ps), r4)
                          else None
                      | EmptyString => None
                      end
                  | None => None
                  end
                else None
            | EmptyString => None
            end
        | None => None
        end
      else None
  | EmptyString => None
  end.
Proof. reflexivity. Qed.
