(* ===== verification/JsonRoundtrip.v ===== *)
(** * [JSON.parse] reads back what [JSON.stringify] writes

    [json_norm] is what the round trip does to a value ([undefined]
    array elements become [null], [undefined] properties disappear);
    [all_reads_back] is the induction over values that the text of
    every value, followed by text that cannot continue it, is parsed
    back; [fuel_bound_length] shows that the fuel [json_parse] gives is
    enough for it.  [json_roundtrip] is the round trip as the script
    performs it through [localStorage] (scripts.js lines 168 and 27). *)

From S2P Require Import Prelude JsString JsValue Json.
From Stdlib Require Import Ascii DecimalString DecimalPos DecimalFacts.

(** ** What [JSON.parse(JSON.stringify(v))] gives back *)

(** [undefined] array elements come back as [null]; object properties
    whose value is [undefined] are dropped, the others are re-created by
    [CreateDataProperty] in text order. *)
Fixpoint json_norm (v : value) : value :=
  match v with
  | VArr l =>
      VArr ((fix elems (l : list value) : list value :=
               match l with
               | [] => []
               | VUndefined :: l' => VNull :: elems l'
               | x :: l' => json_norm x :: elems l'
               end) l)
  | VObj ps =>
      VObj ((fix members (ps : list (string * value)) (acc : list (string * value)) :=
               match ps with
               | [] => acc
               | (_, VUndefined) :: ps' => members ps' acc
               | (k, x) :: ps' => members ps' (set_prop k (json_norm x) acc)
               end) ps [])
  | _ => v
  end.

(** The text and the value an array element stands for. *)
Definition elem_text (x : value) : string := default "null" (stringify x).
Definition elem_norm (x : value) : value :=
  match x with VUndefined => VNull | _ => json_norm x end.

(** The properties [JSON.stringify] writes. *)
Definition present (ps : list (string * value)) : list (string * value) :=
  List.filter (fun kv => match kv.2 with VUndefined => false | _ => true end) ps.

Definition member_text (kv : string * value) : string :=
  quote kv.1 +:+ ":" +:+ default "null" (stringify kv.2).

(** A bound on the fuel [parse_value] needs for the text of [v]. *)
Fixpoint fuel_bound (v : value) : nat :=
  match v with
  | VArr l =>
      1 + (fix elems (l : list value) : nat :=
             match l with [] => 0 | x :: l' => 1 + fuel_bound x + elems l' end) l
  | VObj ps =>
      1 + (fix members (ps : list (string * value)) : nat :=
             match ps with
             | [] => 0
             | (_, VUndefined) :: ps' => members ps'
             | (_, x) :: ps' => 1 + fuel_bound x + members ps'
             end) ps
  | _ => 1
  end.

(** The text after a value: a number must not be followed by a digit, a
    point or an exponent. *)
Definition stops (rest : string) : bool :=
  match rest with
  | EmptyString => true
  | String c _ => negb (is_digit c) && negb (bool_decide (c = "."%char))
                  && negb (bool_decide (c = "e"%char)) && negb (bool_decide (c = "E"%char))
  end.

(** ** Lemmas: the shape of the text [stringify] writes *)

Lemma stringify_arr l :
  stringify (VArr l) = Some ("[" +:+ join_comma (map elem_text l) +:+ "]").
Proof.
  simpl. by f_equal.
Qed.

Lemma stringify_obj ps :
  stringify (VObj ps) = Some ("{" +:+ join_comma (map member_text (present ps)) +:+ "}").
Proof.
  simpl. do 4 f_equal. induction ps as [|[k x] ps IH]; [done|].
  destruct x; simpl; rewrite IH; done.
Qed.

Lemma stringify_defined x : x <> VUndefined -> stringify x = Some (elem_text x).
Proof. unfold elem_text. destruct x; simpl; try done. Qed.

Lemma json_norm_arr l : json_norm (VArr l) = VArr (map elem_norm l).
Proof.
  simpl. f_equal. induction l as [|x l IH]; simpl; [done|].
  rewrite IH. by destruct x.
Qed.

Lemma json_norm_obj ps :
  json_norm (VObj ps) =
  VObj (fold_left (fun acc kv => set_prop kv.1 (json_norm kv.2) acc) (present ps) []).
Proof.
  simpl. f_equal. generalize (@nil (string * value)) as acc.
  induction ps as [|[k x] ps IH]; intros acc; simpl; [done|].
  destruct x; simpl; apply IH.
Qed.

Lemma fuel_bound_arr l :
  fuel_bound (VArr l) = 1 + sum_list_with (fun x => 1 + fuel_bound x) l.
Proof. simpl. by f_equal. Qed.

Lemma fuel_bound_obj ps :
  fuel_bound (VObj ps) = 1 + sum_list_with (fun kv => 1 + fuel_bound kv.2) (present ps).
Proof.
  simpl. f_equal. induction ps as [|[k x] ps IH]; simpl; [done|].
  destruct x; simpl; lia.
Qed.

Lemma parse_chars_quote s rest :
  parse_chars (quote_chars s +:+ String dq rest) = Some (s, rest).
Proof.
  induction s as [|c s IH]; [reflexivity|].
  simpl. rewrite str_app_assoc.
  assert (forall r, parse_chars (escape_char c +:+ r) =
            match parse_chars r with Some (t, rest) => Some (String c t, rest) | None => None end)
    as Hc by (intros r; destruct c as [[] [] [] [] [] [] [] []]; reflexivity).
  by rewrite Hc, IH.
Qed.

(** ** Lemmas: numbers *)

(** The digits of [Pos.to_uint p] are read back by [take_digits]. *)
Lemma take_digits_uint d p rest :
  stops rest = true ->
  take_digits (Npos p) (NilEmpty.string_of_uint d +:+ rest) = (Npos (Pos.of_uint_acc d p), rest).
Proof.
  intros Hr. revert p. induction d; intros p; simpl;
    try (rewrite <- IHd; f_equal; unfold digit_val; simpl; lia).
  destruct rest as [|c r]; [done|]. simpl in *.
  apply andb_prop in Hr as [Hr _]. apply andb_prop in Hr as [Hr _].
  apply andb_prop in Hr as [Hr _]. apply negb_true_iff in Hr. by rewrite Hr.
Qed.

(** The decimal form of a positive number has no leading zero. *)
Lemma pos_to_uint_head p :
  match Pos.to_uint p with Decimal.Nil | Decimal.D0 _ => False | _ => True end.
Proof.
  pose proof (DecimalPos.Unsigned.to_uint_nonzero p) as Hnz.
  pose proof (DecimalPos.Unsigned.to_uint_nonnil p) as Hnn.
  pose proof (DecimalPos.Unsigned.to_of (Pos.to_uint p)) as H.
  rewrite DecimalPos.Unsigned.of_to in H. simpl in H.
  destruct (Pos.to_uint p) as [|l| | | | | | | | |] eqn:E; try done.
  rewrite unorm_D0 in H. destruct (Decimal.nzhead l) eqn:Hl;
    [apply unorm_0 in Hl; rewrite Hl in H; exact (Hnz H) | exact (nzhead_nonzero _ _ Hl) |..].
  all: rewrite unorm_nzhead in H by (by rewrite Hl); rewrite Hl in H; discriminate.
Qed.

Lemma stops_no_fraction rest :
  stops rest = true -> starts "."%char rest || starts "e"%char rest || starts "E"%char rest = false.
Proof.
  destruct rest as [|c r]; [done|]. simpl.
  intros H. repeat (apply andb_prop in H as [H ?]). repeat rewrite negb_true_iff in *.
  by repeat match goal with H : bool_decide _ = false |- _ => rewrite H end.
Qed.

(** [Number::toString] is read back by the number grammar. *)
Lemma parse_number_Z n rest :
  stops rest = true -> parse_number (Z_to_string n +:+ rest) = Some (n, rest).
Proof.
  intros Hr. pose proof (stops_no_fraction rest Hr) as Hf.
  unfold Z_to_string. destruct n as [|p|p].
  - unfold parse_number. simpl. by rewrite str_app_nil_l, Hf.
  - pose proof (pos_to_uint_head p) as Hh. pose proof (DecimalPos.Unsigned.of_to p) as Ho.
    unfold parse_number. simpl. destruct (Pos.to_uint p) eqn:E; try contradiction; simpl in *;
      
      match goal with |- context [take_digits ?a _] =>
        let a' := eval vm_compute in a in change a with a' end;
      rewrite take_digits_uint, Hf by done; simpl; by injection Ho as ->.
  - pose proof (pos_to_uint_head p) as Hh. pose proof (DecimalPos.Unsigned.of_to p) as Ho.
    unfold parse_number. simpl. destruct (Pos.to_uint p) eqn:E; try contradiction; simpl in *;
      
      match goal with |- context [take_digits ?a _] =>
        let a' := eval vm_compute in a in change a with a' end;
      rewrite take_digits_uint, Hf by done; simpl; by injection Ho as ->.
Qed.

(** The characters a number's text starts with. *)
Lemma Z_to_string_head n :
  exists c r, Z_to_string n = String c r /\ (c = "-"%char \/ is_digit c = true).
Proof.
  unfold Z_to_string. pose proof (pos_to_uint_head) as Hh.
  destruct n as [|p|p]; simpl; [by eexists _, _; split; [reflexivity|right]|..];
    specialize (Hh p); destruct (Pos.to_uint p); try contradiction; simpl;
    eexists _, _; (split; [reflexivity|]); auto.
Qed.

(** What [parse_value] does on a text that starts like a number. *)
Lemma parse_value_number_head f c r :
  c = "-"%char \/ is_digit c = true ->
  parse_value (S f) (String c r) = option_map (fun p => (VNum p.1, p.2)) (parse_number (String c r)).
Proof.
  intros H. destruct c as [[] [] [] [] [] [] [] []];
    destruct H as [H|H]; try discriminate; reflexivity.
Qed.

Lemma number_head_not_ws c :
  c = "-"%char \/ is_digit c = true -> is_json_ws c = false /\ c <> "]"%char.
Proof.
  intros H. destruct c as [[] [] [] [] [] [] [] []];
    destruct H as [H|H]; try discriminate; done.
Qed.

(** ** The round trip *)

(** The text of [v], followed by text that cannot continue a number, is
    read back as [json_norm v] by [parse_value] given enough fuel. *)
Definition reads_back (v : value) : Prop :=
  forall t f rest, stringify v = Some t -> fuel_bound v <= f -> stops rest = true ->
    parse_value f (t +:+ rest) = Some (json_norm v, rest).

(** A text that starts with neither whitespace nor a closing bracket. *)
Definition text_head (t : string) : Prop :=
  exists c r, t = String c r /\ is_json_ws c = false /\ c <> "]"%char.

Lemma elem_text_head x : text_head (elem_text x).
Proof.
  unfold elem_text, text_head. destruct x; simpl; try by eexists _, _.
  - destruct b; by eexists _, _.
  - destruct (Z_to_string_head n) as (c & r & -> & Hc). apply number_head_not_ws in Hc. by exists c, r.
Qed.

Lemma skip_ws_head t r : text_head t -> skip_ws (t +:+ r) = t +:+ r.
Proof. intros (c & t' & -> & Hc & _). simpl. by rewrite Hc. Qed.

Lemma starts_close_head t r : text_head t -> starts "]"%char (t +:+ r) = false.
Proof. intros (c & t' & -> & _ & Hc). simpl. by apply bool_decide_false. Qed.


Lemma elem_reads_back x f r :
  reads_back x -> fuel_bound x <= f -> stops r = true ->
  parse_value f (elem_text x +:+ r) = Some (elem_norm x, r).
Proof.
  intros Hx Hf Hr. destruct (decide (x = VUndefined)) as [->|Hne].
  - destruct f as [|f]; [simpl in Hf; lia|]. reflexivity.
  - replace (elem_norm x) with (json_norm x) by (by destruct x).
    apply Hx; [|done..]. by apply stringify_defined.
Qed.

Lemma join_comma_cons2 x y l :
  join_comma (x :: y :: l) = x +:+ "," +:+ join_comma (y :: l).
Proof. reflexivity. Qed.

(** The elements of an array after its [\[]. *)
Lemma parse_elems_join l acc f rest :
  Forall reads_back l -> l <> [] ->
  sum_list_with (fun x => 1 + fuel_bound x) l <= f -> stops rest = true ->
  parse_elems f (join_comma (map elem_text l) +:+ "]" +:+ rest) acc =
  Some (VArr (acc ++ map elem_norm l), rest).
Proof.
  intros Hl. revert acc f. induction Hl as [|x l Hx Hl IH]; intros acc f Hne Hf Hr; [done|].
  destruct f as [|f]; [simpl in Hf; lia|]. simpl in Hf. rewrite parse_elems_S.
  destruct l as [|y l].
  - rewrite (elem_reads_back x f) by (done || lia). reflexivity.
  - rewrite map_cons, map_cons, join_comma_cons2, <- map_cons, !str_app_assoc.
    rewrite (elem_reads_back x f) by (done || lia).
    remember (join_comma (map elem_text (y :: l)) +:+ "]" +:+ rest) as X eqn:HX.
    simpl. subst X. rewrite str_app_nil_l, IH by (try done; simpl in *; lia).
    by rewrite <- app_assoc.
Qed.

Lemma quote_app k r : quote k +:+ r = String dq (quote_chars k +:+ String dq r).
Proof. unfold quote. rewrite str_app_cons, str_app_assoc. reflexivity. Qed.

(** One member: its key, the colon, then its value. *)
Lemma parse_members_key f k t acc :
  parse_members (S f) (quote k +:+ ":" +:+ t) acc =
  match parse_value f t with
  | Some (v, r3) =>
      match skip_ws r3 with
      | String c3 r4 =>
          if bool_decide (c3 = ","%char) then parse_members f r4 (set_prop k v acc)
          else if bool_decide (c3 = "}"%char) then Some (VObj (set_prop k v acc), r4)
          else None
      | EmptyString => None
      end
  | None => None
  end.
Proof.
  rewrite quote_app. remember (":" +:+ t) as u eqn:Hu. simpl.
  rewrite parse_chars_quote. by subst u.
Qed.

Lemma elem_norm_defined x : x <> VUndefined -> elem_norm x = json_norm x.
Proof. by destruct x. Qed.

(** The members of an object after its [{]. *)
Lemma parse_members_join qs acc f rest :
  Forall (fun kv => reads_back kv.2 /\ kv.2 <> VUndefined) qs -> qs <> [] ->
  sum_list_with (fun kv => 1 + fuel_bound kv.2) qs <= f -> stops rest = true ->
  parse_members f (join_comma (map member_text qs) +:+ "}" +:+ rest) acc =
  Some (VObj (fold_left (fun acc kv => set_prop kv.1 (json_norm kv.2) acc) qs acc), rest).
Proof.
  intros Hq. revert acc f.
  induction Hq as [|[k x] qs [Hx Hd] Hq IH]; intros acc f Hne Hf Hr; [done|].
  destruct f as [|f]; [simpl in Hf; lia|]. simpl in Hf.
  destruct qs as [|q qs].
  - simpl map. unfold join_comma, member_text. rewrite !str_app_assoc, parse_members_key.
    rewrite (elem_reads_back x f), elem_norm_defined by (done || lia). reflexivity.
  - rewrite map_cons, map_cons, join_comma_cons2, <- map_cons.
    unfold member_text at 1. rewrite !str_app_assoc, parse_members_key.
    rewrite (elem_reads_back x f), elem_norm_defined by (done || lia).
    remember (join_comma (map member_text (q :: qs)) +:+ "}" +:+ rest) as X eqn:HX.
    simpl. subst X. rewrite str_app_nil_l, IH by (try done; simpl in *; lia).
    reflexivity.
Qed.

Lemma parse_value_dq f r :
  parse_value (S f) (String dq r) = option_map (fun p => (VStr p.1, p.2)) (parse_chars r).
Proof. reflexivity. Qed.

Lemma parse_value_open_arr f r :
  starts "]"%char (skip_ws r) = false -> parse_value (S f) (String "[" r) = parse_elems f r [].
Proof. intros H. simpl. by rewrite H. Qed.

Lemma parse_value_open_obj f r :
  starts "}"%char (skip_ws r) = false -> parse_value (S f) (String "{" r) = parse_members f r [].
Proof. intros H. simpl. by rewrite H. Qed.

Lemma text_head_join a l : text_head a -> text_head (join_comma (a :: l)).
Proof.
  intros (c & r & -> & Hc). destruct l as [|b l]; [by exists c, r|].
  by exists c, (r +:+ "," +:+ join_comma (b :: l)).
Qed.

Lemma member_join_head q qs r :
  exists u, join_comma (map member_text (q :: qs)) +:+ r = String dq u.
Proof. destruct qs; eexists; reflexivity. Qed.

Lemma Forall_present (P : value -> Prop) ps :
  Forall (fun kv => P kv.2) ps ->
  Forall (fun kv => P kv.2 /\ kv.2 <> VUndefined) (present ps).
Proof.
  induction 1 as [|[k x] ps Hx Hps IH]; [constructor|].
  destruct x; simpl; try constructor; auto.
Qed.

(** Every value is read back. *)
Lemma all_reads_back v : reads_back v.
Proof.
  induction v as [| | b | n | s | l Hl | ps Hps] using value_ind';
    intros t f rest Ht Hf Hr; (destruct f as [|f]; [simpl in Hf; lia|]).
  - done.
  - simpl in Ht. by simplify_eq.
  - simpl in Ht. simplify_eq. by destruct b.
  - simpl in Ht. simplify_eq. destruct (Z_to_string_head n) as (c & r & Hn & Hc).
    rewrite Hn, str_app_cons, parse_value_number_head, <- str_app_cons, <- Hn by done.
    by rewrite parse_number_Z.
  - simpl in Ht. simplify_eq. unfold quote.
    rewrite str_app_cons, parse_value_dq, (str_app_assoc (quote_chars s)).
    change (String dq EmptyString +:+ rest) with (String dq rest).
    by rewrite parse_chars_quote.
  - rewrite stringify_arr in Ht. simplify_eq. rewrite json_norm_arr.
    rewrite fuel_bound_arr in Hf. destruct l as [|x l]; [reflexivity|].
    rewrite str_app_char_l, str_app_assoc, parse_value_open_arr.
    + rewrite parse_elems_join; [reflexivity|exact Hl|done|lia|done].
    + rewrite skip_ws_head; [apply starts_close_head|]; apply text_head_join, elem_text_head.
  - rewrite stringify_obj in Ht. simplify_eq. rewrite json_norm_obj.
    rewrite fuel_bound_obj in Hf. destruct (present ps) as [|q qs] eqn:Hp; [reflexivity|].
    rewrite str_app_char_l, str_app_assoc, parse_value_open_obj.
    + rewrite parse_members_join; [reflexivity| |done|lia|done].
      rewrite <- Hp. by apply Forall_present.
    + destruct (member_join_head q qs ("}" +:+ rest)) as [u ->]. reflexivity.
Qed.

(** ** The fuel [JSON.parse] gives is enough *)

Lemma join_comma_length ls :
  sum_list_with (fun s => S (String.length s)) ls <= S (String.length (join_comma ls)).
Proof.
  induction ls as [|a [|b ls] IH]; [simpl; lia|simpl; lia|].
  rewrite join_comma_cons2, !str_length_app. simpl in *. lia.
Qed.

Lemma sum_le_join {A} (h : A -> string) (g : A -> nat) l :
  Forall (fun a => g a <= String.length (h a)) l ->
  sum_list_with (fun a => S (g a)) l <= S (String.length (join_comma (map h l))).
Proof.
  intros Hl. etrans; [|apply join_comma_length].
  induction Hl; simpl; lia.
Qed.

Lemma fuel_bound_length v t : stringify v = Some t -> fuel_bound v <= String.length t.
Proof.
  revert t. induction v as [| | b | n | s | l Hl | ps Hps] using value_ind'; intros t Ht.
  - done.
  - simpl in Ht. simplify_eq. simpl. lia.
  - simpl in Ht. simplify_eq. destruct b; simpl; lia.
  - simpl in Ht. simplify_eq. destruct (Z_to_string_head n) as (c & r & -> & _). simpl. lia.
  - simpl in Ht. simplify_eq. simpl. lia.
  - rewrite stringify_arr in Ht. simplify_eq. rewrite fuel_bound_arr, str_length_app.
    simpl. rewrite str_length_app. simpl.
    enough (sum_list_with (fun x => S (fuel_bound x)) l <=
              S (String.length (join_comma (map elem_text l)))) by lia.
    apply sum_le_join. eapply Forall_impl; [exact Hl|]. intros x Hx. unfold elem_text.
    destruct (stringify x) eqn:Hs; [by apply Hx|]. destruct x; done || (simpl; lia).
  - rewrite stringify_obj in Ht. simplify_eq. rewrite fuel_bound_obj, str_length_app.
    simpl. rewrite str_length_app. simpl.
    enough (sum_list_with (fun kv => S (fuel_bound kv.2)) (present ps) <=
              S (String.length (join_comma (map member_text (present ps))))) by lia.
    apply sum_le_join. eapply Forall_impl; [exact (Forall_present (fun x => forall t, stringify x = Some t -> fuel_bound x <= String.length t) _ Hps)|].
    intros [k x] [Hx Hd]. unfold member_text. simpl.
    destruct (stringify x) eqn:Hs; [|by destruct x].
    rewrite !str_length_app. simpl in *. specialize (Hx _ Hs). lia.
Qed.

(** [JSON.parse] reads back the text [stringify] writes. *)
Lemma json_parse_stringify v t : stringify v = Some t -> json_parse t = Ok (json_norm v).
Proof.
  intros Ht. unfold json_parse.
  pose proof (all_reads_back v t (S (String.length t)) EmptyString Ht) as H.
  rewrite str_app_nil_r in H. rewrite H; [reflexivity| |done].
  pose proof (fuel_bound_length v t Ht). lia.
Qed.

(** C20: [JSON.parse(JSON.stringify(v))], with the [ToString] that
    [localStorage.setItem] applies in between, gives back every value
    but [undefined], up to the normalisation [json_norm] ([undefined]
    elements become [null], [undefined] properties are dropped). *)
Theorem json_roundtrip v :
  v <> VUndefined -> json_parse (to_string (json_stringify v)) = Ok (json_norm v).
Proof.
  intros Hv. unfold json_stringify. rewrite (stringify_defined v Hv). simpl.
  by apply json_parse_stringify, stringify_defined.
Qed.
