(* ===== verification/JsonFuel.v ===== *)
(** * The fuel of [JSON.parse] never decides its result

    [Json.parse_value] is a structural recursion on fuel; [json_parse]
    gives it one more than the length of the text.  This file shows
    that the fuel is only a device: every call consumes text
    ([parse_shortens]), and a parse that succeeds with some fuel
    succeeds with any fuel above the length of the text it consumes
    ([parse_fuel_enough]).
    Hence [JSON.parse] as modelled is a total function of the text:
    every fuel beyond the length of the text gives the same answer
    ([parse_value_fuel]). *)

From S2P Require Import Prelude JsString JsValue Json.
From Stdlib Require Import Ascii.

(** ** The helpers return a suffix of their input *)

Lemma skip_ws_length s : String.length (skip_ws s) <= String.length s.
Proof. induction s as [|c s IH]; simpl; [lia|]. destruct (is_json_ws c); simpl; lia. Qed.

Lemma take_digits_length acc s : String.length (take_digits acc s).2 <= String.length s.
Proof.
  revert acc. induction s as [|c s IH]; intros acc; simpl; [lia|].
  destruct (is_digit c); simpl; [specialize (IH (acc * 10 + digit_val c)%N); lia|lia].
Qed.

Lemma parse_number_length s n r :
  parse_number s = Some (n, r) -> String.length r < String.length s.
Proof.
  unfold parse_number. intros H.
  destruct s as [|c s]; [done|]. simpl in H.
  assert (forall c' s' acc, is_digit c' = true ->
            String.length (let '(_, rest) := if bool_decide (c' = "0"%char) then (0%N, s')
                                             else take_digits acc s' in rest) <= String.length s')
    as Hd by (intros c' s' acc _; destruct (bool_decide (c' = "0"%char)); [simpl; lia|];
              pose proof (take_digits_length acc s'); destruct (take_digits acc s'); simpl in *; lia).
  case_bool_decide.
  - destruct s as [|c' s]; [done|]. destruct (is_digit c') eqn:Hc'; [|done].
    specialize (Hd c' s (digit_val c') Hc').
    destruct (if bool_decide (c' = "0"%char) then _ else _) as [m rest].
    destruct (_ || _); [done|]. simplify_eq/=. lia.
  - destruct (is_digit c) eqn:Hc; [|done]. specialize (Hd c s (digit_val c) Hc).
    destruct (if bool_decide (c = "0"%char) then _ else _) as [m rest].
    destruct (_ || _); [done|]. simplify_eq/=. lia.
Qed.

Lemma parse_chars_length s t r :
  parse_chars s = Some (t, r) -> String.length r < String.length s.
Proof.
  remember (String.length s) as n eqn:Hn. revert s t r Hn.
  induction n as [n IH] using lt_wf_ind. intros s t r -> H.
  destruct s as [|c s1]; [done|]. simpl in H.
  repeat (case_match; simplify_eq/=; try done; try lia);
    match goal with
    | H : parse_chars ?x = Some (_, _) |- _ =>
        opose proof (IH (String.length x) _ x _ _ eq_refl H); [simpl in *; lia|simpl in *; lia]
    end.
Qed.

Lemma expect_length lit s r : expect lit s = Some r -> String.length r <= String.length s.
Proof.
  revert s. induction lit as [|c lit IH]; intros [|c' s] H; simpl in H; try by simplify_eq.
  case_bool_decide; [|done]. apply IH in H. simpl. lia.
Qed.

Lemma drop1_skip_length x : String.length (drop1 (skip_ws x)) <= String.length x.
Proof. pose proof (skip_ws_length x). destruct (skip_ws x); simpl in *; lia. Qed.

(** ** Every parse consumes text *)

(** What the three parsers promise at a given fuel: the text they leave
    is strictly shorter than the text they were given. *)
Definition shortens_at (n : nat) : Prop :=
  (forall s v r, parse_value n s = Some (v, r) -> String.length r < String.length s) /\
  (forall s acc v r, parse_elems n s acc = Some (v, r) -> String.length r < String.length s) /\
  (forall s ps v r, parse_members n s ps = Some (v, r) -> String.length r < String.length s).

(** Turn the equations a case analysis leaves into length facts: the
    helpers' ones here, the parsers' ones by [tac]. *)
Ltac length_facts_with tac :=
  repeat (match goal with
          | p : prod _ _ |- _ => destruct p
          | H : skip_ws ?x = ?y |- _ =>
              let L := fresh "L" in pose proof (skip_ws_length x) as L; rewrite H in L; clear H
          | H : parse_chars _ = Some (_, _) |- _ => apply parse_chars_length in H
          | H : parse_number _ = Some (_, _) |- _ => apply parse_number_length in H
          | H : expect _ _ = Some _ |- _ => apply expect_length in H
          end || tac);
  try match goal with |- context [drop1 (skip_ws ?x)] => pose proof (drop1_skip_length x) end;
  simpl in *; lia.

Ltac length_facts IHv IHe IHm :=
  length_facts_with ltac:(idtac; match goal with
    | H : parse_value _ _ = Some (_, _) |- _ => apply IHv in H
    | H : parse_elems _ _ _ = Some (_, _) |- _ => apply IHe in H
    | H : parse_members _ _ _ = Some (_, _) |- _ => apply IHm in H
    end).

Lemma parse_shortens n : shortens_at n.
Proof.
  induction n as [|n (IHv & IHe & IHm)]; [split; [|split]; intros; simpl in *; discriminate|].
  split; [|split]; intros s; [intros v r|intros acc v r|intros ps v r]; intros H; simpl in H; unfold option_map in H;
    repeat (case_match; simplify_eq/=; try done); length_facts IHv IHe IHm.
Qed.

(** The length facts of any parse, by [parse_shortens]. *)
Ltac shorten_facts :=
  length_facts_with ltac:(idtac; match goal with
    | H : parse_value _ _ = Some (_, _) |- _ => apply (proj1 (parse_shortens _)) in H
    | H : parse_elems _ _ _ = Some (_, _) |- _ => apply (proj1 (proj2 (parse_shortens _))) in H
    | H : parse_members _ _ _ = Some (_, _) |- _ => apply (proj2 (proj2 (parse_shortens _))) in H
    end).

(** ** Fuel above the length of the consumed text is enough *)

Definition enough_at (n : nat) : Prop :=
  (forall s v r, parse_value n s = Some (v, r) ->
     forall m, String.length s - String.length r < m -> parse_value m s = Some (v, r)) /\
  (forall s acc v r, parse_elems n s acc = Some (v, r) ->
     forall m, String.length s - String.length r < m -> parse_elems m s acc = Some (v, r)) /\
  (forall s ps v r, parse_members n s ps = Some (v, r) ->
     forall m, String.length s - String.length r < m -> parse_members m s ps = Some (v, r)).

Ltac enough_rec IHv IHe IHm :=
  match goal with
  | E : parse_value _ ?x = Some (?v, ?r) |- context [parse_value ?m ?x] =>
      rewrite (IHv _ _ _ E m) by shorten_facts
  | E : parse_elems _ ?x ?a = Some (?v, ?r) |- context [parse_elems ?m ?x ?a] =>
      rewrite (IHe _ _ _ _ E m) by shorten_facts
  | E : parse_members _ ?x ?a = Some (?v, ?r) |- context [parse_members ?m ?x ?a] =>
      rewrite (IHm _ _ _ _ E m) by shorten_facts
  end.

Ltac enough_cases IHv IHe IHm :=
  repeat (first [enough_rec IHv IHe IHm | case_match]; cbv beta iota; intros; simplify_eq; try done).

Lemma parse_fuel_enough n : enough_at n.
Proof.
  induction n as [|n (IHv & IHe & IHm)]; [split; [|split]; intros; simpl in *; discriminate|].
  split; [|split]; intros s.
  - intros v r H [|m] Hm; [lia|]. revert H Hm.
    rewrite (parse_value_S n s), (parse_value_S m s). unfold option_map.
    enough_cases IHv IHe IHm.
  - intros acc v r H [|m] Hm; [lia|]. revert H Hm.
    rewrite (parse_elems_S n s acc), (parse_elems_S m s acc).
    enough_cases IHv IHe IHm.
  - intros ps v r H [|m] Hm; [lia|]. revert H Hm.
    rewrite (parse_members_S n s ps), (parse_members_S m s ps).
    enough_cases IHv IHe IHm.
Qed.

(** The fuel never decides the parser's result. *)
Lemma parse_value_fuel text n :
  String.length text < n -> parse_value n text = parse_value (S (String.length text)) text.
Proof.
  intros Hn. destruct (parse_value n text) as [[v r]|] eqn:E.
  - symmetry. eapply (proj1 (parse_fuel_enough n)); [exact E|lia].
  - destruct (parse_value (S (String.length text)) text) as [[v r]|] eqn:E'; [|done].
    rewrite <- E. eapply (proj1 (parse_fuel_enough _)); [exact E'|lia].
Qed.

(** [JSON.parse] run with a given fuel. *)
Definition parse_with (fuel : nat) (text : string) : res exn value :=
  match parse_value fuel text with
  | Some (v, rest) =>
      match skip_ws rest with
      | EmptyString => Ok v
      | _ => Err (SyntaxError "Unexpected non-whitespace character after JSON")
      end
  | None => Err (SyntaxError "Unexpected token")
  end.

(** the fuel of the parser never decides the result of
    [JSON.parse]: run with any fuel above the length of the text, the
    parser answers what [json_parse] answers, so [JSON.parse] as
    modelled is a total function of the text. *)
Lemma json_parse_fuel text n :
  String.length text < n -> parse_with n text = json_parse text.
Proof. intros Hn. unfold parse_with, json_parse. by rewrite parse_value_fuel. Qed.
