(* ===== verification/ListController.v ===== *)
(** * The list controller: the item handlers of scripts.js

    One definition per function or listener of the script, in the monad
    [M] of [Dom], over the markup [pg] of the page (a [Section]
    variable: every handler reads it).  Each definition performs the
    statements of its source lines in order, including the element
    accesses that throw when the markup lacks the element. *)

From S2P Require Import Prelude JsString JsValue Json Dom.

(** The targets of a click inside [#itemList]: the list itself, or an
    entry (by index), its [.item-text] span or its [.remove-btn]. *)
Inductive list_target : Type :=
| TList
| TItem (i : nat)
| TText (i : nat)
| TRemove (i : nat).

(** The targets of a click inside [.filters]: a [BUTTON] with its
    [data-filter] attribute ([None] when absent), or another element. *)
Inductive filter_target : Type :=
| FButton (filter : option string)
| FOther.

(** The object [{text, got}] as a JavaScript value. *)
Definition item_value (it : item) : value :=
  VObj [("text", it_text it); ("got", it_got it)].

Definition set_got (b : bool) (it : item) : item := mkItem (it_text it) (VBool b).

(** [const obj = items.find(i => i.text === text); if (obj) obj.got = b]:
    the first object whose [text] is strictly equal to [text] is updated
    in place. *)
Fixpoint set_got_first (text : string) (b : bool) (l : list item) : list item :=
  match l with
  | [] => []
  | it :: l' =>
      if strict_eq_str (it_text it) text then set_got b it :: l'
      else it :: set_got_first text b l'
  end.

(** The same lines as the script writes them, with the aliasing made
    explicit: [items.find] returns the first object whose [text] is
    [text], and [obj.got = b] mutates that very object, i.e. the element
    of [items] at the index where [find] stopped. *)
Definition find_set_got (text : string) (b : bool) (l : list item) : list item :=
  match list_find (fun it => strict_eq_str (it_text it) text = true) l with
  | Some (i, it) => <[i := set_got b it]> l
  | None => l
  end.

(** [items.filter(i => i.text !== text)]. *)
Definition remove_text (text : string) (l : list item) : list item :=
  List.filter (fun it => negb (strict_eq_str (it_text it) text)) l.

(** The entry at a position, or a [TypeError] for a target that is not
    in the list (never the case for a real click). *)
Definition li_at (i : nat) : M li :=
  s <- st_get ;;
  match st_list s !! i with
  | Some x => st_ret x
  | None => st_throw (TypeError "no such entry")
  end.

Section Handlers.
Context (pg : page).

(** [updateStats()], lines 160-164. *)
Definition updateStats : M unit :=
  need (pg_totalItems pg) "totalItemsEl" ;;
  st_modify (fun s => upd_total_view (fun _ => Some (Z_to_string (st_total s))) s) ;;
  need (pg_gotItems pg) "gotItemsEl" ;;
  st_modify (fun s => upd_got_view (fun _ => Some (Z_to_string (st_got s))) s) ;;
  need (pg_remainingItems pg) "remainingItemsEl" ;;
  st_modify (fun s => upd_remaining_view
                        (fun _ => Some (Z_to_string (st_total s - st_got s))) s).

(** [saveItems()], lines 167-169. *)
Definition saveItems : M unit :=
  s <- st_get ;;
  setItem "shoppingList" (json_stringify (VArr (map item_value (st_items s)))).

(** [createItem(text, got = false)], lines 87-105. *)
Definition createItem (text got0 : value) : M unit :=
  let got := match got0 with VUndefined => VBool false | _ => got0 end in
  need (pg_itemList pg) "itemList" ;;
  st_modify (upd_list (fun l => l ++ [mkLi false (truthy got) (text_content text) None])) ;;
  st_modify (upd_total (fun n => n + 1)%Z) ;;
  (if truthy got then st_modify (upd_got (fun n => n + 1)%Z) else st_ret tt) ;;
  updateStats ;;
  st_modify (upd_items (fun l => l ++ [mkItem text got])).

(** The two placeholders of [showDemoItems] (lines 46-49). *)
Definition demoData : list (string * bool) := [("Milk", false); ("Eggs", true)].

(** [showDemoItems()], lines 45-66: appends a demo entry per
    placeholder, with the text suffixed by [" (example)"]. *)
Definition showDemoItems : M unit :=
  st_iter (fun (obj : string * bool) =>
             need (pg_itemList pg) "itemList" ;;
             st_modify (upd_list (fun l => l ++ [mkLi true obj.2 (obj.1 +:+ " (example)") None])))
          demoData.

(** The item form's [submit] listener, lines 69-84. *)
Definition submitItem : M unit :=
  need (pg_itemInput pg) "itemInput" ;;
  s <- st_get ;;
  let text := trim (st_input s) in
  if bool_decide (text = EmptyString) then st_ret tt else
  (if st_showingDemo s then
     need (pg_itemList pg) "itemList" ;;
     st_modify (upd_list (fun _ => [])) ;;
     st_modify (upd_showingDemo (fun _ => false))
   else st_ret tt) ;;
  createItem (VStr text) (VBool false) ;;
  st_modify (upd_input (fun _ => EmptyString)) ;;
  st_modify (upd_focused (fun _ => true)) ;;
  saveItems.

(** The remove branch of the list's [click] listener, lines 114-122. *)
Definition removeEntry (i : nat) : M unit :=
  x <- li_at i ;;
  let text := li_text x in
  (if li_got x then st_modify (upd_got (fun n => n - 1)%Z) else st_ret tt) ;;
  st_modify (upd_total (fun n => n - 1)%Z) ;;
  st_modify (upd_items (remove_text text)) ;;
  st_modify (upd_list (delete i)) ;;
  updateStats ;;
  saveItems.

(** The toggle branch of the list's [click] listener, lines 123-142. *)
Definition toggleEntry (i : nat) : M unit :=
  x <- li_at i ;;
  st_modify (upd_list (fun l => <[i := toggle_got x]> l)) ;;
  let text := li_text x in
  (if negb (li_got x) then
     st_modify (upd_got (fun n => n + 1)%Z) ;;
     st_modify (upd_items (set_got_first text true))
   else
     st_modify (upd_got (fun n => n - 1)%Z) ;;
     st_modify (upd_items (set_got_first text false))) ;;
  updateStats ;;
  saveItems.

(** The list's [click] listener, lines 108-143: clicks inside a demo
    entry are ignored (line 112). *)
Definition clickList (t : list_target) : M unit :=
  s <- st_get ;;
  let in_demo i := match st_list s !! i with Some x => li_demo x | None => false end in
  match t with
  | TList => st_ret tt
  | TRemove i => if in_demo i then st_ret tt else removeEntry i
  | TItem i | TText i => if in_demo i then st_ret tt else toggleEntry i
  end.

(** The display a filter gives a real entry, [None] when it leaves it. *)
Definition filter_display (filter : option string) (x : li) : option display :=
  match filter with
  | Some f =>
      if bool_decide (f = "all") then Some DFlex
      else if bool_decide (f = "got") then Some (if li_got x then DFlex else DNone)
      else if bool_decide (f = "need") then Some (if li_got x then DNone else DFlex)
      else None
  | None => None
  end.

Definition apply_filter (filter : option string) (x : li) : li :=
  if li_demo x then x
  else match filter_display filter x with
       | Some d => set_display d x
       | None => x
       end.

(** The filters' [click] listener, lines 146-157.  The elements of
    class [item] that line 149 selects are taken to be the entries of
    [#itemList]: the script gives that class to no other element. *)
Definition clickFilters (t : filter_target) : M unit :=
  match t with
  | FOther => st_ret tt
  | FButton filter => st_modify (upd_list (map (apply_filter filter)))
  end.

(** The document's [keydown] listener, lines 172-177. *)
Definition keyDown (key : string) : M unit :=
  if bool_decide (key = "Escape") then
    need (pg_itemInput pg) "itemInput" ;;
    st_modify (upd_input (fun _ => EmptyString)) ;;
    st_modify (upd_focused (fun _ => false))
  else st_ret tt.

(** The first half of the [DOMContentLoaded] listener, lines 26-34:
    [saved = JSON.parse(localStorage.getItem("shoppingList")) || []];
    demo placeholders when [saved.length === 0], else [createItem] per
    element and [updateStats()]. *)
Definition loadItems : M unit :=
  stored <- getItem "shoppingList" ;;
  parsed <- st_lift (json_parse (default "null" stored)) ;;
  let saved := if truthy parsed then parsed else VArr [] in
  len <- st_lift (get_prop saved "length") ;;
  if strict_eq_num len 0 then
    showDemoItems ;;
    st_modify (upd_showingDemo (fun _ => true))
  else
    js_forEach saved (fun obj =>
      t <- st_lift (get_prop obj "text") ;;
      g <- st_lift (get_prop obj "got") ;;
      createItem t g) ;;
    updateStats.

End Handlers.

#[export] Hint Unfold li_at updateStats saveItems createItem showDemoItems submitItem
  removeEntry toggleEntry clickList clickFilters keyDown loadItems js_forEach : handlers.

(** ** Invariants of the list state *)

(** [totalItems] and [gotItems] count the real entries and the real
    entries with class [got]. *)
Definition counters_ok (s : St) : Prop :=
  st_total s = Z.of_nat (count_by is_real (st_list s)) /\
  st_got s = Z.of_nat (count_by is_real_got (st_list s)).

(** Each stats field shows the value [updateStats] last wrote, or the
    markup's own text ([None]): never a stale count.  [updateStats]
    writes the fields in order and stops at the first one the markup
    lacks. *)
Definition views_ok (pg : page) (s : St) : Prop :=
  (st_total_view s = None \/
   pg_totalItems pg = true /\ st_total_view s = Some (Z_to_string (st_total s))) /\
  (st_got_view s = None \/
   pg_totalItems pg = true /\ pg_gotItems pg = true /\
   st_got_view s = Some (Z_to_string (st_got s))) /\
  (st_remaining_view s = None \/
   pg_totalItems pg = true /\ pg_gotItems pg = true /\ pg_remainingItems pg = true /\
   st_remaining_view s = Some (Z_to_string (st_total s - st_got s))).

(** In demo mode every entry is a demo entry; otherwise none is. *)
Definition demo_ok (s : St) : Prop :=
  if st_showingDemo s then Forall (fun x => li_demo x = true) (st_list s)
  else Forall (fun x => li_demo x = false) (st_list s).

Definition list_inv (pg : page) (s : St) : Prop := counters_ok s /\ views_ok pg s /\ demo_ok s.

(** ** Lemmas *)

(** Close a goal about the invariants once the handler has run. *)
Ltac inv_solve :=
  unfold list_inv, counters_ok, views_ok, demo_ok in *; simpl in *;
  repeat match goal with
         | H : ?b = _ |- context [if ?b then _ else _] => rewrite H
         | H : ?b = _, H' : context [if ?b then _ else _] |- _ => rewrite H in H'
         end;
  rewrite ?count_by_app, ?Forall_app, ?Forall_cons, ?Forall_nil in *; simpl in *;
  intuition (try congruence; try lia).

Lemma count_by_all_demo l :
  Forall (fun x => li_demo x = true) l ->
  count_by is_real l = 0 /\ count_by is_real_got l = 0.
Proof.
  induction l as [|x l IH]; intros Hl; simpl; [done|].
  apply Forall_cons in Hl as [Hx Hl]. unfold is_real, is_real_got. rewrite Hx. simpl. auto.
Qed.

Section Facts.
Context (pg : page).

Lemma need_exec b w s : exec (need b w) s = s.
Proof. unfold need. by destruct b. Qed.

Lemma createItem_inv t g s :
  st_showingDemo s = false -> list_inv pg s -> list_inv pg (exec (createItem pg t g) s).
Proof.
  unfold createItem, updateStats, need. intros Hd Hinv.
  st_run; inv_solve.
Qed.

Lemma createItem_preserves t g :
  st_preserves (fun s => st_showingDemo s = false /\ list_inv pg s) (createItem pg t g).
Proof.
  intros s [Hd Hinv]. split; [|by apply createItem_inv].
  unfold createItem, updateStats, need. st_run; done.
Qed.

Lemma updateStats_inv s : list_inv pg s -> list_inv pg (exec (updateStats pg) s).
Proof. unfold updateStats, need. st_run; inv_solve. Qed.

(** The loop of line 32 keeps the invariant, whatever [saved] is. *)
Lemma forEach_createItem_preserves saved :
  st_preserves (fun s => st_showingDemo s = false /\ list_inv pg s)
    (js_forEach saved (fun obj =>
       t <- st_lift (get_prop obj "text") ;;
       g <- st_lift (get_prop obj "got") ;;
       createItem pg t g)).
Proof.
  destruct saved; simpl; auto with shop.
  apply preserves_iter. intros x _.
  apply preserves_bind; [auto with shop|]. intros t.
  apply preserves_bind; [auto with shop|]. intros g.
  apply createItem_preserves.
Qed.

Lemma loadItems_inv s :
  st_showingDemo s = false -> st_list s = [] -> list_inv pg s ->
  list_inv pg (exec (loadItems pg) s).
Proof.
  intros Hd Hl Hinv. unfold loadItems, getItem. st_simpl.
  destruct (json_parse _) as [parsed|]; simpl; [|done].
  destruct (get_prop _ "length") as [len|]; simpl; [|done].
  destruct (strict_eq_num len 0).
  - destruct s; simpl in Hd, Hl; subst.
    unfold showDemoItems, need, demoData. st_run; inv_solve.
  - pose proof (forEach_createItem_preserves
                  (if truthy parsed then parsed else VArr []) s (conj Hd Hinv)) as Hp.
    destruct (js_forEach _ _ s) as [[] s'] eqn:E; simpl in *; [|tauto].
    apply (updateStats_inv s'). tauto.
Qed.

Lemma submitItem_inv s : list_inv pg s -> list_inv pg (exec (submitItem pg) s).
Proof.
  intros Hinv.
  assert (st_showingDemo s = true -> count_by is_real (st_list s) = 0 /\
            count_by is_real_got (st_list s) = 0) as Hdemo.
  { intros Hd. destruct Hinv as (_ & _ & Hd'). unfold demo_ok in Hd'. rewrite Hd in Hd'.
    by apply count_by_all_demo. }
  unfold submitItem, createItem, updateStats, saveItems, setItem, need.
  st_run; inv_solve.
Qed.

(** An entry that is not a demo entry shows the page is not in demo mode. *)
Lemma real_entry_not_demo s i x :
  demo_ok s -> st_list s !! i = Some x -> li_demo x = false ->
  st_showingDemo s = false.
Proof.
  unfold demo_ok. intros Hd Hx Hr. destruct (st_showingDemo s); [|done].
  rewrite Forall_lookup in Hd. specialize (Hd i x Hx). congruence.
Qed.

Lemma removeEntry_inv s i x :
  st_list s !! i = Some x -> li_demo x = false ->
  list_inv pg s -> list_inv pg (exec (removeEntry pg i) s).
Proof.
  intros Hx Hr Hinv.
  pose proof (real_entry_not_demo s i x (proj2 (proj2 Hinv)) Hx Hr) as Hnd.
  pose proof (count_by_delete is_real _ _ _ Hx) as Hc1.
  pose proof (count_by_delete is_real_got _ _ _ Hx) as Hc2.
  destruct Hinv as (Hc & Hv & Hd). unfold demo_ok in Hd. rewrite Hnd in Hd.
  pose proof (Forall_delete _ _ i Hd) as Hdd.
  assert (is_real x = true /\ is_real_got x = li_got x) as [E1 E2]
    by (unfold is_real, is_real_got; by rewrite Hr).
  rewrite E1, E2 in *.
  unfold removeEntry, li_at, updateStats, saveItems, setItem, need.
  st_run; inv_solve; destruct (li_got x); simpl in *; lia.
Qed.

Lemma toggleEntry_inv s i x :
  st_list s !! i = Some x -> li_demo x = false ->
  list_inv pg s -> list_inv pg (exec (toggleEntry pg i) s).
Proof.
  intros Hx Hr Hinv.
  pose proof (real_entry_not_demo s i x (proj2 (proj2 Hinv)) Hx Hr) as Hnd.
  pose proof (count_by_insert is_real _ _ _ (toggle_got x) Hx) as Hc1.
  pose proof (count_by_insert is_real_got _ _ _ (toggle_got x) Hx) as Hc2.
  destruct Hinv as (Hc & Hv & Hd). unfold demo_ok in Hd. rewrite Hnd in Hd.
  pose proof (Forall_insert _ _ i (toggle_got x) Hd Hr) as Hdd.
  assert (is_real x = true /\ is_real_got x = li_got x /\ is_real (toggle_got x) = true /\
          is_real_got (toggle_got x) = negb (li_got x)) as (E1 & E2 & E3 & E4)
    by (unfold is_real, is_real_got, toggle_got; simpl; by rewrite Hr).
  rewrite E1, E2, E3, E4 in *.
  unfold toggleEntry, li_at, updateStats, saveItems, setItem, need.
  st_run; inv_solve; destruct (li_got x); simpl in *; lia.
Qed.

Lemma clickList_inv s t : list_inv pg s -> list_inv pg (exec (clickList pg t) s).
Proof.
  intros Hinv. unfold clickList. st_simpl.
  destruct t as [|i|i|i]; [done| | |];
    (destruct (st_list s !! i) as [x|] eqn:Hx;
     [destruct (li_demo x) eqn:Hr; [done|]
     |unfold removeEntry, toggleEntry, li_at; st_simpl; rewrite Hx; done]).
  - by apply (toggleEntry_inv s i x).
  - by apply (toggleEntry_inv s i x).
  - by apply (removeEntry_inv s i x).
Qed.

Lemma apply_filter_flags f x :
  li_demo (apply_filter f x) = li_demo x /\ li_got (apply_filter f x) = li_got x.
Proof.
  unfold apply_filter, set_display. destruct (li_demo x) eqn:E; [done|].
  destruct (filter_display f x); simpl; auto.
Qed.

Lemma clickFilters_inv s t : list_inv pg s -> list_inv pg (exec (clickFilters t) s).
Proof.
  destruct t as [f|]; [|done]. unfold clickFilters. st_simpl.
  assert (forall x, li_demo (apply_filter f x) = li_demo x) as Hd
    by (intros; apply apply_filter_flags).
  assert (forall x, li_got (apply_filter f x) = li_got x) as Hg
    by (intros; apply apply_filter_flags).
  unfold list_inv, counters_ok, views_ok, demo_ok; simpl.
  rewrite !count_by_map by (intros; unfold is_real, is_real_got; by rewrite ?Hd, ?Hg).
  intros (Hc & Hv & Hdm). do 2 (split; [done|]).
  destruct (st_showingDemo s); apply Forall_map; eapply Forall_impl; eauto;
    intros; by rewrite Hd.
Qed.

Lemma keyDown_inv s k : list_inv pg s -> list_inv pg (exec (keyDown pg k) s).
Proof. unfold keyDown, need. st_run; inv_solve. Qed.

Lemma list_inv_frame s s' : same_list_state s s' -> list_inv pg s -> list_inv pg s'.
Proof.
  unfold same_list_state, list_inv, counters_ok, views_ok, demo_ok.
  intros (-> & _ & -> & -> & -> & -> & -> & ->). done.
Qed.

End Facts.

#[export] Instance list_inv_proper pg : Proper (same_list_state ==> iff) (list_inv pg).
Proof. intros s s' H. split; apply list_inv_frame; [exact H|by symmetry]. Qed.

(** ** Functional behaviour of the handlers *)

Lemma toggle_got_involutive x : toggle_got (toggle_got x) = x.
Proof. destruct x as [d g t disp]. unfold toggle_got. simpl. by rewrite negb_involutive. Qed.

(** Unfold a handler on a page with the list markup. *)
Ltac run_on_list_page Hpg :=
  let Hin := fresh in let Hil := fresh in let Htot := fresh in
  let Hgot := fresh in let Hrem := fresh in
  destruct Hpg as (Hin & Hil & Htot & Hgot & Hrem);
  autounfold with handlers; st_simpl; rewrite ?Hin, ?Hil, ?Htot, ?Hgot, ?Hrem; simpl.

(** Removing by text leaves no object of that text. *)
Lemma remove_text_removes t l : Forall (fun it => it_text it <> VStr t) (remove_text t l).
Proof.
  apply List.Forall_forall. intros it Hin Heq. unfold remove_text in Hin.
  apply filter_In in Hin as [_ Hf]. rewrite Heq in Hf. simpl in Hf.
  by rewrite bool_decide_true in Hf.
Qed.

(** Deleting one position keeps the entries at the others. *)
Lemma elem_of_delete_ne {A} (l : list A) i j y : l !! j = Some y -> i <> j -> y ∈ delete i l.
Proof.
  revert i j. induction l as [|a l IH]; intros [|i] [|j] Hj Hij; simpl in *; try done.
  - by apply list_elem_of_lookup_2 in Hj.
  - injection Hj as ->. by left.
  - right. apply (IH i j); [done|lia].
Qed.

Section Behaviour.
Context (pg : page).

(** C3: submitting an input that is empty or whitespace only changes
    nothing at all (line 72), whatever the markup. *)
Theorem submitItem_whitespace_noop s :
  all_space (st_input s) = true -> exec (submitItem pg) s = s.
Proof.
  intros Hs. unfold submitItem, need.
  destruct (pg_itemInput pg); st_simpl; [|done].
  rewrite (trim_all_space _ Hs). done.
Qed.

(** C5: the first item added in demo mode clears the demo entries: the
    list is exactly the new entry, the counters are 1 and 0, demo mode
    ends, and the one-element list is saved. *)
Theorem submitItem_from_demo s t :
  list_page pg -> list_inv pg s -> st_showingDemo s = true ->
  trim (st_input s) = t -> t <> EmptyString ->
  let s' := exec (submitItem pg) s in
  st_list s' = [mkLi false false t None] /\ st_showingDemo s' = false /\
  st_total s' = 1%Z /\ st_got s' = 0%Z /\
  st_items s' = st_items s ++ [mkItem (VStr t) (VBool false)] /\
  st_input s' = EmptyString /\
  st_storage s' = <["shoppingList" := to_string (json_stringify
                      (VArr (map item_value (st_items s'))))]> (st_storage s).
Proof.
  intros Hpg (Hc & _ & Hd) Hdemo Ht Hne. unfold demo_ok in Hd. rewrite Hdemo in Hd.
  destruct (count_by_all_demo _ Hd) as [H0 H1]. destruct Hc as [Hc1 Hc2].
  rewrite H0 in Hc1. rewrite H1 in Hc2.
  run_on_list_page Hpg. rewrite Ht, Hdemo, bool_decide_false by done. simpl.
  rewrite Hc1, Hc2. repeat split.
Qed.

(** C13: Outside demo mode an added item is appended: one more entry, one
    more object in [items], [totalItems] one higher, and the whole list
    saved. *)
Theorem submitItem_appends s t :
  list_page pg -> st_showingDemo s = false ->
  trim (st_input s) = t -> t <> EmptyString ->
  let s' := exec (submitItem pg) s in
  st_list s' = st_list s ++ [mkLi false false t None] /\ st_showingDemo s' = false /\
  st_total s' = (st_total s + 1)%Z /\ st_got s' = st_got s /\
  st_items s' = st_items s ++ [mkItem (VStr t) (VBool false)] /\
  st_storage s' = <["shoppingList" := to_string (json_stringify
                      (VArr (map item_value (st_items s'))))]> (st_storage s).
Proof.
  intros Hpg Hdemo Ht Hne.
  run_on_list_page Hpg. rewrite Ht, Hdemo, bool_decide_false by done. simpl.
  by repeat split.
Qed.

(** C14: clicks inside a demo entry do nothing (line 112). *)
Theorem clickList_demo_noop s i x t :
  st_list s !! i = Some x -> li_demo x = true ->
  t = TItem i \/ t = TText i \/ t = TRemove i ->
  exec (clickList pg t) s = s.
Proof.
  intros Hx Hd Ht. destruct Ht as [-> | [-> | ->]];
    unfold clickList; st_simpl; by rewrite Hx, Hd.
Qed.

(** C11: Removing a real entry: the entry goes, [totalItems] drops by one
    and [gotItems] by one when it was checked, every object of [items]
    with the same text goes, and the list is saved. *)
Theorem removeEntry_spec s i x :
  list_page pg -> st_list s !! i = Some x ->
  let s' := exec (removeEntry pg i) s in
  st_list s' = delete i (st_list s) /\
  st_total s' = (st_total s - 1)%Z /\
  st_got s' = (st_got s - (if li_got x then 1 else 0))%Z /\
  st_items s' = remove_text (li_text x) (st_items s) /\
  st_storage s' = <["shoppingList" := to_string (json_stringify
                      (VArr (map item_value (st_items s'))))]> (st_storage s).
Proof.
  intros Hpg Hx. run_on_list_page Hpg. rewrite Hx. simpl.
  destruct (li_got x); simpl; repeat split; lia.
Qed.

(** C15: removing one of two entries with the same text removes every
    object of that text from [items] (the filter of line 119 compares
    texts), and saves that: the other entry stays on the page while no
    object of [items] and of the saved list has its text, so a reload
    no longer shows it. *)
Theorem remove_duplicate_loses_items s i j x y :
  list_page pg -> st_list s !! i = Some x -> st_list s !! j = Some y -> i <> j ->
  li_text x = li_text y -> li_demo x = false ->
  let s' := exec (clickList pg (TRemove i)) s in
  y ∈ st_list s' /\
  Forall (fun it => it_text it <> VStr (li_text y)) (st_items s') /\
  st_storage s' !! "shoppingList" =
    Some (to_string (json_stringify (VArr (map item_value (st_items s'))))).
Proof.
  intros Hpg Hx Hy Hij Ht Hd. unfold clickList. st_simpl. rewrite Hx, Hd.
  run_on_list_page Hpg. rewrite Hx. simpl. rewrite <- Ht.
  destruct (li_got x); simpl; (split; [by apply (elem_of_delete_ne _ _ j)|]);
    (split; [apply remove_text_removes|by rewrite lookup_insert_eq]).
Qed.

(** C12: Toggling a real entry: its class [got] flips, [gotItems] follows,
    the first object of [items] with its text takes the new state, and
    the list is saved. *)
Theorem toggle_spec s i x t :
  list_page pg -> st_list s !! i = Some x -> li_demo x = false ->
  t = TItem i \/ t = TText i ->
  let s' := exec (clickList pg t) s in
  st_list s' = <[i := toggle_got x]> (st_list s) /\
  st_got s' = (st_got s + (if li_got x then -1 else 1))%Z /\
  st_total s' = st_total s /\
  st_items s' = set_got_first (li_text x) (negb (li_got x)) (st_items s) /\
  st_storage s' = <["shoppingList" := to_string (json_stringify
                      (VArr (map item_value (st_items s'))))]> (st_storage s).
Proof.
  intros Hpg Hx Hr Ht.
  assert (exec (clickList pg t) s = exec (toggleEntry pg i) s) as ->
    by (destruct Ht as [-> | ->]; unfold clickList; st_simpl; by rewrite Hx, Hr).
  run_on_list_page Hpg. rewrite Hx. simpl.
  destruct (li_got x); simpl; repeat split; lia.
Qed.

(** A click on a real entry's text flips its [got] class and moves
    [gotItems] accordingly. *)
Lemma toggle_text_fields s i x :
  list_page pg -> st_list s !! i = Some x -> li_demo x = false ->
  let s' := exec (clickList pg (TText i)) s in
  st_list s' = <[i := toggle_got x]> (st_list s) /\
  st_got s' = (st_got s + (if li_got x then -1 else 1))%Z /\ st_total s' = st_total s.
Proof.
  intros Hpg Hx Hr. unfold clickList. st_simpl. rewrite Hx, Hr.
  run_on_list_page Hpg. rewrite Hx. destruct (li_got x); simpl; repeat split; lia.
Qed.

(** C6: toggling an entry twice restores the entries, [gotItems] and
    [totalItems]. *)
Theorem toggle_twice s i x :
  list_page pg -> st_list s !! i = Some x -> li_demo x = false ->
  let s' := exec (clickList pg (TText i)) (exec (clickList pg (TText i)) s) in
  st_list s' = st_list s /\ st_got s' = st_got s /\ st_total s' = st_total s.
Proof.
  intros Hpg Hx Hr.
  destruct (toggle_text_fields s i x Hpg Hx Hr) as (H1 & H2 & H3).
  assert (st_list (exec (clickList pg (TText i)) s) !! i = Some (toggle_got x)) as Hx'.
  { rewrite H1. apply list_lookup_insert_eq. eapply lookup_lt_Some; eauto. }
  destruct (toggle_text_fields _ i _ Hpg Hx' Hr) as (H1' & H2' & H3').
  cbv zeta. rewrite H1', H2', H3', H1, H2, H3, list_insert_insert_eq, toggle_got_involutive.
  rewrite list_insert_id by done. unfold toggle_got. simpl.
  destruct (li_got x); simpl; repeat split; lia.
Qed.

(** C7: the filter [got] hides every real entry without class [got],
    shows every real entry with it, leaves demo entries as they are,
    and changes nothing but the displays. *)
Theorem clickFilters_got s :
  let s' := exec (clickFilters (FButton (Some "got"))) s in
  length (st_list s') = length (st_list s) /\
  (forall i x, st_list s !! i = Some x ->
     exists x', st_list s' !! i = Some x' /\
       li_demo x' = li_demo x /\ li_got x' = li_got x /\ li_text x' = li_text x /\
       (li_demo x = true -> x' = x) /\
       (li_demo x = false -> li_display x' = Some (if li_got x then DFlex else DNone))) /\
  st_items s' = st_items s /\ st_total s' = st_total s /\ st_got s' = st_got s /\
  st_storage s' = st_storage s /\ st_showingDemo s' = st_showingDemo s.
Proof.
  unfold clickFilters. st_simpl. rewrite length_map. split; [done|]. split; [|done].
  intros i x Hx. exists (apply_filter (Some "got") x).
  rewrite lookup_map, Hx. split; [done|].
  unfold apply_filter, set_display, filter_display.
  destruct (li_demo x) eqn:E; simpl; intuition congruence.
Qed.

(** updating the first matching object functionally, as
    [set_got_first] does, is the in-place mutation of the object that
    [items.find] returns (lines 131-136): [set_got_first] equals the
    reference definition by [list_find] and an update at the found
    index, on every list. *)
Lemma set_got_first_find text b l : set_got_first text b l = find_set_got text b l.
Proof.
  unfold find_set_got. induction l as [|it l IH]; [done|]. simpl.
  destruct (strict_eq_str (it_text it) text); simpl; [done|].
  rewrite IH. by destruct (list_find _ l) as [[i x]|].
Qed.

End Behaviour.
