(* ===== verification/Persistence.v ===== *)
(** * Persistence of the list across page loads

    [saveItems] (scripts.js lines 167-169) writes
    [JSON.stringify(items)] under ["shoppingList"]; the next page load
    runs [loadItems] (lines 26-34), which parses that text back and
    calls [createItem] on every element.  This file proves that the two
    fit: when every item has a string text and a boolean [got] (what
    [submitItem] and the click handler create), a reload restores the
    same [items], one real entry per item and counters that count them.
    The JSON part is [Json.json_parse_stringify]; the loop part is the effect
    of [createItem] on a page that has the list markup. *)

From S2P Require Import Prelude JsString JsValue Json JsonRoundtrip Dom ListController.

(** An item as the script itself creates it: a string text and a boolean
    [got]. *)
Definition plain_item (it : item) : bool :=
  match it_text it, it_got it with
  | VStr _, VBool _ => true
  | _, _ => false
  end.

(** The [got] [createItem] stores: its default parameter (line 87)
    replaces [undefined] by [false]. *)
Definition got_default (g : value) : value :=
  match g with VUndefined => VBool false | _ => g end.

(** The entry [createItem] appends for an item (lines 88-100). *)
Definition entry_of (it : item) : li :=
  mkLi false (truthy (got_default (it_got it))) (text_content (it_text it)) None.

(** The item [createItem] pushes (line 104). *)
Definition stored_item (it : item) : item := mkItem (it_text it) (got_default (it_got it)).

(** ** The JSON text of a list of plain items *)

Lemma json_norm_plain_item it :
  plain_item it = true -> elem_norm (item_value it) = item_value it.
Proof.
  unfold plain_item, item_value. destruct it as [t g]; simpl.
  destruct t; try done; destruct g; done.
Qed.

Lemma json_norm_items items :
  Forall (fun it => plain_item it = true) items ->
  json_norm (VArr (map item_value items)) = VArr (map item_value items).
Proof.
  intros Hp. rewrite json_norm_arr, map_map. f_equal.
  induction Hp as [|it items Hit Hp IH]; cbn [map]; [done|].
  by rewrite json_norm_plain_item, IH.
Qed.

(** What [saveItems] writes for [items]. *)
Definition items_json (l : list item) : string :=
  to_string (json_stringify (VArr (map item_value l))).

Lemma items_json_parse l :
  Forall (fun it => plain_item it = true) l -> json_parse (items_json l) = Ok (VArr (map item_value l)).
Proof.
  intros Hp. pose proof (stringify_defined (VArr (map item_value l)) ltac:(discriminate)) as Ht.
  unfold items_json, json_stringify. rewrite Ht. simpl to_string.
  rewrite (json_parse_stringify _ _ Ht). f_equal. by apply json_norm_items.
Qed.

(** What [saveItems] leaves under ["shoppingList"]. *)
Lemma saveItems_storage s :
  exists t, stringify (VArr (map item_value (st_items s))) = Some t /\
    st_storage (exec saveItems s) !! "shoppingList" = Some t.
Proof.
  unfold saveItems, setItem, json_stringify. st_simpl.
  eexists; split; [reflexivity|]. by rewrite lookup_insert_eq.
Qed.

(** [loadItems] reads [localStorage] and never writes it. *)
Lemma loadItems_storage pg m : st_preserves (fun s => st_storage s = m) (loadItems pg).
Proof. unfold loadItems. preserves_tac. Qed.

(** ** [createItem] and the load loop on a page with the list markup *)

Section Reload.
Context (pg : page) (Hpg : list_page pg).

(** The effect of one [createItem] call on the list state. *)
Lemma createItem_effect t g s :
  (createItem pg t g s).1 = Ok tt /\
  st_list (exec (createItem pg t g) s) = st_list s ++ [entry_of (mkItem t g)] /\
  st_items (exec (createItem pg t g) s) = st_items s ++ [stored_item (mkItem t g)] /\
  st_total (exec (createItem pg t g) s) = (st_total s + 1)%Z /\
  st_got (exec (createItem pg t g) s) =
    (st_got s + if truthy (got_default g) then 1 else 0)%Z /\
  st_showingDemo (exec (createItem pg t g) s) = st_showingDemo s.
Proof.
  destruct Hpg as (_ & Hil & Ht & Hg & Hr).
  unfold createItem, updateStats, need. rewrite Hil, Ht, Hg, Hr. st_simpl.
  unfold entry_of, stored_item, got_default. simpl.
  destruct (truthy _); simpl; rewrite ?Z.add_0_r; by repeat split.
Qed.

(** The demo branch of [loadItems] returns normally. *)
Lemma showDemo_ok s :
  ((showDemoItems pg ;; st_modify (upd_showingDemo (fun _ => true))) s).1 = Ok tt.
Proof. pose proof Hpg as (_ & Hil & _). unfold showDemoItems, need. by rewrite Hil. Qed.

(** The body of the loop of line 32. *)
Definition load_body (obj : value) : M unit :=
  t <- st_lift (get_prop obj "text") ;;
  g <- st_lift (get_prop obj "got") ;;
  createItem pg t g.

(** The loop of line 32 over the objects [{text, got}] of a list of
    items: one entry, one item and one count per element. *)
Lemma load_loop_effect items s :
  (st_iter load_body (map item_value items) s).1 = Ok tt /\
  st_list (exec (st_iter load_body (map item_value items)) s) = st_list s ++ map entry_of items /\
  st_items (exec (st_iter load_body (map item_value items)) s) =
    st_items s ++ map stored_item items /\
  st_total (exec (st_iter load_body (map item_value items)) s) =
    (st_total s + Z.of_nat (length items))%Z /\
  st_got (exec (st_iter load_body (map item_value items)) s) =
    (st_got s + Z.of_nat (count_by (fun it => truthy (got_default (it_got it))) items))%Z /\
  st_showingDemo (exec (st_iter load_body (map item_value items)) s) = st_showingDemo s.
Proof.
  revert s. induction items as [|[t g] items IH]; intros s.
  - unfold exec. simpl. rewrite !app_nil_r. by rewrite !Z.add_0_r.
  - destruct (createItem_effect t g s) as (Hok & Hl & Hi & Ht & Hg & Hd).
    unfold exec in *. destruct (createItem pg t g s) as [r s1] eqn:E.
    cbn in Hok, Hl, Hi, Ht, Hg, Hd. subst r.
    rewrite map_cons, (st_iter_cons_ok _ _ _ _ s1) by (unfold load_body, st_bind, st_lift; simpl; exact E).
    destruct (IH s1) as (Hok' & Hl' & Hi' & Ht' & Hg' & Hd').
    rewrite Hok', Hl', Hi', Ht', Hg', Hd', Hl, Hi, Ht, Hg, Hd, <- !app_assoc. simpl.
    repeat split; [lia|]. destruct (truthy _); lia.
Qed.

(** [loadItems] on a stored list of items that is not empty: the loop,
    then [updateStats()]. *)
Lemma loadItems_stored items t s :
  st_storage s !! "shoppingList" = Some t ->
  json_parse t = Ok (VArr (map item_value items)) -> items <> [] ->
  loadItems pg s = st_bind (st_iter load_body (map item_value items)) (fun _ => updateStats pg) s.
Proof.
  intros Hs Hj Hne. unfold loadItems, getItem, st_bind, st_get, st_ret, st_lift.
  rewrite Hs. simpl. rewrite Hj. simpl.
  destruct items as [|it items]; [done|]. reflexivity.
Qed.

(** On a stored list that is not empty, [loadItems] keeps the list
    invariant whatever entries the list already has: it takes the loop
    branch, never the demo one. *)
Lemma loadItems_inv_stored items t s :
  st_storage s !! "shoppingList" = Some t ->
  json_parse t = Ok (VArr (map item_value items)) -> items <> [] ->
  st_showingDemo s = false -> list_inv pg s -> list_inv pg (exec (loadItems pg) s).
Proof.
  intros Hs Hj Hne Hd Hinv. unfold exec. rewrite (loadItems_stored items t) by done.
  pose proof (forEach_createItem_preserves pg (VArr (map item_value items)) s (conj Hd Hinv)) as Hp.
  change (js_forEach _ _) with (st_iter load_body (map item_value items)) in Hp.
  unfold st_bind. destruct (st_iter _ _ s) as [[] s'] eqn:E; simpl in *; [|tauto].
  apply (updateStats_inv pg s'). tauto.
Qed.

Lemma updateStats_list_state s :
  (updateStats pg s).1 = Ok tt /\
  st_list (exec (updateStats pg) s) = st_list s /\ st_items (exec (updateStats pg) s) = st_items s /\
  st_total (exec (updateStats pg) s) = st_total s /\ st_got (exec (updateStats pg) s) = st_got s /\
  st_showingDemo (exec (updateStats pg) s) = st_showingDemo s.
Proof.
  destruct Hpg as (_ & _ & Ht & Hg & Hr).
  unfold updateStats, need. rewrite Ht, Hg, Hr. st_simpl. by repeat split.
Qed.

Lemma plain_stored_item it : plain_item it = true -> stored_item it = it.
Proof. destruct it as [t g]. unfold plain_item, stored_item. simpl. by destruct t, g. Qed.

Lemma plain_got_default it : plain_item it = true -> got_default (it_got it) = it_got it.
Proof. destruct it as [t g]. unfold plain_item. simpl. by destruct t, g. Qed.

Lemma map_stored_plain items :
  Forall (fun it => plain_item it = true) items -> map stored_item items = items.
Proof.
  induction 1 as [|it items Hit _ IH]; simpl; [done|].
  by rewrite plain_stored_item, IH.
Qed.

Lemma count_got_plain items :
  Forall (fun it => plain_item it = true) items ->
  count_by (fun it => truthy (got_default (it_got it))) items =
  count_by (fun it => truthy (it_got it)) items.
Proof.
  induction 1 as [|it items Hit _ IH]; simpl; [done|].
  by rewrite plain_got_default, IH.
Qed.

(** [loadItems] on a saved list of plain items that is not empty: each
    item is appended to [items] as it was saved, one real entry per item,
    the counters count them, and demo mode is left as it was. *)
Lemma loadItems_plain_effect items t s :
  st_storage s !! "shoppingList" = Some t ->
  json_parse t = Ok (VArr (map item_value items)) -> items <> [] ->
  Forall (fun it => plain_item it = true) items ->
  (loadItems pg s).1 = Ok tt /\
  st_items (exec (loadItems pg) s) = st_items s ++ items /\
  st_list (exec (loadItems pg) s) = st_list s ++ map entry_of items /\
  st_total (exec (loadItems pg) s) = (st_total s + Z.of_nat (length items))%Z /\
  st_got (exec (loadItems pg) s) =
    (st_got s + Z.of_nat (count_by (fun it => truthy (it_got it)) items))%Z /\
  st_showingDemo (exec (loadItems pg) s) = st_showingDemo s.
Proof.
  intros Hs Hj Hne Hp. unfold exec. rewrite (loadItems_stored items t) by done.
  destruct (load_loop_effect items s) as (Hok & Hl & Hi & Htot & Hg & Hd).
  unfold st_bind. unfold exec in Hl, Hi, Htot, Hg, Hd.
  destruct (st_iter _ _ _) as [r s1]. cbn in *. subst r.
  destruct (updateStats_list_state s1) as (Hok' & Hl' & Hi' & Ht' & Hg' & Hd').
  unfold exec in *. rewrite Hok', Hl', Hi', Ht', Hg', Hd', Hl, Hi, Htot, Hg, Hd.
  by rewrite map_stored_plain, count_got_plain.
Qed.

(** C21: after [saveItems], the next page load restores the list: when
    every item has a string text and a boolean [got], [loadItems] on
    the saved storage gives back the same [items], one real entry per
    item (its text and its [got] class), the counters count them, and
    the page is not in demo mode. *)
Theorem reload_restores s :
  st_items s <> [] -> Forall (fun it => plain_item it = true) (st_items s) ->
  let s' := exec (loadItems pg) (fresh_state (st_storage (exec saveItems s))) in
  st_items s' = st_items s /\ st_list s' = map entry_of (st_items s) /\
  st_total s' = Z.of_nat (length (st_items s)) /\
  st_got s' = Z.of_nat (count_by (fun it => truthy (it_got it)) (st_items s)) /\
  st_showingDemo s' = false.
Proof.
  intros Hne Hp. destruct (saveItems_storage s) as [t [Ht Hs]].
  pose proof (json_parse_stringify _ _ Ht) as Hj. rewrite json_norm_items in Hj by done.
  destruct (loadItems_plain_effect (st_items s) t (fresh_state (st_storage (exec saveItems s))) Hs Hj Hne Hp)
    as (_ & Hi & Hl & Htot & Hg & Hd).
  cbv zeta. rewrite Hi, Hl, Htot, Hg, Hd. by rewrite !Z.add_0_l.
Qed.

End Reload.
