(* ===== verification/Profile.v ===== *)
(** * The profile controller: [updateProfileUI], the profile load, and
    the register form

    [loadProfile] is the second half of the [DOMContentLoaded] listener
    (scripts.js lines 36-41); [updateProfileUI] is lines 180-186; the
    register form's [submit] listener is lines 190-202, whose field
    values are the arguments of [submitRegister]. *)

From S2P Require Import Prelude JsString JsValue Json Dom.

(** The profile used when none is stored (lines 37-40). *)
Definition default_profile : value :=
  VObj [("username", VStr "Demo User"); ("email", VStr "user@example.com")].

(** The message of the [alert] of line 199. *)
Definition registered_msg : string := "Registered! Profile saved.".

Section ProfileHandlers.
Context (pg : page).

(** [updateProfileUI()], lines 180-186. *)
Definition updateProfileUI : M unit :=
  if negb (pg_profileCard pg) then st_ret tt else
  (if pg_strong pg then
     s <- st_get ;;
     u <- st_lift (get_prop (st_profile s) "username") ;;
     st_modify (upd_name_view (fun _ => Some (text_content u)))
   else st_ret tt) ;;
  (if pg_emailTag pg then
     s <- st_get ;;
     e <- st_lift (get_prop (st_profile s) "email") ;;
     st_modify (upd_email_view (fun _ => Some ("Email: " +:+ to_string e)))
   else st_ret tt).

(** Lines 37-41: [profile = JSON.parse(localStorage.getItem("userProfile"))
    || default], then [updateProfileUI()].  [JSON.parse(null)] parses
    the text ["null"]. *)
Definition loadProfile : M unit :=
  stored <- getItem "userProfile" ;;
  p <- st_lift (json_parse (default "null" stored)) ;;
  st_modify (upd_profile (fun _ => if truthy p then p else default_profile)) ;;
  updateProfileUI.

(** The register form's [submit] listener, lines 190-202. *)
Definition submitRegister (username email password : string) : M unit :=
  need (pg_registerInputs pg) "username" ;;
  let u := trim username in
  let e := trim email in
  let pw := trim password in
  if truthy (VStr u) && truthy (VStr e) && truthy (VStr pw) then
    st_modify (upd_profile (fun _ => VObj [("username", VStr u); ("email", VStr e)])) ;;
    s <- st_get ;;
    setItem "userProfile" (json_stringify (st_profile s)) ;;
    st_modify (upd_alerts (fun l => l ++ [registered_msg])) ;;
    st_modify (upd_location (fun _ => Some "profile.html"))
  else st_ret tt.

End ProfileHandlers.

#[export] Hint Unfold updateProfileUI loadProfile submitRegister : handlers.

(** ** The profile handlers leave the list state alone *)

Section ProfileFrame.
Context (pg : page).

Lemma updateProfileUI_frame s : same_list_state s (exec (updateProfileUI pg) s).
Proof. unfold updateProfileUI, same_list_state. st_run; auto 10. Qed.

Lemma loadProfile_frame s : same_list_state s (exec (loadProfile pg) s).
Proof. unfold loadProfile, getItem, updateProfileUI, same_list_state. st_run; auto 10. Qed.

Lemma submitRegister_frame u e p s : same_list_state s (exec (submitRegister pg u e p) s).
Proof. unfold submitRegister, setItem, need, same_list_state. st_run; auto 10. Qed.
(** Loading the profile never writes [localStorage]. *)
Lemma loadProfile_storage m :
  st_preserves (fun s => st_storage s = m) (loadProfile pg).
Proof. preserves_tac. Qed.
End ProfileFrame.

(** ** Behaviour of the register handler *)

Section Register.
Context (pg : page).

(** C8: a registration with a field that is empty after trimming
    changes nothing: in particular the stored profile is untouched. *)
Theorem submitRegister_incomplete_noop u e p s :
  trim u = EmptyString \/ trim e = EmptyString \/ trim p = EmptyString ->
  exec (submitRegister pg u e p) s = s.
Proof.
  intros Hblank. unfold submitRegister, need.
  destruct (pg_registerInputs pg); st_simpl; [|done].
  by destruct Hblank as [-> | [-> | ->]]; rewrite ?andb_false_r.
Qed.

(** C19: A complete registration stores exactly the trimmed user name and
    e-mail (the password is not stored), alerts, and moves to the
    profile page. *)
Theorem submitRegister_saves u e p s :
  pg_registerInputs pg = true ->
  trim u <> EmptyString -> trim e <> EmptyString -> trim p <> EmptyString ->
  let s' := exec (submitRegister pg u e p) s in
  st_storage s' = <["userProfile" := "{" +:+ quote "username" +:+ ":" +:+ quote (trim u)
                      +:+ "," +:+ quote "email" +:+ ":" +:+ quote (trim e) +:+ "}"]>
                    (st_storage s) /\
  st_profile s' = VObj [("username", VStr (trim u)); ("email", VStr (trim e))] /\
  st_alerts s' = st_alerts s ++ [registered_msg] /\
  st_location s' = Some "profile.html".
Proof.
  intros Hin Hu He Hp. unfold submitRegister, need. rewrite Hin. st_simpl.
  rewrite !bool_decide_true by done. simpl. autorewrite with shop_rw. repeat split.
Qed.
End Register.

(** ** What the profile card shows for what is stored *)

Section Card.
Context (pg : page) (Hcard : pg_profileCard pg = true) (Hstrong : pg_strong pg = true)
  (Hemail : pg_emailTag pg = true).

(** C32: the profile half of the load listener on the stored
    ["userProfile"] text: with nothing stored the card shows the default
    profile; a stored text that is not JSON (in [in_fragment], where
    the model's parser rejects exactly the texts that are not JSON)
    throws [JSON.parse]'s [SyntaxError] before the card or [profile]
    change; a stored object
    without an [email] member shows ["Email: undefined"], since
    [profile.email] is [undefined] and the concatenation of line 185
    converts it to a string. *)
Theorem loadProfile_cases s :
  (st_storage s !! "userProfile" = None ->
   st_name_view (exec (loadProfile pg) s) = Some "Demo User" /\
   st_email_view (exec (loadProfile pg) s) = Some "Email: user@example.com") /\
  (forall t e, st_storage s !! "userProfile" = Some t -> json_parse t = Err e ->
   in_fragment t = true -> loadProfile pg s = (Err e, s)) /\
  (forall t ps, st_storage s !! "userProfile" = Some t -> json_parse t = Ok (VObj ps) ->
   prop_lookup "email" ps = None ->
   st_email_view (exec (loadProfile pg) s) = Some "Email: undefined").
Proof.
  unfold loadProfile, getItem, updateProfileUI. rewrite Hcard, Hstrong, Hemail. st_simpl.
  split; [|split].
  - intros ->. by vm_compute.
  - intros t e -> He _. simpl. by rewrite He.
  - intros t ps -> Hj Hps. simpl. rewrite Hj. simpl. rewrite Hps. done.
Qed.

End Card.
