(* ===== verification/App.v ===== *)
(** * The page: its load, the events it receives, and its reachable states

    [domContentLoaded] is the listener of scripts.js lines 25-42, the
    composition of [loadItems] and [loadProfile]: a throw in the first
    half skips the second.  [dispatch] runs the listener an event reaches
    (a listener behind [?.] exists only when its element does), and
    [step] is the event loop of one page: [DOMContentLoaded] fires once,
    first, and user events follow.  [early_step] also lets user events
    in before [DOMContentLoaded], an interleaving the script does not
    guard against. *)

From S2P Require Import Prelude JsString JsValue Json Dom ListController Profile.

Section Page.
Context (pg : page).

(** The [DOMContentLoaded] listener, lines 25-42. *)
Definition domContentLoaded : M unit :=
  loadItems pg ;;
  loadProfile pg.

End Page.

(** What happens to a page. *)
Inductive event : Type :=
| EvLoaded                                  (** [DOMContentLoaded] *)
| EvInput (v : string)                      (** the user edits [#itemInput] *)
| EvSubmitItem                              (** the item form is submitted *)
| EvClickList (t : list_target)             (** a click inside [#itemList] *)
| EvClickFilters (t : filter_target)        (** a click inside [.filters] *)
| EvKeyDown (key : string)                  (** a key pressed in the document *)
| EvSubmitRegister (username email password : string).

Section Dispatch.
Context (pg : page).

Definition dispatch (ev : event) : M unit :=
  match ev with
  | EvLoaded => st_modify (upd_loaded (fun _ => true)) ;; domContentLoaded pg
  | EvInput v =>
      if pg_itemInput pg then st_modify (upd_input (fun _ => v)) else st_ret tt
  | EvSubmitItem => if pg_itemForm pg then submitItem pg else st_ret tt
  | EvClickList t => if pg_itemList pg then clickList pg t else st_ret tt
  | EvClickFilters t => if pg_filters pg then clickFilters t else st_ret tt
  | EvKeyDown key => keyDown pg key
  | EvSubmitRegister u e p =>
      if pg_registerForm pg then submitRegister pg u e p else st_ret tt
  end.

(** A click can only reach an entry that is on the page. *)
Definition target_ok (s : St) (ev : event) : Prop :=
  match ev with
  | EvClickList (TItem i | TText i | TRemove i) => i < length (st_list s)
  | _ => True
  end.

Definition is_user_event (ev : event) : bool :=
  match ev with EvLoaded => false | _ => true end.

(** One event of the page's event loop, once the page has loaded. *)
Inductive step : St -> St -> Prop :=
| step_load s :
    st_loaded s = false -> step s (exec (dispatch EvLoaded) s)
| step_user s ev :
    st_loaded s = true -> is_user_event ev = true -> target_ok s ev ->
    step s (exec (dispatch ev) s).

(** One event, where user events may also precede [DOMContentLoaded]. *)
Inductive early_step : St -> St -> Prop :=
| early_load s :
    st_loaded s = false -> early_step s (exec (dispatch EvLoaded) s)
| early_user s ev :
    is_user_event ev = true -> target_ok s ev ->
    early_step s (exec (dispatch ev) s).

(** The states a page reaches from its fresh state. *)
Definition reachable (store : gmap string string) (s : St) : Prop :=
  star step (fresh_state store) s.

End Dispatch.

#[export] Hint Unfold domContentLoaded dispatch : handlers.

(** The load event: the flag, then the item half, then, unless it threw,
    the profile half. *)
Lemma dispatch_loaded_exec pg s :
  exec (dispatch pg EvLoaded) s =
  match loadItems pg (upd_loaded (fun _ => true) s) with
  | (Ok _, s') => exec (loadProfile pg) s'
  | (Err _, s') => s'
  end.
Proof. unfold dispatch, domContentLoaded, exec, st_bind, st_modify. simpl. by destruct (loadItems _ _) as [[] ?]. Qed.

(** ** The invariant of a page *)

(** The list invariant, and before [DOMContentLoaded] an empty list
    outside demo mode. *)
Definition app_inv (pg : page) (s : St) : Prop :=
  list_inv pg s /\ (st_loaded s = false -> st_list s = [] /\ st_showingDemo s = false).

Section AppFacts.
Context (pg : page).

(** Only the [DOMContentLoaded] dispatch sets [st_loaded]. *)
Lemma user_event_loaded ev b :
  is_user_event ev = true ->
  st_preserves (fun s => st_loaded s = b) (dispatch pg ev).
Proof. destruct ev; intros Hu; try done; preserves_tac. Qed.

Lemma domContentLoaded_loaded b :
  st_preserves (fun s => st_loaded s = b) (domContentLoaded pg).
Proof. preserves_tac. Qed.

(** The fields the load listener leaves alone: the input, the loaded
    flag and [localStorage]. *)
Lemma domContentLoaded_fields v b m :
  st_preserves (fun s => st_input s = v /\ st_loaded s = b /\ st_storage s = m)
    (domContentLoaded pg).
Proof. preserves_tac. Qed.

Lemma domContentLoaded_inv s :
  st_list s = [] -> st_showingDemo s = false -> list_inv pg s ->
  list_inv pg (exec (domContentLoaded pg) s).
Proof.
  intros Hl Hd Hinv. pose proof (loadItems_inv pg s Hd Hl Hinv) as H.
  unfold domContentLoaded, exec, st_bind in *.
  destruct (loadItems pg s) as [[[]|e] s'] eqn:E; simpl in *; [|done].
  eapply list_inv_frame; [apply loadProfile_frame|done].
Qed.

(** Every user event keeps the list invariant. *)
Lemma user_event_inv ev s :
  is_user_event ev = true -> list_inv pg s -> list_inv pg (exec (dispatch pg ev) s).
Proof.
  intros Hu Hinv. destruct ev; simpl in Hu; try done; simpl;
    repeat match goal with |- context [if ?b then _ else _] => destruct b end;
    eauto using submitItem_inv, clickList_inv, clickFilters_inv, keyDown_inv.
  by rewrite <- submitRegister_frame.
Qed.

Lemma step_inv s s' : step pg s s' -> app_inv pg s -> app_inv pg s'.
Proof.
  unfold app_inv. intros Hstep [Hinv Hpre]. destruct Hstep as [s Hl|s ev Hl Hu _].
  - destruct (Hpre Hl) as [Hnil Hd].
    unfold dispatch, exec, st_bind, st_modify. simpl.
    split; [|pose proof (domContentLoaded_loaded true (upd_loaded (fun _ => true) s) eq_refl);
             unfold exec in *; congruence].
    apply domContentLoaded_inv; [done|done|].
    assert (Hsame : same_list_state s (upd_loaded (fun _ => true) s)) by (repeat split).
    by rewrite <- Hsame.
  - split; [by apply user_event_inv|].
    + intros Hl'. pose proof (user_event_loaded ev true Hu s Hl). unfold exec in *. congruence.
Qed.
End AppFacts.

(** ** The phases of the list: [Uninitialized -> DemoDisplay -> RealList] *)

Inductive phase : Type := Uninitialized | DemoDisplay | RealList.

Definition phase_of (s : St) : phase :=
  if st_loaded s then (if st_showingDemo s then DemoDisplay else RealList)
  else Uninitialized.

(** The transitions the design allows. *)
Inductive phase_edge : phase -> phase -> Prop :=
| edge_init_demo : phase_edge Uninitialized DemoDisplay
| edge_init_real : phase_edge Uninitialized RealList
| edge_demo_demo : phase_edge DemoDisplay DemoDisplay
| edge_demo_real : phase_edge DemoDisplay RealList
| edge_real_real : phase_edge RealList RealList.

(** ** Reachable states *)

Section Reachable.
Context (pg : page).

Lemma fresh_inv store : app_inv pg (fresh_state store).
Proof. unfold app_inv, list_inv, counters_ok, views_ok, demo_ok. simpl. intuition. Qed.

Lemma reachable_inv store s : reachable pg store s -> app_inv pg s.
Proof.
  intros Hr. eapply (star_invariant (step pg)); [|exact Hr|apply fresh_inv].
  intros a b Ha Hab. by apply (step_inv pg a b).
Qed.

(** C1: in every state a page reaches, [totalItems] is the number of
    real entries on the page and [gotItems] the number of real entries
    with class [got]; demo entries are never counted. *)
Theorem reachable_counters store s :
  reachable pg store s ->
  st_total s = Z.of_nat (count_by is_real (st_list s)) /\
  st_got s = Z.of_nat (count_by is_real_got (st_list s)).
Proof. intros Hr. apply (reachable_inv store s Hr). Qed.

(** C23: in every state a page reaches, the counters are bounded:
    [0 <= gotItems <= totalItems <= ] the number of [li] entries, so
    [totalItems - gotItems] is never negative. *)
Theorem reachable_counter_bounds store s :
  reachable pg store s ->
  (0 <= st_got s <= st_total s)%Z /\ (st_total s <= Z.of_nat (length (st_list s)))%Z.
Proof.
  intros Hr. destruct (reachable_inv store s Hr) as [[[Ht Hg] _] _]. rewrite Ht, Hg.
  assert (count_by is_real_got (st_list s) <= count_by is_real (st_list s))
    by (apply count_by_mono; unfold is_real_got, is_real; intros x; by destruct (li_demo x)).
  pose proof (count_by_le is_real (st_list s)). lia.
Qed.

(** C2: in every state a page reaches, the "remaining" field shows the
    number of real entries not yet checked, unless [updateStats] has
    never written it. *)
Theorem reachable_remaining_view store s :
  reachable pg store s ->
  st_remaining_view s = None \/
  st_remaining_view s = Some (Z_to_string (Z.of_nat (count_by is_real_need (st_list s)))).
Proof.
  intros Hr. destruct (reachable_inv store s Hr) as [(Hc & Hv & _) _].
  destruct Hc as [Ht Hg]. destruct Hv as (_ & _ & [Hn | (_ & _ & _ & Hs)]); [by left|right].
  rewrite Hs, Ht, Hg. do 2 f_equal.
  rewrite (count_by_split is_real li_got). unfold is_real_need, is_real_got, is_real. lia.
Qed.

End Reachable.

Section Phases.
Context (pg : page).

(** No user event turns demo mode on. *)
Lemma user_event_not_demo ev :
  is_user_event ev = true ->
  st_preserves (fun s => st_showingDemo s = false) (dispatch pg ev).
Proof. destruct ev; intros Hu; try done; preserves_tac. Qed.

(** A step from real mode stays in real mode. *)
Lemma step_keeps_real s s' : step pg s s' -> phase_of s = RealList -> phase_of s' = RealList.
Proof.
  unfold phase_of. intros [s0 Hl|s0 ev Hl Hu _]; rewrite Hl; [done|].
  destruct (st_showingDemo s0) eqn:Hd; [done|]. intros _.
  pose proof (user_event_loaded pg ev true Hu s0 Hl) as H. unfold exec in *.
  by rewrite H, (user_event_not_demo ev Hu s0 Hd).
Qed.

(** C9: every event moves the list along the design's state machine:
    [DOMContentLoaded] leaves [Uninitialized] for demo or real mode, and
    no event leads back to demo mode from real mode. *)
Theorem step_phase s s' : step pg s s' -> phase_edge (phase_of s) (phase_of s').
Proof.
  intros Hstep. destruct Hstep as [s Hl|s ev Hl Hu _]; unfold phase_of.
  - pose proof (domContentLoaded_loaded pg true (upd_loaded (fun _ => true) s) eq_refl) as H.
    unfold dispatch, exec, st_bind, st_modify in *. simpl in *. rewrite Hl, H.
    destruct (st_showingDemo _); constructor.
  - pose proof (user_event_loaded pg ev true Hu s Hl) as H. unfold exec in *. rewrite Hl, H.
    destruct (st_showingDemo s) eqn:Hd.
    + destruct (st_showingDemo (dispatch pg ev s).2); constructor.
    + rewrite (user_event_not_demo ev Hu s Hd). constructor.
Qed.

(** C10: Real mode is terminal: once in it, a page never leaves it. *)
Corollary real_list_terminal s s' :
  star (step pg) s s' -> phase_of s = RealList -> phase_of s' = RealList.
Proof.
  intros Hs. apply (star_invariant (step pg) (fun s => phase_of s = RealList)); [|done].
  intros a b Ha Hab. by apply (step_keeps_real a b).
Qed.
End Phases.

(** ** Loading a page *)

Section Load.
Context (pg : page).

(** The demo entries [showDemoItems] renders. *)
Definition demo_entries : list li :=
  [mkLi true false "Milk (example)" None; mkLi true true "Eggs (example)" None].

(** C4: loading a page whose stored list is absent, empty or falsy
    shows exactly the two demo entries, counts nothing, enters demo
    mode and writes nothing to [localStorage]. *)
Theorem load_empty_shows_demo store v :
  pg_itemList pg = true ->
  json_parse (default "null" (store !! "shoppingList")) = Ok v ->
  truthy v = false \/ v = VArr [] ->
  let s := exec (dispatch pg EvLoaded) (fresh_state store) in
  st_list s = demo_entries /\ st_items s = [] /\
  st_total s = 0%Z /\ st_got s = 0%Z /\ st_showingDemo s = true /\
  st_storage s = store.
Proof.
  intros Hil Hp Hv. unfold dispatch, domContentLoaded, exec.
  unfold st_bind at 1. unfold st_modify at 1.
  unfold st_bind at 1. unfold loadItems, getItem, showDemoItems, need. st_simpl.
  rewrite Hp. simpl.
  assert ((if truthy v then v else VArr []) = VArr []) as ->
    by (destruct Hv as [-> | ->]; done).
  simpl. rewrite Hil. simpl.
  set (s1 := upd_showingDemo _ _).
  pose proof (loadProfile_frame pg s1) as (H1 & H2 & H3 & H4 & H5 & _).
  pose proof (loadProfile_storage pg store s1 eq_refl) as H6.
  unfold exec in *. rewrite H1, H2, H3, H4, H5, H6. repeat split.
Qed.

(** C24: stored text that the load cannot read stops the whole load
    listener: a text that is not JSON ([SyntaxError] at line 27; the
    text is taken in [in_fragment], where the model's parser rejects
    exactly the texts that are not JSON), or
    JSON for a truthy value that is not an array and whose [length] is
    not [0] ([TypeError] at [saved.forEach], line 32).  The page then
    shows no entry, not even the demo ones, and the profile half of
    the listener never runs: [profile] stays [null] and the card is
    not filled. *)
Theorem load_unreadable_storage store t :
  store !! "shoppingList" = Some t ->
  (exists e, json_parse t = Err e /\ in_fragment t = true) \/
  (exists v len, json_parse t = Ok v /\ truthy v = true /\ (forall l, v <> VArr l) /\
     get_prop v "length" = Ok len /\ strict_eq_num len 0 = false) ->
  let s := exec (dispatch pg EvLoaded) (fresh_state store) in
  st_list s = [] /\ st_items s = [] /\ st_showingDemo s = false /\
  st_profile s = VNull /\ st_name_view s = None /\ st_email_view s = None.
Proof.
  intros Hs Hbad. cbv zeta. rewrite dispatch_loaded_exec.
  unfold loadItems, getItem, st_bind, st_get, st_ret, st_lift. simpl. rewrite Hs. simpl.
  destruct Hbad as [[e [-> _]] | (v & len & -> & Hv & Harr & Hlen & H0)]; [done|].
  simpl. rewrite Hv, Hlen, H0. simpl.
  destruct v as [| | | | |l|]; try done. by destruct (Harr l).
Qed.
End Load.

(** ** A page without the item list never shows the profile *)

Section NoList.
Context (pg : page).

(** Without [#itemList], the item half of the load listener throws,
    whatever [localStorage] holds: [showDemoItems] and [createItem]
    both append to the missing list. *)
Lemma loadItems_throws_without_list s :
  pg_itemList pg = false ->
  exists e, fst (loadItems pg s) = Err e /\ st_name_view (exec (loadItems pg) s) = st_name_view s /\
    st_email_view (exec (loadItems pg) s) = st_email_view s /\
    st_profile (exec (loadItems pg) s) = st_profile s.
Proof.
  intros Hil. unfold loadItems, getItem, showDemoItems, need, exec. st_simpl.
  destruct (json_parse _) as [parsed|e]; simpl; [|by exists e].
  set (saved := if truthy parsed then parsed else VArr []).
  destruct (get_prop saved "length") as [len|e] eqn:Hlen; simpl; [|by exists e].
  destruct (strict_eq_num len 0) eqn:Hz; simpl; rewrite ?Hil; simpl; [(eexists; repeat split)|].
  destruct saved as [| | | | |[|x l]|]; simpl; try solve [eexists; repeat split].
  - simpl in Hlen. by simplify_eq.
  - st_simpl. destruct (get_prop x "text") as [t|e]; simpl; [|by exists e].
    destruct (get_prop x "got") as [g|e]; simpl; [|by exists e].
    unfold createItem, need. rewrite Hil. simpl. (eexists; repeat split).
Qed.

(** C17: on a page whose markup has no [#itemList], the load listener
    stops before the profile is read: the profile card keeps its markup
    text and [profile] stays [null], whatever is stored. *)
Theorem no_item_list_no_profile store :
  pg_itemList pg = false ->
  let s := exec (dispatch pg EvLoaded) (fresh_state store) in
  st_name_view s = None /\ st_email_view s = None /\ st_profile s = VNull.
Proof.
  intros Hil. cbv zeta. rewrite dispatch_loaded_exec.
  set (s1 := upd_loaded _ _).
  destruct (loadItems_throws_without_list s1 Hil) as (e & He & H1 & H2 & H3).
  unfold exec in *. destruct (loadItems pg s1) as [r s2]. simpl in *. subst r. done.
Qed.

(** C29: the [keydown] listener is attached to the document on every
    page (line 172) but reads [itemInput] unguarded: on a page without
    [#itemInput] (the register and profile pages) pressing Escape throws
    a [TypeError] out of the listener, and the state is unchanged;
    every other key is ignored. *)
Theorem escape_without_input_throws s k :
  pg_itemInput pg = false ->
  (k = "Escape" -> exists msg, dispatch pg (EvKeyDown k) s = (Err (TypeError msg), s)) /\
  (k <> "Escape" -> dispatch pg (EvKeyDown k) s = (Ok tt, s)).
Proof.
  intros Hin. simpl. unfold keyDown, need. rewrite Hin.
  split; intros Hk; [rewrite bool_decide_true by done | by rewrite bool_decide_false].
  by eexists.
Qed.
End NoList.

(** ** Runs of events *)

(** The page state after a sequence of events. *)
Fixpoint run (pg : page) (s : St) (evs : list event) : St :=
  match evs with
  | [] => s
  | ev :: evs' => run pg (exec (dispatch pg ev) s) evs'
  end.

#[export] Instance target_ok_dec s ev : Decision (target_ok s ev).
Proof. destruct ev as [| | |[]| | |]; simpl; apply _. Defined.

(** The event loop may deliver [ev] in [s]: [DOMContentLoaded] once and
    first, then user events on entries that exist ([early]: user events
    may also come first). *)
Definition deliverable (early : bool) (s : St) (ev : event) : bool :=
  match ev with
  | EvLoaded => negb (st_loaded s)
  | _ => (early || st_loaded s) && bool_decide (target_ok s ev)
  end.

Fixpoint valid_run (pg : page) (early : bool) (s : St) (evs : list event) : bool :=
  match evs with
  | [] => true
  | ev :: evs' => deliverable early s ev && valid_run pg early (exec (dispatch pg ev) s) evs'
  end.


(** An event the loop may deliver is a step. *)
Lemma deliverable_step pg s ev : deliverable false s ev = true -> step pg s (exec (dispatch pg ev) s).
Proof.
  intros Hd. destruct ev; cbn [deliverable orb] in Hd;
    try (apply negb_true_iff in Hd; by apply step_load);
    apply andb_prop in Hd as [Hl Ht]; (apply step_user; [exact Hl|done|exact (bool_decide_eq_true_1 _ Ht)]).
Qed.

Lemma star_run pg s evs : valid_run pg false s evs = true -> star (step pg) s (run pg s evs).
Proof.
  revert s. induction evs as [|ev evs IH]; intros s Hv; simpl in *; [constructor|].
  apply andb_prop in Hv as [Hd Hv]. eapply star_step; [by apply deliverable_step|by apply IH].
Qed.

(** An event the early loop may deliver is an early step. *)
Lemma deliverable_early_step pg s ev :
  deliverable true s ev = true -> early_step pg s (exec (dispatch pg ev) s).
Proof.
  intros Hd. destruct ev; cbn [deliverable orb andb] in Hd;
    try (apply negb_true_iff in Hd; by apply early_load);
    (apply early_user; [done|exact (bool_decide_eq_true_1 _ Hd)]).
Qed.

Lemma star_run_early pg s evs : valid_run pg true s evs = true -> star (early_step pg) s (run pg s evs).
Proof.
  revert s. induction evs as [|ev evs IH]; intros s Hv; simpl in *; [constructor|].
  apply andb_prop in Hv as [Hd Hv].
  eapply star_step; [by apply deliverable_early_step|by apply IH].
Qed.

(** Every step of the event loop delivers a deliverable event. *)
Lemma step_deliverable pg s s' :
  step pg s s' -> exists ev, deliverable false s ev = true /\ s' = exec (dispatch pg ev) s.
Proof.
  intros [s0 Hl|s0 ev Hl Hu Ht].
  - exists EvLoaded. cbn [deliverable]. by rewrite Hl.
  - exists ev. split; [|done]. destruct ev; try done; cbn [deliverable orb];
      by rewrite Hl, bool_decide_eq_true_2.
Qed.

(** the executable runs are the event loop.  A state is reached
    from [s] by steps of the event loop exactly when some sequence of
    events, each deliverable when it comes ([valid_run]), leads from [s]
    to it by the listeners ([run]); the witnesses of this development
    rely on this to decide reachability by evaluation. *)
Lemma star_step_run pg s s' :
  star (step pg) s s' <-> exists evs, valid_run pg false s evs = true /\ run pg s evs = s'.
Proof.
  split.
  - induction 1 as [s|s s1 s2 Hs _ (evs & Hv & Hr)]; [by exists []|].
    destruct (step_deliverable pg s s1 Hs) as (ev & Hd & ->).
    exists (ev :: evs). simpl. by rewrite Hd, Hv.
  - intros (evs & Hv & <-). by apply star_run.
Qed.

(** The markup of the list page: every element but the register form. *)
Definition index_page : page :=
  mkPage true true true true true true true true true true false false.

(** ** The user can always add an item *)

Section Liveness.
Context (pg : page) (Hpg : list_page pg) (Hform : pg_itemForm pg = true).

(** After [DOMContentLoaded] the flag stays set. *)
Lemma loaded_after_load s : st_loaded (exec (dispatch pg EvLoaded) s) = true.
Proof.
  pose proof (domContentLoaded_loaded pg true (upd_loaded (fun _ => true) s) eq_refl) as H.
  unfold dispatch, exec, st_bind, st_modify in *. exact H.
Qed.

(** Typing [v] and submitting the form, on a loaded page: two steps of
    the event loop, after which the page is out of demo mode and the
    trimmed text is the last entry, the last object of [items] and part
    of the saved list. *)
Lemma enter_item_effect s v :
  st_loaded s = true -> trim v <> EmptyString ->
  let s' := exec (dispatch pg EvSubmitItem) (exec (dispatch pg (EvInput v)) s) in
  star (step pg) s s' /\ st_loaded s' = true /\ st_showingDemo s' = false /\
  last (st_list s') = Some (mkLi false false (trim v) None) /\
  last (st_items s') = Some (mkItem (VStr (trim v)) (VBool false)) /\
  st_storage s' !! "shoppingList" =
    Some (to_string (json_stringify (VArr (map item_value (st_items s'))))).
Proof.
  intros Hl Hne. cbv zeta.
  pose proof (user_event_loaded pg (EvInput v) true eq_refl s Hl) as Hl1.
  pose proof (user_event_loaded pg EvSubmitItem true eq_refl _ Hl1) as Hl2.
  split.
  { eapply star_step; [by apply (step_user pg s (EvInput v))|].
    eapply star_step; [by apply (step_user pg _ EvSubmitItem)|]. apply star_refl. }
  split; [exact Hl2|]. clear Hl1 Hl2.
  pose proof Hpg as (Hin & _). unfold dispatch. rewrite Hin, Hform.
  run_on_list_page Hpg. rewrite bool_decide_false by done.
  st_fields. destruct (st_showingDemo s) eqn:Hd; simpl; rewrite ?last_snoc;
    (repeat split); first [done | apply lookup_insert_eq].
Qed.

(** C26: whatever state the page is in, the user can still add an item:
    a run of the event loop ([DOMContentLoaded] if it has not fired, then
    typing [v] and submitting the form) reaches a state of the real list
    whose last entry and last object of [items] are the trimmed text,
    unchecked, and whose saved list is the JSON of [items]. *)
Theorem can_add_item s v :
  trim v <> EmptyString ->
  exists s', star (step pg) s s' /\ phase_of s' = RealList /\
    last (st_list s') = Some (mkLi false false (trim v) None) /\
    last (st_items s') = Some (mkItem (VStr (trim v)) (VBool false)) /\
    st_storage s' !! "shoppingList" =
      Some (to_string (json_stringify (VArr (map item_value (st_items s'))))).
Proof.
  intros Hne.
  assert (Hrun : forall s0, st_loaded s0 = true -> star (step pg) s s0 ->
            exists s', star (step pg) s s' /\ phase_of s' = RealList /\
              last (st_list s') = Some (mkLi false false (trim v) None) /\
              last (st_items s') = Some (mkItem (VStr (trim v)) (VBool false)) /\
              st_storage s' !! "shoppingList" =
                Some (to_string (json_stringify (VArr (map item_value (st_items s')))))).
  { intros s0 Hl0 H0. destruct (enter_item_effect s0 v Hl0 Hne) as (Hs & Hl & Hd & Hrest).
    eexists. split; [exact (star_trans _ _ _ _ H0 Hs)|].
    split; [unfold phase_of; by rewrite Hl, Hd|exact Hrest]. }
  destruct (st_loaded s) eqn:Hl; [apply (Hrun s Hl), star_refl|].
  apply (Hrun (exec (dispatch pg EvLoaded) s)); [apply loaded_after_load|].
  apply star_one. by apply step_load.
Qed.

End Liveness.
