(* ===== verification/Bounds.v ===== *)
(** * How far the list and the counters can grow

    JavaScript numbers are doubles: [totalItems] and [gotItems]
    (scripts.js lines 18-19) are exact integers only below 2^53, while
    the model counts in [Z].  This file bounds how far the list can
    grow: every listener adds at most one entry (the item form's submit
    listener, through [createItem]), except the [DOMContentLoaded]
    listener, which adds one entry per element of the saved array or
    the two demo entries.  With the counter invariant of [App] this
    bounds the counters by the length of the saved list plus the number
    of events, so for any session of fewer than 2^53 events over a
    saved list of reasonable length the doubles of the script and the
    integers of the model agree. *)

From S2P Require Import Prelude JsString JsValue Json Dom ListController Profile App.

(** The number of entries of the list. *)
Definition entries (s : St) : nat := length (st_list s).

(** The number of elements of the array saved under ["shoppingList"],
    0 when nothing or no array is saved. *)
Definition stored_count (m : gmap string string) : nat :=
  match m !! "shoppingList" with
  | Some t => match json_parse t with Ok (VArr l) => length l | _ => 0 end
  | None => 0
  end.

Lemma length_delete_le {A} (l : list A) i : length (delete i l) <= length l.
Proof.
  revert i. induction l as [|x l IH]; intros [|i]; simpl; [lia..|]. specialize (IH i). lia.
Qed.

(** Close the arithmetic goal of a state update. *)
Ltac entries_arith :=
  unfold entries; cbn beta; st_fields;
  rewrite ?length_app, ?length_map, ?length_insert; simpl;
  try match goal with |- context [length (delete ?i ?l)] => pose proof (length_delete_le l i) end;
  lia.

(** Split [st_grows entries n c] along [c]: every part but one must not
    grow. *)
Ltac grows_tac :=
  lazymatch goal with
  | |- st_grows _ _ (st_bind _ _) =>
      first [ apply grows_bind_0l; [solve [grows_tac] | intros ?; grows_tac]
            | apply grows_bind_0r; [grows_tac | intros ?; solve [grows_tac]] ]
  | |- st_grows _ _ (if _ then _ else _) => apply grows_if; grows_tac
  | |- st_grows _ _ (st_modify _) => apply grows_modify; intros ?s; entries_arith
  | |- st_grows _ _ (st_ret _) => apply grows_ret
  | |- st_grows _ _ (st_throw _) => apply grows_throw
  | |- st_grows _ _ st_get => apply grows_get
  | |- st_grows _ _ (st_lift _) => apply grows_lift
  | |- st_grows _ _ (let _ := _ in _) => cbv zeta; grows_tac
  | |- st_grows _ _ (match ?x with _ => _ end) => destruct x; grows_tac
  | |- st_grows _ _ _ => progress (autounfold with handlers); grows_tac
  end.

Section Handlers.
Context (pg : page).

Lemma createItem_grows t g : st_grows entries 1 (createItem pg t g).
Proof. grows_tac. Qed.

Lemma updateStats_grows : st_grows entries 0 (updateStats pg).
Proof. grows_tac. Qed.

Lemma saveItems_grows : st_grows entries 0 saveItems.
Proof. grows_tac. Qed.

Lemma submitItem_grows : st_grows entries 1 (submitItem pg).
Proof. grows_tac. Qed.

End Handlers.


Section Load.
Context (pg : page).

Lemma showDemo_grows :
  st_grows entries 2 (showDemoItems pg ;; st_modify (upd_showingDemo (fun _ => true))).
Proof.
  apply grows_bind_0r; [|intros; grows_tac].
  apply (grows_mono _ (length demoData * 1)); [simpl; lia|].
  apply grows_iter. intros. grows_tac.
Qed.

(** The number of elements of the array a parsed value is, or 0. *)
Definition arr_count (v : value) : nat := match v with VArr l => length l | _ => 0 end.

(** The part of [loadItems] after [JSON.parse]: the demo entries, or one
    entry per element of the parsed array. *)
Lemma load_tail_grows (parsed : value) :
  st_grows entries (arr_count parsed + 2)
    (len <- st_lift (get_prop (if truthy parsed then parsed else VArr []) "length") ;;
     if strict_eq_num len 0 then
       showDemoItems pg ;; st_modify (upd_showingDemo (fun _ => true))
     else
       js_forEach (if truthy parsed then parsed else VArr []) (fun obj =>
         t <- st_lift (get_prop obj "text") ;;
         g <- st_lift (get_prop obj "got") ;;
         createItem pg t g) ;;
       updateStats pg).
Proof.
  apply grows_bind_0l; [apply grows_lift|intros len]. apply grows_if.
  - eapply grows_mono; [|apply showDemo_grows]. lia.
  - apply grows_bind_0r; [|intros; apply updateStats_grows].
    destruct (truthy parsed); [destruct parsed as [| | | | |l|]|]; simpl;
      try (apply grows_throw); try (apply grows_ret).
    apply (grows_mono _ (length l * 1)); [lia|]. apply grows_iter. intros. grows_tac.
Qed.

Lemma loadItems_entries s :
  entries (snd (loadItems pg s)) <= entries s + stored_count (st_storage s) + 2.
Proof.
  unfold loadItems, getItem, stored_count.
  unfold st_bind at 1 2 3. cbn [st_get st_ret st_lift fst snd].
  destruct (st_storage s !! "shoppingList") as [t|]; cbn [default id].
  - destruct (json_parse t) as [parsed|e]; [|simpl; lia].
    pose proof (load_tail_grows parsed s). destruct parsed; simpl in *; lia.
  - pose proof (load_tail_grows VNull s). simpl in *. lia.
Qed.

End Load.

Section Runs.
Context (pg : page).

(** A user event adds at most one entry, whatever the markup. *)
Lemma user_event_grows ev : is_user_event ev = true -> st_grows entries 1 (dispatch pg ev).
Proof. destruct ev; try done; intros _; simpl; grows_tac. Qed.

(** The load adds at most one entry per saved element, or two demo
    entries. *)
Lemma load_entries s :
  entries (exec (dispatch pg EvLoaded) s) <= entries s + stored_count (st_storage s) + 2.
Proof.
  rewrite dispatch_loaded_exec. set (s0 := upd_loaded (fun _ => true) s).
  pose proof (loadItems_entries pg s0) as H.
  assert (Hp : st_grows entries 0 (loadProfile pg)) by grows_tac.
  destruct (loadItems pg s0) as [[]] eqn:E; [|exact H].
  specialize (Hp s1). unfold exec, entries in *. cbn [snd] in H. change (st_storage s0) with (st_storage s) in H. change (st_list s0) with (st_list s) in H. lia.
Qed.

(** Along a run of the event loop: one load, then user events. *)
Lemma run_entries s evs :
  valid_run pg false s evs = true ->
  entries (run pg s evs) <=
    entries s + (if st_loaded s then 0 else stored_count (st_storage s) + 2) + length evs.
Proof.
  revert s. induction evs as [|ev evs IH]; intros s Hv; simpl in *; [lia|].
  apply andb_prop in Hv as [Hd Hv]. specialize (IH _ Hv).
  assert (Hcase : ev = EvLoaded \/ is_user_event ev = true) by (destruct ev; auto).
  destruct Hcase as [->|Hu].
  - cbn [deliverable] in Hd. apply negb_true_iff in Hd. rewrite Hd.
    rewrite (loaded_after_load pg s) in IH. pose proof (load_entries s). lia.
  - assert (Hl : st_loaded s = true)
      by (destruct ev; try done; cbn [deliverable orb] in Hd; by apply andb_prop in Hd as [? _]).
    pose proof (user_event_loaded pg ev true Hu s Hl) as Hl'.
    change (snd (dispatch pg ev s)) with (exec (dispatch pg ev) s) in Hl'.
    rewrite Hl' in IH. rewrite Hl.
    pose proof (user_event_grows ev Hu s). unfold exec in *. lia.
Qed.

End Runs.

(** C34: the list and [totalItems] grow by at most one per event.  After
    a run of the event loop of [n] events on a fresh page whose
    [localStorage] holds an array of [k] elements (or none: [k = 0]),
    the page has at most [k + 2 + n] entries and [totalItems] is at most
    [k + 2 + n]; [gotItems] lies below [totalItems] (C23).  Hence the
    counters stay below 2^53, where the doubles of the script are exact
    integers, for every session of fewer than [2^53 - k - 2] events. *)
Theorem run_bounds pg m evs :
  valid_run pg false (fresh_state m) evs = true ->
  let s := run pg (fresh_state m) evs in
  entries s <= stored_count m + 2 + length evs /\
  (st_total s <= Z.of_nat (stored_count m + 2 + length evs))%Z.
Proof.
  intros Hv. cbv zeta. pose proof (run_entries pg _ _ Hv) as He. cbn in He.
  split; [lia|].
  destruct (reachable_inv pg m _ (star_run pg _ _ Hv)) as [[[Ht _] _] _].
  pose proof (count_by_le is_real (st_list (run pg (fresh_state m) evs))).
  unfold entries in He. rewrite Ht. lia.
Qed.
