(* ===== verification/Shape.v ===== *)
(** * The shape of [items] and of the saved list

    Every object of [items] is built by [createItem] (scripts.js lines
    87-105) and changed only by the click handler's [obj.got = ...]
    (lines 130 and 136), so the script means [items] to hold objects
    [{text: string, got: boolean}], and [saveItems] (lines 167-169) to
    store their JSON text.  [loadItems] does not check what it reads:
    a saved element with a number as its [text] becomes an item with a
    number as its [text].  This file shows that the shape is an
    invariant of the page as long as the storage it starts from holds
    such a list (or nothing): every handler keeps [items] plain, every
    write under ["shoppingList"] stores the JSON text of plain items,
    and so every state the event loop reaches has plain items. *)

From S2P Require Import Prelude JsString JsValue Json JsonRoundtrip Dom ListController Persistence Profile App.

(** Every item has a string text and a boolean [got]. *)
Definition items_plain (s : St) : Prop := Forall (fun it => plain_item it = true) (st_items s).

(** The text under ["shoppingList"], when there is one, is the JSON text
    of a list of plain items. *)
Definition storage_plain (store : gmap string string) : Prop :=
  forall t, store !! "shoppingList" = Some t ->
  exists items, Forall (fun it => plain_item it = true) items /\
    json_parse t = Ok (VArr (map item_value items)).

Definition shape_inv (s : St) : Prop := items_plain s /\ storage_plain (st_storage s).

(** ** The updates of [items] keep it plain *)

Lemma set_got_first_plain text b l :
  Forall (fun it => plain_item it = true) l ->
  Forall (fun it => plain_item it = true) (set_got_first text b l).
Proof.
  induction 1 as [|it l Hit Hl IH]; simpl; [done|].
  destruct (strict_eq_str _ _); constructor; try done.
  unfold plain_item in *. by destruct it as [[] []].
Qed.

Lemma remove_text_plain text l :
  Forall (fun it => plain_item it = true) l ->
  Forall (fun it => plain_item it = true) (remove_text text l).
Proof.
  rewrite !List.Forall_forall. intros Hl x Hx. apply filter_In in Hx. apply Hl, Hx.
Qed.

Lemma push_plain l t b :
  Forall (fun it => plain_item it = true) l ->
  Forall (fun it => plain_item it = true) (l ++ [mkItem (VStr t) (VBool b)]).
Proof. intros Hl. apply Forall_app. by split; [|constructor]. Qed.

(** ** The state updates of the handlers *)

Lemma shape_frame s s' :
  st_items s' = st_items s -> st_storage s' = st_storage s -> shape_inv s -> shape_inv s'.
Proof. unfold shape_inv, items_plain. intros -> ->. done. Qed.

Lemma shape_upd_items g s :
  (forall l, Forall (fun it => plain_item it = true) l ->
             Forall (fun it => plain_item it = true) (g l)) ->
  shape_inv s -> shape_inv (upd_items g s).
Proof. intros Hg [Hi Hs]. split; [apply Hg, Hi|exact Hs]. Qed.

(** Writing another key of [localStorage] leaves the saved list. *)
Lemma storage_plain_insert_ne k v m :
  k <> "shoppingList" -> storage_plain m -> storage_plain (<[k := v]> m).
Proof. intros Hk Hm t. rewrite lookup_insert_ne by done. apply Hm. Qed.

Lemma shape_upd_other_key k v s :
  k <> "shoppingList" -> shape_inv s -> shape_inv (upd_storage (insert k v) s).
Proof. intros Hk [Hi Hs]. split; [exact Hi|]. by apply storage_plain_insert_ne. Qed.

(** [saveItems] stores the JSON text of the plain items it saves. *)
Lemma saveItems_shape : st_preserves shape_inv saveItems.
Proof.
  intros s [Hi Hs]. split; [exact Hi|].
  destruct (saveItems_storage s) as [t' [Ht' Hs']]. intros t Ht.
  change (snd (saveItems s)) with (exec saveItems s) in Ht. rewrite Hs' in Ht. simplify_eq.
  exists (st_items s). split; [exact Hi|].
  rewrite (json_parse_stringify _ _ Ht'). f_equal. by apply json_norm_items.
Qed.

(** The handlers' own definitions, unfolded by [shape_tac]; [saveItems]
    is not among them: its lemma is applied instead. *)
Create HintDb shape discriminated.
#[export] Hint Unfold li_at updateStats createItem showDemoItems submitItem removeEntry
  toggleEntry clickList clickFilters keyDown need getItem setItem
  loadProfile updateProfileUI submitRegister : shape.

(** Close [shape_inv] of a state update. *)
Ltac shape_close :=
  match goal with
  | H : shape_inv ?s |- shape_inv (upd_items ?g ?s) =>
      apply (shape_upd_items g s); [intros ?l ?Hl|exact H];
      first [by apply push_plain | by apply remove_text_plain | by apply set_got_first_plain]
  | H : shape_inv ?s |- shape_inv (upd_storage (insert ?k _) ?s) =>
      apply shape_upd_other_key; [done|exact H]
  | H : shape_inv ?s |- shape_inv ?s' => exact (shape_frame s s' eq_refl eq_refl H)
  end.

Ltac shape_tac :=
  repeat first [ apply saveItems_shape | preserves_step | progress cbv zeta
               | progress autounfold with shape ];
  try shape_close.

Section Handlers.
Context (pg : page).

Lemma submitItem_shape : st_preserves shape_inv (submitItem pg).
Proof. shape_tac. Qed.

Lemma clickList_shape t : st_preserves shape_inv (clickList pg t).
Proof. shape_tac. Qed.

Lemma keyDown_shape k : st_preserves shape_inv (keyDown pg k).
Proof. shape_tac. Qed.

Lemma clickFilters_shape t : st_preserves shape_inv (clickFilters t).
Proof. shape_tac. Qed.

Lemma submitRegister_shape u e p : st_preserves shape_inv (submitRegister pg u e p).
Proof. shape_tac. Qed.

Lemma loadProfile_shape : st_preserves shape_inv (loadProfile pg).
Proof. shape_tac. Qed.

Lemma showDemo_shape :
  st_preserves shape_inv (showDemoItems pg ;; st_modify (upd_showingDemo (fun _ => true))).
Proof. shape_tac. Qed.

Lemma updateStats_shape : st_preserves shape_inv (updateStats pg).
Proof. shape_tac. Qed.

(** One turn of the load loop on the object of a plain item. *)
Lemma load_body_shape it :
  plain_item it = true -> st_preserves shape_inv (load_body pg (item_value it)).
Proof.
  destruct it as [[] []]; try done. intros _.
  unfold load_body, item_value. cbn [it_text it_got]. rewrite !get_prop_obj. simpl.
  do 2 apply preserves_lift_ok. shape_tac.
Qed.

(** [loadItems] on a storage that holds plain items, or nothing: the
    demo placeholders when there are none, else the load loop over them
    and [updateStats()]. *)
Lemma loadItems_plain_cases s :
  storage_plain (st_storage s) ->
  loadItems pg s = (showDemoItems pg ;; st_modify (upd_showingDemo (fun _ => true))) s \/
  exists items, items <> [] /\ Forall (fun it => plain_item it = true) items /\
    loadItems pg s = st_bind (st_iter (load_body pg) (map item_value items)) (fun _ => updateStats pg) s.
Proof.
  intros Hst. destruct (st_storage s !! "shoppingList") as [t|] eqn:E.
  - destruct (Hst t E) as ([|it items] & Hp & Hj).
    + left. unfold loadItems, getItem, st_bind at 1 2 3, st_get, st_ret, st_lift.
      simpl. rewrite E. simpl. by rewrite Hj.
    + right. exists (it :: items). split; [done|]. split; [exact Hp|].
      by apply (loadItems_stored pg _ t).
  - left. unfold loadItems, getItem, st_bind at 1 2 3, st_get, st_ret, st_lift.
    simpl. by rewrite E.
Qed.

Lemma loadItems_shape : st_preserves shape_inv (loadItems pg).
Proof.
  intros s Hs. pose proof Hs as [_ Hst].
  destruct (loadItems_plain_cases s Hst) as [-> | (items & _ & Hp & ->)]; [by apply showDemo_shape|].
  eapply (preserves_bind shape_inv); [apply preserves_iter| |exact Hs].
  - intros x Hx. rewrite map_fmap in Hx.
    apply list_elem_of_fmap in Hx as (it' & -> & Hit).
    apply load_body_shape. rewrite Forall_forall in Hp. by apply Hp.
  - intros _. apply updateStats_shape.
Qed.

End Handlers.

(** Every dispatch keeps the shape. *)
Lemma dispatch_shape pg ev : st_preserves shape_inv (dispatch pg ev).
Proof.
  destruct ev; simpl;
    repeat first [ apply loadItems_shape | apply loadProfile_shape | apply submitItem_shape
                 | apply clickList_shape | apply clickFilters_shape | apply keyDown_shape
                 | apply submitRegister_shape | preserves_step
                 | progress unfold domContentLoaded ];
    try shape_close.
Qed.

Lemma plain_item_shape it :
  plain_item it = true <-> exists t b, it = {| it_text := VStr t; it_got := VBool b |}.
Proof.
  split; [|by intros (t & b & ->)].
  destruct it as [[] []]; try done. intros _. by eexists _, _.
Qed.

Section Reachable.
Context (pg : page).

(** Every reachable state of a page started from plain data is plain. *)
Lemma reachable_shape store s : storage_plain store -> reachable pg store s -> shape_inv s.
Proof.
  intros Hst Hr. apply (star_invariant (step pg) shape_inv) with (fresh_state store); [|exact Hr|].
  - intros a b Ha Hab. destruct Hab; by apply dispatch_shape.
  - unfold shape_inv, items_plain. split; [constructor|exact Hst].
Qed.

(** C25: the shape of the data is an invariant of the page.  When the
    saved list the page starts from is the JSON text of objects
    [{text: string, got: boolean}] (or there is none), then in every
    state the event loop reaches each object of [items] has a string
    [text] and a boolean [got], and the saved list is still the JSON
    text of such objects. *)
Theorem reachable_items_shape store s :
  storage_plain store -> reachable pg store s ->
  (forall it, it ∈ st_items s -> exists t b, it = {| it_text := VStr t; it_got := VBool b |}) /\
  storage_plain (st_storage s).
Proof.
  intros Hst Hr. destruct (reachable_shape store s Hst Hr) as [Hi Hs']. split; [|exact Hs'].
  intros it Hit. apply plain_item_shape. unfold items_plain in Hi. rewrite Forall_forall in Hi. by apply Hi.
Qed.

End Reachable.
