(* ===== verification/Session.v ===== *)
(** * A session over several pages

    The script is loaded by every page of the site, and the pages share
    [localStorage].  The register form's listener ends with
    [window.location.href = "profile.html"] (scripts.js line 200): the
    browser leaves the page, and the next page runs the script from its
    first line, with fresh module state and the same storage.  This
    file models a session as the URL of the current page and its state,
    a step being an event on that page ([App.step]) or a navigation to
    the location a handler set, and shows that a registration is shown
    by the profile card of the next page, when that page has the list
    markup and the saved list is readable. *)

From S2P Require Import Prelude JsString JsValue Json JsonRoundtrip Dom ListController Persistence Profile App Shape.

(** The markup of each page of the site, by URL. *)
Definition site : Type := string -> page.

(** The page being shown and its state. *)
Record session : Type := mkSession { se_url : string; se_state : St }.

(** Following [window.location.href = url]: the next page starts with
    fresh module state and the same [localStorage]. *)
Definition navigate (s : St) : option session :=
  match st_location s with
  | Some url => Some (mkSession url (fresh_state (st_storage s)))
  | None => None
  end.

Section Sessions.
Context (w : site).

Inductive sstep : session -> session -> Prop :=
| sstep_page url s s' :
    step (w url) s s' -> sstep (mkSession url s) (mkSession url s')
| sstep_nav se se' :
    navigate (se_state se) = Some se' -> sstep se se'.

End Sessions.

(** ** The load listener on a page with the list markup *)

Section Load.
Context (pg : page) (Hpg : list_page pg).

(** On a page with the list markup, [loadItems] returns normally when
    the saved list is the JSON of plain items, or absent. *)
Lemma loadItems_ok s : storage_plain (st_storage s) -> (loadItems pg s).1 = Ok tt.
Proof.
  intros Hst. destruct (loadItems_plain_cases pg s Hst) as [-> | (items & Hne & _ & ->)];
    [apply (showDemo_ok pg Hpg)|].
  destruct (load_loop_effect pg Hpg items s) as (Hok & _).
  unfold st_bind. destruct (st_iter _ _ s) as [r s1]. cbn in Hok. subst r.
  apply (updateStats_list_state pg Hpg s1).
Qed.

End Load.

(** ** The profile half on a storage holding a registration *)

(** The profile object the register handler stores (line 196). *)
Definition registered_profile (username email : string) : value :=
  VObj [("username", VStr username); ("email", VStr email)].

Lemma registered_profile_parse a b :
  json_parse (to_string (json_stringify (registered_profile a b))) = Ok (registered_profile a b).
Proof.
  pose proof (stringify_defined (registered_profile a b) ltac:(discriminate)) as Ht.
  unfold json_stringify. rewrite Ht. simpl to_string.
  rewrite (json_parse_stringify _ _ Ht). reflexivity.
Qed.

Section Profile.
Context (pg : page) (Hcard : pg_profileCard pg = true) (Hstrong : pg_strong pg = true)
  (Hemail : pg_emailTag pg = true).

(** [loadProfile] on a storage holding the JSON of a registered profile
    shows its user name and e-mail. *)
Lemma loadProfile_shows s a b :
  st_storage s !! "userProfile" = Some (to_string (json_stringify (registered_profile a b))) ->
  let s' := exec (loadProfile pg) s in
  st_profile s' = registered_profile a b /\ st_name_view s' = Some a /\
  st_email_view s' = Some ("Email: " +:+ b).
Proof.
  intros Hs. pose proof (registered_profile_parse a b) as Hp.
  set (t := to_string _) in Hs, Hp. clearbody t.
  unfold loadProfile, getItem, updateProfileUI. rewrite Hcard, Hstrong, Hemail.
  st_simpl. rewrite Hs. simpl. rewrite Hp. simpl.
  by repeat split.
Qed.

End Profile.

(** ** Registering, then the profile page *)

(** A complete registration stores the profile under ["userProfile"]
    and sets the location to the profile page. *)
Lemma submitRegister_stores pg u e p s :
  pg_registerInputs pg = true ->
  trim u <> EmptyString -> trim e <> EmptyString -> trim p <> EmptyString ->
  let s' := exec (submitRegister pg u e p) s in
  st_location s' = Some "profile.html" /\
  st_storage s' = <["userProfile" := to_string (json_stringify (registered_profile (trim u) (trim e)))]>
                    (st_storage s).
Proof.
  intros Hin Hu He Hp. unfold submitRegister, need, setItem. rewrite Hin. st_simpl.
  by rewrite !bool_decide_true.
Qed.

Section Register.
Context (w : site).

(** C27: a registration is shown by the next page.  On a page with the
    register form, a complete registration, then the navigation to
    [profile.html], then that page's [DOMContentLoaded], is a run of the
    session; when the profile page has the list markup and the profile
    card, and the saved list is readable, its card shows the trimmed
    user name and ["Email: "] followed by the trimmed e-mail. *)
Theorem registration_shown url s u e p :
  pg_registerForm (w url) = true -> pg_registerInputs (w url) = true -> st_loaded s = true ->
  trim u <> EmptyString -> trim e <> EmptyString -> trim p <> EmptyString ->
  list_page (w "profile.html") -> pg_profileCard (w "profile.html") = true ->
  pg_strong (w "profile.html") = true -> pg_emailTag (w "profile.html") = true ->
  storage_plain (st_storage s) ->
  exists s2, star (sstep w) (mkSession url s) (mkSession "profile.html" s2) /\
    st_profile s2 = registered_profile (trim u) (trim e) /\
    st_name_view s2 = Some (trim u) /\ st_email_view s2 = Some ("Email: " +:+ trim e).
Proof.
  intros Hform Hin Hl Hu He Hp Hpg Hcard Hstrong Hemail Hst.
  set (s1 := exec (dispatch (w url) (EvSubmitRegister u e p)) s).
  assert (Hs1 : s1 = exec (submitRegister (w url) u e p) s) by (subst s1; simpl; by rewrite Hform).
  destruct (submitRegister_stores (w url) u e p s Hin Hu He Hp) as [Hloc Hsto].
  rewrite <- Hs1 in Hloc, Hsto.
  exists (exec (dispatch (w "profile.html") EvLoaded) (fresh_state (st_storage s1))). split.
  { eapply star_step; [apply sstep_page, (step_user _ s (EvSubmitRegister u e p)); done|].
    eapply star_step; [apply sstep_nav; unfold navigate; cbn [se_state]; fold s1; by rewrite Hloc|].
    eapply star_step; [apply sstep_page, step_load; reflexivity|]. apply star_refl. }
  rewrite dispatch_loaded_exec.
  set (s0 := upd_loaded (fun _ => true) (fresh_state (st_storage s1))).
  assert (Hst0 : st_storage s0 = st_storage s1) by reflexivity.
  assert (Hplain : storage_plain (st_storage s0))
    by (rewrite Hst0, Hsto; by apply storage_plain_insert_ne).
  pose proof (loadItems_ok _ Hpg s0 Hplain) as Hok.
  pose proof (loadItems_storage (w "profile.html") (st_storage s1) s0 Hst0) as Hsame.
  destruct (loadItems _ s0) as [r s'] eqn:E. cbn in Hok, Hsame. subst r.
  apply loadProfile_shows; [done..|]. rewrite Hsame, Hsto. apply lookup_insert_eq.
Qed.

End Register.

