(* ===== verification/Tabs.v ===== *)
(** * Several tabs over one [localStorage]

    Every tab of the site runs its own copy of scripts.js, with its own
    module state ([items], the counters, the DOM), while
    [localStorage] is shared by all tabs of the origin: a write by one
    tab is read by the next [getItem] of any other.  The script keeps
    no [storage] listener and reads the saved list only once, in its
    [DOMContentLoaded] listener (lines 26-34); afterwards each tab
    writes its own [items] over whatever is stored ([saveItems], lines
    167-169).

    A [browser] is the list of open tabs and the shared store; a step
    opens a tab (a fresh page over the store) or delivers one event to
    one tab, which runs its listener against the current store
    ([bstep]).  Interleavings of the tabs' events are the runs of
    [bstep].  The theorems show that the store always holds the items
    of one tab (the last one that wrote, or the list saved before the
    tabs were opened) and that the items of the other tabs are lost:
    the last writer wins.  For one page alone, the listeners'
    [saves_or_keeps] facts give the persistence invariant
    [reachable_saved_list]: once loaded, the store holds the page's
    [items]. *)

From S2P Require Import Prelude JsString JsValue Json JsonRoundtrip Dom ListController Persistence Profile App Shape.

(** The open tabs, each with its own state, and the shared
    [localStorage]. *)
Record browser : Type := Browser { br_tabs : list St; br_store : gmap string string }.

(** A tab's state as its listeners see it: with the current store. *)
Definition with_store (m : gmap string string) (s : St) : St := upd_storage (fun _ => m) s.

(** The browser before any tab is opened. *)
Definition closed_browser (m : gmap string string) : browser := Browser [] m.

(** A new tab: the script starts over the current store. *)
Definition open_tab (b : browser) : browser :=
  Browser (br_tabs b ++ [fresh_state (br_store b)]) (br_store b).

(** Tab [i] after it went to state [s']: the store is what [s'] left. *)
Definition tab_update (b : browser) (i : nat) (s' : St) : browser :=
  Browser (<[i := s']> (br_tabs b)) (st_storage s').

Section Browser.
Context (pg : page).

(** One step of the browser: a tab is opened, or one tab takes one step
    of its own event loop against the shared store. *)
Inductive bstep : browser -> browser -> Prop :=
| bstep_open b : bstep b (open_tab b)
| bstep_tab b i s s' :
    br_tabs b !! i = Some s -> step pg (with_store (br_store b) s) s' ->
    bstep b (tab_update b i s').

(** What happens in a browser: a tab is opened, or an event reaches a tab. *)
Inductive bevent : Type := BOpen | BTab (i : nat) (ev : event).

(** The browser after an event, as the tabs' listeners compute it. *)
Definition bexec (b : browser) (e : bevent) : browser :=
  match e with
  | BOpen => open_tab b
  | BTab i ev =>
      match br_tabs b !! i with
      | Some s => tab_update b i (exec (dispatch pg ev) (with_store (br_store b) s))
      | None => b
      end
  end.

Definition bdeliverable (b : browser) (e : bevent) : bool :=
  match e with
  | BOpen => true
  | BTab i ev =>
      match br_tabs b !! i with
      | Some s => deliverable false (with_store (br_store b) s) ev
      | None => false
      end
  end.

Fixpoint brun (b : browser) (es : list bevent) : browser :=
  match es with [] => b | e :: es' => brun (bexec b e) es' end.

Fixpoint valid_brun (b : browser) (es : list bevent) : bool :=
  match es with [] => true | e :: es' => bdeliverable b e && valid_brun (bexec b e) es' end.

Lemma star_brun b es : valid_brun b es = true -> star bstep b (brun b es).
Proof.
  revert b. induction es as [|e es IH]; intros b Hv; simpl in *; [constructor|].
  apply andb_prop in Hv as [Hd Hv]. eapply star_step; [|by apply IH].
  destruct e as [|i ev]; simpl in *; [constructor|].
  destruct (br_tabs b !! i) as [s|] eqn:E; [|done].
  eapply bstep_tab; [exact E|]. by apply deliverable_step.
Qed.

End Browser.

(** A state seen with its own store is itself. *)
Lemma with_store_own s : with_store (st_storage s) s = s.
Proof. by destruct s. Qed.

(** ** One tab is the page *)

Section OneTab.
Context (pg : page).

(** with one tab, the browser model is the page model of [App]:
    every run of the page's event loop, started with the store as its
    [localStorage], is a run of the browser in which that tab takes the
    same steps and the store follows the page's [localStorage]. *)
Lemma single_tab_refines s s' :
  star (step pg) s s' ->
  star (bstep pg) (Browser [s] (st_storage s)) (Browser [s'] (st_storage s')).
Proof.
  induction 1 as [s|s s1 s2 Hs _ IH]; [constructor|].
  eapply star_step; [|exact IH].
  apply (bstep_tab pg (Browser [s] (st_storage s)) 0 s s1); [done|]. cbn [br_store].
  by rewrite with_store_own.
Qed.

End OneTab.

(** ** Each listener saves its own items, or leaves the saved list *)

(** A listener either leaves [items] and the saved list as they were, or
    ends by saving its own [items]. *)
Definition saves_or_keeps (s s' : St) : Prop :=
  (st_items s' = st_items s /\ st_storage s' !! "shoppingList" = st_storage s !! "shoppingList") \/
  st_storage s' !! "shoppingList" = Some (items_json (st_items s')).

Ltac saves_or_keeps_tac :=
  unfold saves_or_keeps;
  first [ left; split; [reflexivity|]; st_fields;
          rewrite ?lookup_insert_ne by done; reflexivity
        | right; cbn [upd_storage st_storage]; rewrite lookup_insert_eq; reflexivity ].

Section UserEvents.
Context (pg : page) (Hpg : list_page pg).

Lemma submitItem_saves s : saves_or_keeps s (exec (submitItem pg) s).
Proof.
  run_on_list_page Hpg. case_bool_decide; [saves_or_keeps_tac|].
  destruct (st_showingDemo s); simpl; saves_or_keeps_tac.
Qed.

Lemma clickList_saves s t :
  target_ok s (EvClickList t) -> saves_or_keeps s (exec (clickList pg t) s).
Proof.
  intros Ht. destruct t as [|i|i|i]; [unfold clickList; st_simpl; saves_or_keeps_tac|..];
    simpl in Ht; apply lookup_lt_is_Some_2 in Ht as [x Hx];
    unfold clickList; st_simpl; rewrite Hx; (destruct (li_demo x); [st_simpl; saves_or_keeps_tac|]);
    run_on_list_page Hpg; rewrite Hx; simpl; st_run; saves_or_keeps_tac.
Qed.

Lemma user_event_saves s ev :
  is_user_event ev = true -> target_ok s ev -> saves_or_keeps s (exec (dispatch pg ev) s).
Proof.
  intros Hu Ht. destruct ev as [|v| |t|t|k|u e p]; try done; simpl.
  - destruct (pg_itemInput pg); saves_or_keeps_tac.
  - destruct (pg_itemForm pg); [apply submitItem_saves|saves_or_keeps_tac].
  - destruct (pg_itemList pg); [by apply clickList_saves|saves_or_keeps_tac].
  - destruct (pg_filters pg), t; saves_or_keeps_tac.
  - unfold keyDown, need. case_bool_decide; [destruct (pg_itemInput pg)|]; st_simpl; saves_or_keeps_tac.
  - destruct (pg_registerForm pg); [|saves_or_keeps_tac].
    unfold submitRegister, need, setItem. destruct (pg_registerInputs pg); st_simpl; [|saves_or_keeps_tac].
    destruct (_ && _); st_simpl; saves_or_keeps_tac.
Qed.

Lemma showDemo_items l :
  st_preserves (fun s => st_items s = l) (showDemoItems pg ;; st_modify (upd_showingDemo (fun _ => true))).
Proof. preserves_tac. Qed.

(** [loadItems] on a store that holds the JSON of the plain items [l]
    (or nothing, and then [l] is empty) returns normally and appends
    [l] to [items]. *)
Lemma loadItems_items s l :
  Forall (fun it => plain_item it = true) l ->
  st_storage s !! "shoppingList" = Some (items_json l) \/
    (st_storage s !! "shoppingList" = None /\ l = []) ->
  (loadItems pg s).1 = Ok tt /\ st_items (exec (loadItems pg) s) = st_items s ++ l.
Proof.
  intros Hp Hs. destruct l as [|it l].
  - assert (E : loadItems pg s = (showDemoItems pg ;; st_modify (upd_showingDemo (fun _ => true))) s).
    { unfold loadItems, getItem, st_bind at 1 2 3, st_get, st_ret, st_lift. simpl.
      by destruct Hs as [-> | [-> _]]. }
    unfold exec. rewrite E, app_nil_r. split; [apply (showDemo_ok pg Hpg)|by apply showDemo_items].
  - destruct Hs as [Hs | [_ ?]]; [|done].
    destruct (loadItems_plain_effect pg Hpg (it :: l) _ s Hs (items_json_parse _ Hp))
      as (Hok & Hi & _); [done|done|]. by split.
Qed.

(** The load of a tab that has no items yet takes the stored list as its
    items and writes nothing. *)
Lemma load_saves s l :
  st_items s = [] -> Forall (fun it => plain_item it = true) l ->
  st_storage s !! "shoppingList" = Some (items_json l) \/
    (st_storage s !! "shoppingList" = None /\ l = []) ->
  saves_or_keeps s (exec (dispatch pg EvLoaded) s) /\
  st_storage (exec (dispatch pg EvLoaded) s) = st_storage s.
Proof.
  intros Hi Hp Hs. set (s0 := upd_loaded (fun _ => true) s).
  assert (Hx : exec (dispatch pg EvLoaded) s = exec (domContentLoaded pg) s0) by reflexivity.
  pose proof (domContentLoaded_fields pg (st_input s) true (st_storage s) s0
                (conj eq_refl (conj eq_refl eq_refl))) as Hf.
  change (snd (domContentLoaded pg s0)) with (exec (domContentLoaded pg) s0) in Hf.
  destruct Hf as (_ & _ & Hsto). rewrite Hx, Hsto. split; [|done].
  destruct (loadItems_items s0 l Hp Hs) as [Hok Hl].
  assert (E : exec (domContentLoaded pg) s0 = exec (loadProfile pg) (exec (loadItems pg) s0)).
  { unfold domContentLoaded, exec, st_bind. destruct (loadItems pg s0) as [r s1].
    cbn in Hok |- *. by subst r. }
  pose proof (loadProfile_frame pg (exec (loadItems pg) s0)) as (_ & Hi' & _).
  rewrite E in Hsto |- *. unfold saves_or_keeps. rewrite Hsto, Hi', Hl. cbn [st_items s0 upd_loaded].
  rewrite Hi. destruct Hs as [Hs | [Hs ->]]; [by right|by left].
Qed.

(** A submission outside demo mode appends the new object to [items]
    and saves [items] over the store. *)
Lemma submitItem_items s :
  st_showingDemo s = false -> trim (st_input s) <> EmptyString ->
  st_items (exec (submitItem pg) s) = st_items s ++ [mkItem (VStr (trim (st_input s))) (VBool false)] /\
  st_storage (exec (submitItem pg) s) =
    <["shoppingList" := items_json (st_items s ++ [mkItem (VStr (trim (st_input s))) (VBool false)])]>
      (st_storage s).
Proof. intros Hd Hv. run_on_list_page Hpg. case_bool_decide; [done|]. by rewrite Hd. Qed.

(** A page without items yet, over a store that holds the JSON of the
    plain items [l] (or nothing, and then [l] is empty), loads exactly
    [l]. *)
Lemma load_items_from s l :
  st_items s = [] -> Forall (fun it => plain_item it = true) l ->
  st_storage s !! "shoppingList" = Some (items_json l) \/
    (st_storage s !! "shoppingList" = None /\ l = []) ->
  st_items (exec (dispatch pg EvLoaded) s) = l.
Proof.
  intros Hi Hp Hs. destruct (loadItems_items (upd_loaded (fun _ => true) s) l Hp Hs) as [Hok Hl].
  rewrite dispatch_loaded_exec. unfold exec in Hl.
  destruct (loadItems pg _) as [r s1]. cbn in Hok, Hl. subst r.
  destruct (loadProfile_frame pg s1) as (_ & Hi' & _). by rewrite Hi', Hl, Hi.
Qed.

End UserEvents.

(** ** The store holds the items of one tab *)

(** The saved list is the JSON of [l0], the list saved before the tabs
    were opened, or of the [items] of an open tab, or there is none. *)
Definition store_holds (l0 : list item) (b : browser) : Prop :=
  br_store b !! "shoppingList" = None \/
  exists l, br_store b !! "shoppingList" = Some (items_json l) /\
    (l = l0 \/ exists s, s ∈ br_tabs b /\ st_items s = l).

(** A tab has plain items, and none before its load. *)
Definition tab_ok (s : St) : Prop := items_plain s /\ (st_loaded s = false -> st_items s = []).

Definition sync_inv (l0 : list item) (b : browser) : Prop :=
  Forall (fun it => plain_item it = true) l0 /\ Forall tab_ok (br_tabs b) /\ store_holds l0 b.

(** Under the invariant the store holds the JSON of plain items, or
    nothing. *)
Lemma sync_store l0 b :
  sync_inv l0 b ->
  exists l, Forall (fun it => plain_item it = true) l /\
    (br_store b !! "shoppingList" = Some (items_json l) \/
     (br_store b !! "shoppingList" = None /\ l = [])).
Proof.
  intros (Hl0 & Htabs & [Hn | (l & Hs & [-> | (t & Ht & <-)])]).
  - exists []. split; [constructor|by right].
  - exists l0. by split; [|left].
  - exists (st_items t). split; [|by left].
    rewrite Forall_forall in Htabs. apply (Htabs t Ht).
Qed.

Lemma storage_plain_json m l :
  Forall (fun it => plain_item it = true) l ->
  m !! "shoppingList" = Some (items_json l) \/ (m !! "shoppingList" = None /\ l = []) ->
  storage_plain m.
Proof.
  intros Hp Hm t Ht. destruct Hm as [Hm | [Hm _]]; rewrite Hm in Ht; [|done].
  injection Ht as <-. exists l. split; [exact Hp|]. by apply items_json_parse.
Qed.

(** A tab other than [i] is still open after tab [i] moved. *)
Lemma elem_of_tab_update {A} (l : list A) i x y z :
  l !! i = Some x -> z ∈ l -> z = x \/ z ∈ <[i := y]> l.
Proof.
  intros Hi (j & Hj)%list_elem_of_lookup. destruct (decide (i = j)) as [<-|Hne].
  - left. congruence.
  - right. apply (list_elem_of_lookup_2 _ j). by rewrite list_lookup_insert_ne.
Qed.

Section Sync.
Context (pg : page) (Hpg : list_page pg).

(** A step of one tab is its listener's run, after which it is loaded,
    has plain items, and either kept or saved the list. *)
Lemma tab_step_facts m s s' :
  tab_ok s -> storage_plain m -> step pg (with_store m s) s' ->
  (forall l, Forall (fun it => plain_item it = true) l ->
     m !! "shoppingList" = Some (items_json l) \/ (m !! "shoppingList" = None /\ l = []) ->
     saves_or_keeps (with_store m s) s') /\
  tab_ok s'.
Proof.
  intros [Hi Hpre] Hm Hstep.
  assert (Hsh : shape_inv s') by (inversion Hstep; subst; by apply dispatch_shape).
  assert (Hl : st_loaded s' = true).
  { inversion Hstep as [s0 Hl0|s0 ev Hl0 Hu _]; subst; [apply loaded_after_load|].
    exact (user_event_loaded pg ev true Hu _ Hl0). }
  split; [|split; [apply Hsh|by rewrite Hl]].
  intros l Hp Hs. inversion Hstep as [s0 Hl0|s0 ev Hl0 Hu Ht]; subst.
  - apply (proj1 (load_saves pg Hpg (with_store m s) l (Hpre Hl0) Hp Hs)).
  - by apply user_event_saves.
Qed.

Lemma bstep_sync l0 b b' : bstep pg b b' -> sync_inv l0 b -> sync_inv l0 b'.
Proof.
  intros Hb Hinv. pose proof Hinv as (Hl0 & Htabs & Hst).
  destruct Hb as [b|b i s s' Hi Hstep].
  - split; [done|]. split.
    + apply Forall_app. split; [done|]. repeat constructor.
    + destruct Hst as [Hn | (l & Hs & [-> | (t & Ht & <-)])]; [by left|by right; eauto|].
      right. exists (st_items t). split; [done|]. right. exists t. split; [|done].
      simpl. apply elem_of_app. by left.
  - destruct (sync_store l0 b Hinv) as (l & Hp & Hs).
    pose proof (Forall_lookup_1 _ _ _ _ Htabs Hi) as Hok.
    destruct (tab_step_facts (br_store b) s s' Hok (storage_plain_json _ l Hp Hs) Hstep)
      as [Hsave Hok'].
    assert (Hlen : i < length (br_tabs b)) by (apply lookup_lt_is_Some_1; by eexists).
    split; [done|]. split; [by apply Forall_insert|].
    unfold store_holds, tab_update. cbn [br_store br_tabs].
    destruct (Hsave l Hp Hs) as [[Hitems Hsto] | Hsto]; cbn [with_store upd_storage st_storage st_items] in *.
    + rewrite Hsto.
      destruct Hst as [Hn | (l' & Hs' & [-> | (t & Ht & <-)])]; [by left|by right; eauto|].
      right. exists (st_items t). split; [done|]. right.
      destruct (elem_of_tab_update _ i s s' t Hi Ht) as [-> | Ht']; [|by exists t].
      exists s'. split; [by apply list_elem_of_insert|done].
    + right. exists (st_items s'). split; [done|]. right. exists s'.
      split; [by apply list_elem_of_insert|done].
Qed.

(** C31: whatever the interleaving of the tabs' events, the store holds
    the items of a single list: the JSON of the list saved before the
    tabs were opened, or exactly the [items] of one open tab, or
    nothing.  No listener merges what other tabs saved: the last tab
    that wrote decides the stored list. *)
Theorem tabs_store_sync l0 m b :
  Forall (fun it => plain_item it = true) l0 ->
  m !! "shoppingList" = None \/ m !! "shoppingList" = Some (items_json l0) ->
  star (bstep pg) (closed_browser m) b ->
  br_store b !! "shoppingList" = None \/
  exists l, br_store b !! "shoppingList" = Some (items_json l) /\
    (l = l0 \/ exists s, s ∈ br_tabs b /\ st_items s = l).
Proof.
  intros Hl0 Hm Hrun.
  assert (Hinv : sync_inv l0 b).
  { apply (star_invariant (bstep pg) (sync_inv l0)) with (closed_browser m); [|exact Hrun|].
    - intros a a' Ha Hab. by apply (bstep_sync l0 a a').
    - split; [done|]. split; [constructor|].
      destruct Hm as [Hm|Hm]; [by left|right]. exists l0. by split; [|left]. }
  apply Hinv.
Qed.

End Sync.

(** ** One page keeps its saved list in step with [items] *)

(** [m] holds the JSON of [l] under ["shoppingList"], or nothing and
    [l] is empty. *)
Definition saved_list (m : gmap string string) (l : list item) : Prop :=
  m !! "shoppingList" = Some (items_json l) \/ (m !! "shoppingList" = None /\ l = []).

(** Before the load: no items, and the store holds [l0]; after it: the
    store holds the page's [items]. *)
Definition page_saved (l0 : list item) (s : St) : Prop :=
  if st_loaded s then saved_list (st_storage s) (st_items s)
  else st_items s = [] /\ saved_list (st_storage s) l0.

Section Saved.
Context (pg : page) (Hpg : list_page pg) (l0 : list item)
  (Hl0 : Forall (fun it => plain_item it = true) l0).

Lemma page_saved_step s s' : step pg s s' -> page_saved l0 s -> page_saved l0 s'.
Proof.
  unfold page_saved. intros [s0 Hl|s0 ev Hl Hu Ht]; rewrite Hl.
  - intros [Hi Hs]. rewrite loaded_after_load.
    destruct (load_saves pg Hpg s0 l0 Hi Hl0 Hs) as [_ Hsto].
    unfold saved_list. rewrite Hsto, (load_items_from pg Hpg s0 l0 Hi Hl0 Hs). exact Hs.
  - intros Hs. pose proof (user_event_loaded pg ev true Hu s0 Hl) as Hl'.
    change (snd (dispatch pg ev s0)) with (exec (dispatch pg ev) s0) in Hl'. rewrite Hl'.
    destruct (user_event_saves pg Hpg s0 ev Hu Ht) as [[Hi Hsl]|Hsl]; [|by left].
    unfold saved_list. by rewrite Hi, Hsl.
Qed.

End Saved.

(** C36: after the load, a page's [localStorage] always holds its
    [items].  From a store that holds the JSON of a list of plain items
    (or nothing), in every state the page reaches once loaded, the
    saved list is exactly the JSON of [items] (or nothing while [items]
    is empty): the load reads the list without writing, and every
    listener that changes [items] ends with [saveItems()].  So a
    reload of any such state, a fresh page over its [localStorage],
    loads exactly its [items]. *)
Theorem reachable_saved_list pg m l0 s :
  list_page pg -> Forall (fun it => plain_item it = true) l0 -> saved_list m l0 ->
  reachable pg m s -> st_loaded s = true ->
  saved_list (st_storage s) (st_items s) /\
  st_items (exec (dispatch pg EvLoaded) (fresh_state (st_storage s))) = st_items s.
Proof.
  intros Hpg Hl0 Hm Hr Hl.
  assert (Hinv : page_saved l0 s).
  { eapply (star_invariant (step pg)); [|exact Hr|by split].
    intros a b Ha Hab. by apply (page_saved_step pg Hpg l0 Hl0 a b). }
  unfold page_saved in Hinv. rewrite Hl in Hinv. split; [exact Hinv|].
  destruct (reachable_shape pg m s (storage_plain_json m l0 Hl0 Hm) Hr) as [Hp _].
  by apply (load_items_from pg Hpg).
Qed.

(** C30: the last writer wins.  A tab whose [items] do not contain an
    item [it] that the store holds (another tab saved it after this tab
    loaded) submits a new item: its [saveItems] writes its own [items]
    over the store, so a tab opened afterwards loads exactly this tab's
    items and the new one, without [it]: [it] is lost although it was
    saved and although the other tab still shows it. *)
Theorem lost_update pg b j sj l it :
  list_page pg -> pg_itemForm pg = true ->
  br_tabs b !! j = Some sj -> st_showingDemo sj = false -> items_plain sj ->
  trim (st_input sj) <> EmptyString ->
  br_store b !! "shoppingList" = Some (items_json l) -> it ∈ l ->
  it ∉ st_items sj -> it_text it <> VStr (trim (st_input sj)) ->
  let n := length (br_tabs b) in
  let b' := bexec pg (bexec pg (bexec pg b (BTab j EvSubmitItem)) BOpen) (BTab n EvLoaded) in
  exists s, br_tabs b' !! n = Some s /\
    st_items s = st_items sj ++ [mkItem (VStr (trim (st_input sj))) (VBool false)] /\ it ∉ st_items s.
Proof.
  intros Hpg Hform Hj Hd Hp Hv _ _ Hit Htext. cbv zeta.
  set (s1 := with_store (br_store b) sj).
  destruct (submitItem_items pg Hpg s1 Hd Hv) as [Hi Hsto].
  set (l' := st_items sj ++ [mkItem (VStr (trim (st_input sj))) (VBool false)]).
  assert (Hp' : Forall (fun it => plain_item it = true) l') by (apply Forall_app; split; [exact Hp|by repeat constructor]).
  cbn [bexec]. rewrite Hj.
  replace (exec (dispatch pg EvSubmitItem) (with_store (br_store b) sj)) with (exec (submitItem pg) s1)
    by (cbn [dispatch]; by rewrite Hform).
  set (s2 := exec (submitItem pg) s1) in *.
  cbn [open_tab tab_update br_tabs br_store].
  rewrite lookup_app_r by (rewrite length_insert; lia).
  rewrite length_insert, Nat.sub_diag. simpl.
  rewrite list_lookup_insert_eq by (rewrite length_app, length_insert; simpl; lia).
  eexists. split; [reflexivity|].
  change (with_store (st_storage s2) (fresh_state (st_storage s2))) with (fresh_state (st_storage s2)).
  change (st_modify _ ;; domContentLoaded pg) with (dispatch pg EvLoaded).
  rewrite (load_items_from pg Hpg (fresh_state (st_storage s2)) l')
    by (done || (left; cbn [fresh_state st_storage]; rewrite Hsto; apply lookup_insert_eq)).
  split; [done|]. intros [Hin|Hin%list_elem_of_singleton]%elem_of_app; [done|].
  subst it. by apply Htext.
Qed.
