(* ===== verification/Early.v ===== *)
(** * User events before [DOMContentLoaded]

    scripts.js attaches its listeners at the top level, so a user can
    add, check and remove entries before the load listener runs
    ([App.early_step]).  Before the load the entries and [items]
    correspond text by text ([texts_match]) as long as no two entries
    have the same text, and every change of [items] is saved, so the
    load finds the early entries in [localStorage] and takes its loop
    branch, never the demo one.  This file shows:

    - [early_counters]: with distinct texts until the load, the counter
      invariant of [App] holds in every state of the early event loop;
    - [early_load_duplicates]: the load then renders every early entry
      a second time, and [items] holds every early object twice;
    - [load_over_unsaved_entries]: when real entries are shown before
      the load while the saved list is absent or empty (what removing
      one of two same-text entries leaves), the load enters demo mode
      over them and the next submission breaks the counters. *)

From S2P Require Import Prelude JsString JsValue Json JsonRoundtrip Dom ListController Persistence Profile App Shape Tabs.

(** The texts of the entries. *)
Definition entry_texts (s : St) : list string := map li_text (st_list s).

(** The early event loop of a page on which, until [DOMContentLoaded],
    no two entries have the same text. *)
Inductive early_nd_step (pg : page) : St -> St -> Prop :=
| early_nd s s' :
    early_step pg s s' -> (st_loaded s' = false -> NoDup (entry_texts s')) -> early_nd_step pg s s'.

(** The executable form of a run of [early_nd_step]: every event
    deliverable, and distinct texts until the load. *)
Fixpoint nd_run (pg : page) (s : St) (evs : list event) : bool :=
  match evs with
  | [] => true
  | ev :: evs' =>
      let s' := exec (dispatch pg ev) s in
      deliverable true s ev && (st_loaded s' || bool_decide (NoDup (entry_texts s'))) &&
      nd_run pg s' evs'
  end.

(** The entries and [items] have the same texts, in the same order. *)
Definition texts_match (s : St) : Prop :=
  map (fun x => VStr (li_text x)) (st_list s) = map it_text (st_items s).

(** Before the load: not in demo mode, entries and [items] in
    correspondence with distinct texts, and [items] saved as soon as it
    is not empty. *)
Definition preload_ok (s : St) : Prop :=
  st_showingDemo s = false /\ texts_match s /\ NoDup (entry_texts s) /\
  (st_items s <> [] -> st_storage s !! "shoppingList" = Some (items_json (st_items s))).

Definition early_inv (pg : page) (s : St) : Prop :=
  shape_inv s /\ list_inv pg s /\ (st_loaded s = false -> preload_ok s).

(** ** The updates of the list keep the texts in correspondence *)

Lemma filter_absent_texts l items t :
  map (fun x => VStr (li_text x)) l = map it_text items -> t ∉ map li_text l ->
  map (fun x => VStr (li_text x)) l = map it_text (remove_text t items).
Proof.
  unfold remove_text. revert items.
  induction l as [|y l IH]; intros [|it items] Hm Ht; try done.
  simpl in Hm. injection Hm as Hy Hm. simpl in Ht. apply not_elem_of_cons in Ht as [Hyt Ht].
  simpl. rewrite <- Hy. simpl. rewrite bool_decide_false by done. simpl.
  f_equal; [done|]. by apply IH.
Qed.

(** Removing by text, on distinct texts, removes the object of the
    removed entry and no other. *)
Lemma remove_texts_match l items i x :
  map (fun x => VStr (li_text x)) l = map it_text items -> NoDup (map li_text l) ->
  l !! i = Some x ->
  map (fun x => VStr (li_text x)) (delete i l) = map it_text (remove_text (li_text x) items).
Proof.
  revert items i. induction l as [|y l IH]; intros [|it items] i Hm Hnd Hi; try done.
  simpl in Hm. injection Hm as Hy Hm. simpl in Hnd. apply NoDup_cons in Hnd as [Hn Hnd].
  destruct i as [|i]; simpl in Hi.
  - injection Hi as ->. unfold remove_text at 1. simpl. rewrite <- Hy. simpl.
    rewrite bool_decide_true by done. simpl. by apply filter_absent_texts.
  - unfold remove_text at 1. simpl. rewrite <- Hy. simpl.
    rewrite bool_decide_false; [simpl; f_equal; [done|by apply IH]|].
    intros Heq. apply Hn. rewrite Heq. apply (list_elem_of_lookup_2 _ i).
    rewrite list_lookup_fmap, Hi. done.
Qed.

Lemma set_got_first_texts t b items :
  map it_text (set_got_first t b items) = map it_text items.
Proof.
  induction items as [|it items IH]; simpl; [done|].
  by destruct (strict_eq_str _ _); simpl; rewrite ?IH.
Qed.

Lemma insert_texts l i x y :
  l !! i = Some x -> li_text y = li_text x ->
  map (fun x => VStr (li_text x)) (<[i := y]> l) = map (fun x => VStr (li_text x)) l.
Proof.
  intros Hi Hy. rewrite !map_fmap, list_fmap_insert, Hy.
  apply list_insert_id. by rewrite list_lookup_fmap, Hi.
Qed.

Lemma filter_texts f l :
  map (fun x => VStr (li_text x)) (map (apply_filter f) l) = map (fun x => VStr (li_text x)) l.
Proof.
  rewrite map_map. apply map_ext. intros x. unfold apply_filter, set_display.
  destruct (li_demo x); [done|]. by destruct (filter_display f x).
Qed.

Section Early.
Context (pg : page) (Hpg : list_page pg).

Lemma user_event_texts s ev :
  is_user_event ev = true -> target_ok s ev -> st_showingDemo s = false ->
  texts_match s -> NoDup (entry_texts s) -> texts_match (exec (dispatch pg ev) s).
Proof.
  unfold texts_match, entry_texts. intros Hu Ht Hd Hm Hnd.
  destruct ev as [|v| |t|t|k|u e p]; try done; simpl.
  - destruct (pg_itemInput pg); st_simpl; exact Hm.
  - destruct (pg_itemForm pg); [|st_simpl; exact Hm].
    run_on_list_page Hpg. case_bool_decide; [exact Hm|]. rewrite Hd. simpl.
    by rewrite !map_app, Hm.
  - destruct (pg_itemList pg); [|st_simpl; exact Hm].
    destruct t as [|i|i|i]; [unfold clickList; st_simpl; exact Hm|..];
    simpl in Ht; apply lookup_lt_is_Some_2 in Ht as [x Hx];
    unfold clickList; st_simpl; rewrite Hx; (destruct (li_demo x); [st_simpl; exact Hm|]);
    run_on_list_page Hpg; rewrite Hx; simpl; st_run;
    first [ rewrite set_got_first_texts, (insert_texts _ _ x) by done; exact Hm
          | by apply remove_texts_match ].
  - destruct (pg_filters pg), t; st_simpl; [|exact Hm..]. by rewrite filter_texts.
  - unfold keyDown, need. case_bool_decide; [destruct (pg_itemInput pg)|]; st_simpl; exact Hm.
  - destruct (pg_registerForm pg); [|st_simpl; exact Hm].
    unfold submitRegister, need, setItem. destruct (pg_registerInputs pg); st_simpl; [|exact Hm].
    destruct (_ && _); st_simpl; exact Hm.
Qed.
(** Before the load, a user event keeps [preload_ok] when the texts it
    leaves are distinct. *)
Lemma user_event_preload s ev :
  is_user_event ev = true -> target_ok s ev -> preload_ok s ->
  NoDup (entry_texts (exec (dispatch pg ev) s)) -> preload_ok (exec (dispatch pg ev) s).
Proof.
  intros Hu Ht (Hd & Hm & Hnd & Hsave) Hnd'. split_and!.
  - exact (user_event_not_demo pg ev Hu s Hd).
  - by apply user_event_texts.
  - exact Hnd'.
  - destruct (user_event_saves pg Hpg s ev Hu Ht) as [[Hi Hsl]|Hsl]; [|done].
    rewrite Hi, Hsl. exact Hsave.
Qed.

(** The load after early events keeps the list invariant: with no items
    the list is empty, as on a fresh page; with items, the saved list is
    theirs and the load takes the loop branch. *)
Lemma load_early s :
  st_loaded s = false -> shape_inv s -> list_inv pg s -> preload_ok s ->
  list_inv pg (exec (dispatch pg EvLoaded) s).
Proof.
  intros Hl [Hplain _] Hinv (Hd & Hm & _ & Hsave).
  destruct (st_items s) as [|it items] eqn:Ei.
  - assert (Hnil : st_list s = []) by (unfold texts_match in Hm; rewrite Ei in Hm; exact (map_eq_nil _ _ Hm)).
    by apply (step_inv pg s _ (step_load pg s Hl)).
  - set (s0 := upd_loaded (fun _ => true) s).
    assert (Hinv0 : list_inv pg s0) by (apply (list_inv_frame pg s); [by repeat split|done]).
    unfold items_plain in Hplain. rewrite Ei in Hplain.
    pose proof (loadItems_inv_stored pg (it :: items) _ s0 (Hsave ltac:(done))
                  (items_json_parse _ Hplain) ltac:(done) Hd Hinv0) as H.
    rewrite dispatch_loaded_exec. unfold exec in H |- *. fold s0.
    destruct (loadItems pg s0) as [[]] eqn:E; [|done].
    eapply list_inv_frame; [apply loadProfile_frame|done].
Qed.

(** With the texts in correspondence, the texts [createItem] gives the
    objects of [items] are the texts of the entries. *)
Lemma texts_items_match s :
  texts_match s -> map (fun it => text_content (it_text it)) (st_items s) = entry_texts s.
Proof.
  unfold texts_match, entry_texts. intros Hm.
  rewrite <- (map_map it_text text_content), <- Hm, map_map. by apply map_ext.
Qed.

(** The load on a saved list of plain items that is not empty appends
    them to [items] and one entry each to the list, and writes nothing. *)
Lemma load_stored_effect s items :
  st_storage s !! "shoppingList" = Some (items_json items) -> items <> [] ->
  Forall (fun it => plain_item it = true) items ->
  let s' := exec (dispatch pg EvLoaded) s in
  st_items s' = st_items s ++ items /\ st_list s' = st_list s ++ map entry_of items /\
  st_storage s' = st_storage s.
Proof.
  intros Hs Hne Hp. cbv zeta. set (s0 := upd_loaded (fun _ => true) s).
  pose proof (domContentLoaded_fields pg (st_input s) true (st_storage s) s0
                (conj eq_refl (conj eq_refl eq_refl))) as (_ & _ & Hsto).
  change (snd (domContentLoaded pg s0)) with (exec (dispatch pg EvLoaded) s) in Hsto.
  destruct (loadItems_plain_effect pg Hpg items _ s0 Hs (items_json_parse _ Hp) Hne Hp)
    as (Hok & Hi & Hl & _).
  rewrite dispatch_loaded_exec in Hsto |- *. fold s0 in Hsto |- *. unfold exec in Hi, Hl.
  destruct (loadItems pg s0) as [r s1]. cbn in Hok, Hi, Hl. subst r.
  destruct (loadProfile_frame pg s1) as (Hl' & Hi' & _). split_and!; congruence.
Qed.

(** With no saved list, or an empty one, [loadItems] is the demo
    branch. *)
Lemma loadItems_empty s :
  st_storage s !! "shoppingList" = None \/ st_storage s !! "shoppingList" = Some (items_json []) ->
  loadItems pg s = (showDemoItems pg ;; st_modify (upd_showingDemo (fun _ => true))) s.
Proof.
  intros Hs. unfold loadItems, getItem, st_bind at 1 2 3, st_get, st_ret, st_lift. simpl.
  by destruct Hs as [-> | ->].
Qed.

(** The demo branch appends the two demo entries and leaves the
    counters. *)
Lemma showDemo_effect s :
  let s' := exec (showDemoItems pg ;; st_modify (upd_showingDemo (fun _ => true))) s in
  (showDemoItems pg ;; st_modify (upd_showingDemo (fun _ => true))) s = (Ok tt, s') /\
  st_showingDemo s' = true /\ st_total s' = st_total s /\
  st_list s' = st_list s ++ [mkLi true false "Milk (example)" None; mkLi true true "Eggs (example)" None].
Proof.
  pose proof Hpg as (_ & Hil & _). unfold showDemoItems, need, exec. rewrite Hil.
  unfold st_iter, st_bind, st_modify, st_ret. cbn. by rewrite <- app_assoc.
Qed.

(** With no saved list, or an empty one, the load takes the demo branch
    whatever entries the list already has: it appends the two demo
    entries, turns demo mode on and leaves the counters. *)
Lemma load_empty_demo s :
  st_storage s !! "shoppingList" = None \/ st_storage s !! "shoppingList" = Some (items_json []) ->
  let s' := exec (dispatch pg EvLoaded) s in
  st_showingDemo s' = true /\ st_total s' = st_total s /\
  st_list s' = st_list s ++ [mkLi true false "Milk (example)" None; mkLi true true "Eggs (example)" None].
Proof.
  intros Hs. cbv zeta. rewrite dispatch_loaded_exec.
  set (s0 := upd_loaded (fun _ => true) s).
  rewrite (loadItems_empty s0 Hs). destruct (showDemo_effect s0) as (-> & Hd & Ht & Hl).
  destruct (loadProfile_frame pg (exec (showDemoItems pg;; st_modify (upd_showingDemo (λ _ : bool, true))) s0))
    as (Hl' & _ & Ht' & _ & Hd' & _).
  by rewrite Hl', Ht', Hd', Hd, Ht, Hl.
Qed.

(** The invariant is kept by every step of the early event loop. *)
Lemma early_nd_inv s s' : early_nd_step pg s s' -> early_inv pg s -> early_inv pg s'.
Proof.
  intros [s0 s1 Hst Hnd] (Hsh & Hinv & Hpre). split_and!.
  - destruct Hst; by apply dispatch_shape.
  - destruct Hst as [s0 Hl|s0 ev Hu Ht]; [by apply load_early, Hpre|by apply user_event_inv].
  - intros Hl'. destruct Hst as [s0 Hl|s0 ev Hu Ht].
    + by rewrite loaded_after_load in Hl'.
    + pose proof (user_event_loaded pg ev (st_loaded s0) Hu s0 eq_refl) as Hl.
      change (snd (dispatch pg ev s0)) with (exec (dispatch pg ev) s0) in Hl.
      apply user_event_preload; [done|done|apply Hpre; congruence|auto].
Qed.

End Early.

Lemma star_nd_run pg s evs : nd_run pg s evs = true -> star (early_nd_step pg) s (run pg s evs).
Proof.
  revert s. induction evs as [|ev evs IH]; intros s Hv; simpl in *; [constructor|].
  apply andb_prop in Hv as [[Hd Hn]%andb_prop Hv].
  eapply star_step; [|by apply IH]. constructor; [by apply deliverable_early_step|].
  intros Hl. rewrite Hl in Hn. exact (bool_decide_eq_true_1 _ Hn).
Qed.

Lemma fresh_early_inv pg m : storage_plain m -> early_inv pg (fresh_state m).
Proof.
  intros Hm. split_and!; [split; [constructor|done]|exact (proj1 (fresh_inv pg m))|].
  intros _. split_and!; [done|done|constructor|by intros []].
Qed.

(** Every state of the early loop of a fresh page satisfies the
    invariant. *)
Lemma early_reachable_inv pg m s :
  list_page pg -> storage_plain m -> star (early_nd_step pg) (fresh_state m) s -> early_inv pg s.
Proof.
  intros Hpg Hm Hr. eapply (star_invariant (early_nd_step pg)); [|exact Hr|by apply fresh_early_inv].
  intros a b Ha Hab. by apply (early_nd_inv pg Hpg a b).
Qed.

(** C35: the counter invariant holds along the early event loop when
    no two entries share a text before [DOMContentLoaded].  User events
    may precede the load, as the top-level listeners of scripts.js
    allow; if the texts of the entries stay distinct until the load,
    then in every state [totalItems] counts the real entries and
    [gotItems] the checked ones.  With C33, which breaks the counters
    with two equal texts, this locates the failure in the removal by
    text of lines 118-119. *)
Theorem early_counters pg m s :
  list_page pg -> storage_plain m -> star (early_nd_step pg) (fresh_state m) s -> counters_ok s.
Proof.
  intros Hpg Hm Hr. by destruct (early_reachable_inv pg m s Hpg Hm Hr) as (_ & [Hc _] & _).
Qed.

(** C16: items added before [DOMContentLoaded] are shown twice.  Each
    early change of [items] is saved, so the load listener reads the
    early items back from [localStorage] and calls [createItem] for each
    of them on a list that already shows them: after the load every
    early entry appears twice, in the same order, and [items] holds every
    object twice, while the saved list holds each once. *)
Theorem early_load_duplicates pg m s :
  list_page pg -> storage_plain m -> star (early_nd_step pg) (fresh_state m) s ->
  st_loaded s = false -> st_items s <> [] ->
  let s' := exec (dispatch pg EvLoaded) s in
  entry_texts s' = entry_texts s ++ entry_texts s /\
  st_items s' = st_items s ++ st_items s /\
  st_storage s' !! "shoppingList" = Some (items_json (st_items s)).
Proof.
  intros Hpg Hm Hr Hl Hne. cbv zeta.
  destruct (early_reachable_inv pg m s Hpg Hm Hr) as ([Hp _] & _ & Hpre).
  destruct (Hpre Hl) as (_ & Hmatch & _ & Hsave).
  destruct (load_stored_effect pg Hpg s (st_items s) (Hsave Hne) Hne Hp) as (Hi & Hls & Hsto).
  split_and!; [|done|by rewrite Hsto, Hsave].
  unfold entry_texts at 1. rewrite Hls, map_app, map_map. f_equal.
  by rewrite <- (texts_items_match s Hmatch).
Qed.

(** C33: the counter invariant needs [items] to follow the entries
    before the load.  On a page that shows real entries before
    [DOMContentLoaded] while the saved list is absent or empty (what
    removing one of two same-text entries early leaves, C15), the load
    enters demo mode over the real entries; the next submission then
    clears the whole list with [innerHTML = ""] (line 77) without
    decrementing [totalItems]: the page shows one entry and counts all
    the earlier ones too. *)
Theorem load_over_unsaved_entries pg s v :
  list_page pg -> pg_itemForm pg = true -> st_loaded s = false ->
  list_inv pg s -> st_showingDemo s = false -> st_list s <> [] ->
  st_storage s !! "shoppingList" = None \/ st_storage s !! "shoppingList" = Some (items_json []) ->
  trim v <> EmptyString ->
  let s1 := exec (dispatch pg EvLoaded) s in
  let s' := run pg s1 [EvInput v; EvSubmitItem] in
  st_showingDemo s1 = true /\ count_by is_real (st_list s1) = count_by is_real (st_list s) /\
  st_total s' = (st_total s + 1)%Z /\ entry_texts s' = [trim v] /\ ~ counters_ok s'.
Proof.
  intros Hpg Hform Hl ([Htot _] & _ & Hdemo) Hd Hne Hs Hv. cbv zeta.
  destruct (load_empty_demo pg Hpg s Hs) as (Hd1 & Ht1 & Hl1).
  unfold demo_ok in Hdemo. rewrite Hd in Hdemo.
  assert (Hreal : count_by is_real (st_list s) <> 0).
  { destruct (st_list s) as [|x l]; [done|]. apply Forall_cons in Hdemo as [Hx _].
    unfold is_real. simpl. rewrite Hx. simpl. lia. }
  set (s1 := exec (dispatch pg EvLoaded) s) in *.
  split_and!; [done|by rewrite Hl1, count_by_app|..];
    cbn [run dispatch]; rewrite Hform; pose proof Hpg as (Hin & _);
    rewrite Hin; run_on_list_page Hpg; case_bool_decide; try done; rewrite Hd1; simpl.
  - rewrite Ht1. lia.
  - done.
  - intros [Hc _]. simpl in Hc. lia.
Qed.
