(* ===== verification/Refinement.v ===== *)
(** * The list page refines an abstract shopping list

    The contract of the list page, as its markup and the spec describe
    it, is a list of entries, each a text and a checked flag, that the
    user extends from the input field, checks, unchecks and removes.
    Module [AbstractList] states it as pure functions on [list entry];
    [astep] is the same contract event by event, with the input field.

    [represents pg s a] relates a page state of [Dom] to an abstract
    list: the list invariant holds, the page is out of demo mode, the
    [li] entries show exactly [a], the array [items] holds exactly [a],
    and [localStorage] holds the JSON text of [a].  The refinement
    theorem [run_refines] shows that every run of user events the
    abstract machine accepts is simulated by the handlers of
    scripts.js.  The abstract machine refuses to add a text that is
    already on the list: with two entries of the same text the page
    and the abstract list part ways
    ([ListController.remove_duplicate_loses_items] shows how), since [items] is searched by text
    (scripts.js lines 119 and 132). *)

From S2P Require Import Prelude JsString JsValue Json JsonRoundtrip Dom ListController Persistence Profile App.

Module AbstractList.

(** An entry: its text and whether it is checked. *)
Definition entry : Type := (string * bool)%type.

Definition add (t : string) (a : list entry) : list entry := a ++ [(t, false)].
Definition remove (i : nat) (a : list entry) : list entry := delete i a.
Definition toggle (i : nat) (a : list entry) : list entry :=
  alter (fun e => (e.1, negb e.2)) i a.
Definition texts (a : list entry) : list string := map fst a.
Definition checked (a : list entry) : nat := count_by snd a.

End AbstractList.

(** The object of [items] and the [li] entry that stand for an entry. *)
Definition item_of (e : AbstractList.entry) : item := mkItem (VStr e.1) (VBool e.2).
Definition li_entry (x : li) : AbstractList.entry := (li_text x, li_got x).

(** What [saveItems] writes for the list [a]. *)
Definition saved_text (a : list AbstractList.entry) : string := items_json (map item_of a).

(** The page state [s] shows and stores the abstract list [a]. *)
Definition represents (pg : page) (s : St) (a : list AbstractList.entry) : Prop :=
  list_inv pg s /\ st_showingDemo s = false /\
  map li_entry (st_list s) = a /\ st_items s = map item_of a /\
  st_storage s !! "shoppingList" = Some (saved_text a).

(** ** Lemmas: the search by text on a list of distinct texts *)

Lemma elem_texts (a : list AbstractList.entry) i e :
  a !! i = Some e -> e.1 ∈ AbstractList.texts a.
Proof. intros H. unfold AbstractList.texts. rewrite map_fmap. apply (list_elem_of_fmap_2 fst). by eapply list_elem_of_lookup_2. Qed.

Lemma remove_text_absent t a :
  t ∉ AbstractList.texts a -> remove_text t (map item_of a) = map item_of a.
Proof.
  induction a as [|e a IH]; intros Ht; [done|]. unfold AbstractList.texts in *. simpl in *.
  unfold remove_text in *. simpl. rewrite bool_decide_false by set_solver.
  simpl. f_equal. apply IH. set_solver.
Qed.

(** Removing by text on distinct texts removes the one entry. *)
Lemma remove_text_distinct a i e :
  NoDup (AbstractList.texts a) -> a !! i = Some e ->
  remove_text e.1 (map item_of a) = map item_of (AbstractList.remove i a).
Proof.
  unfold AbstractList.remove, AbstractList.texts. revert i.
  induction a as [|e' a IH]; intros i Hnd Hi; [done|].
  simpl in Hnd. apply NoDup_cons in Hnd as [Hn Hnd].
  destruct i as [|i]; simpl in Hi |- *; unfold remove_text; simpl.
  - simplify_eq. rewrite bool_decide_true by done. simpl.
    by apply remove_text_absent.
  - rewrite bool_decide_false.
    + simpl. f_equal. by apply IH.
    + intros Heq. apply Hn. rewrite Heq. by eapply elem_texts.
Qed.

(** Setting [got] on the first item of a text, on distinct texts, sets
    it on the one entry. *)
Lemma set_got_first_distinct a i e b :
  NoDup (AbstractList.texts a) -> a !! i = Some e ->
  set_got_first e.1 b (map item_of a) = map item_of (<[i := (e.1, b)]> a).
Proof.
  unfold AbstractList.texts. revert i.
  induction a as [|e' a IH]; intros i Hnd Hi; [done|].
  simpl in Hnd. apply NoDup_cons in Hnd as [Hn Hnd].
  destruct i as [|i]; simpl in Hi |- *.
  - simplify_eq. by rewrite bool_decide_true.
  - rewrite bool_decide_false.
    + f_equal. by apply IH.
    + intros Heq. apply Hn. rewrite Heq. by eapply elem_texts.
Qed.

Lemma texts_toggle a i : AbstractList.texts (AbstractList.toggle i a) = AbstractList.texts a.
Proof.
  unfold AbstractList.texts, AbstractList.toggle. revert i.
  induction a as [|e a IH]; intros [|i]; simpl; [done..|]. f_equal. apply IH.
Qed.

Lemma lookup_li_entry l i : map li_entry l !! i = li_entry <$> l !! i.
Proof. rewrite lookup_map. by destruct (l !! i). Qed.

Lemma apply_filter_entry f x : li_entry (apply_filter f x) = li_entry x.
Proof.
  unfold apply_filter, li_entry. destruct (li_demo x); [done|].
  by destruct (filter_display f x).
Qed.

Lemma toggle_insert a i e :
  a !! i = Some e -> AbstractList.toggle i a = <[i := (e.1, negb e.2)]> a.
Proof.
  unfold AbstractList.toggle. revert i.
  induction a as [|e' a IH]; intros [|i] Hi; simpl in *; simplify_eq; [done|].
  f_equal. by apply IH.
Qed.

(** ** Each handler simulates its abstract operation *)

Section Simulation.
Context (pg : page) (Hpg : list_page pg).

Lemma represents_frame s s' a :
  same_list_state s s' -> st_storage s' !! "shoppingList" = st_storage s !! "shoppingList" ->
  represents pg s a -> represents pg s' a.
Proof.
  intros Hsame Hst (Hinv & Hd & Hl & Hi & Hs). pose proof Hsame as (E1 & E2 & _ & _ & E5 & _).
  split; [eapply list_inv_frame; eauto|]. repeat split; congruence.
Qed.

(** An entry of a represented state is real and stands for the entry of
    the abstract list at its position. *)
Lemma represents_lookup s a i :
  represents pg s a -> i < length a ->
  exists x, st_list s !! i = Some x /\ li_demo x = false /\ a !! i = Some (li_entry x).
Proof.
  intros (Hinv & Hd & Hl & _) Hi. subst a. rewrite length_map in Hi.
  destruct (lookup_lt_is_Some_2 _ _ Hi) as [x Hx]. exists x. split; [done|].
  destruct Hinv as (_ & _ & Hdm). unfold demo_ok in Hdm. rewrite Hd, Forall_lookup in Hdm.
  split; [by eapply Hdm|]. by rewrite lookup_li_entry, Hx.
Qed.

(** The item form: a blank input changes nothing, another input is
    added at the end of the list. *)
Lemma submitItem_refines s a :
  represents pg s a ->
  let t := trim (st_input s) in
  represents pg (exec (submitItem pg) s)
    (if bool_decide (t = EmptyString) then a else AbstractList.add t a).
Proof.
  intros Hrep. cbv zeta. case_bool_decide as Ht.
  - assert (exec (submitItem pg) s = s) as ->; [|done].
    run_on_list_page Hpg. by rewrite Ht.
  - pose proof (submitItem_inv pg s (proj1 Hrep)) as Hinv'.
    destruct Hrep as (Hinv & Hd & Hl & Hi & Hs).
    split; [exact Hinv'|]. clear Hinv'.
    run_on_list_page Hpg. rewrite bool_decide_false, Hd by done. st_fields. split; [done|].
    unfold AbstractList.add, saved_text, items_json. rewrite Hi, !map_app, Hl.
    split; [done|]. split; [done|]. rewrite lookup_insert_eq. reflexivity.
Qed.

Lemma map_li_entry_delete l i : map li_entry (delete i l) = delete i (map li_entry l).
Proof. by rewrite !map_fmap, list_fmap_delete. Qed.

Lemma map_li_entry_insert l i x :
  map li_entry (<[i := x]> l) = <[i := li_entry x]> (map li_entry l).
Proof. by rewrite !map_fmap, list_fmap_insert. Qed.

(** The remove button of an entry. *)
Lemma clickRemove_refines s a i :
  represents pg s a -> NoDup (AbstractList.texts a) -> i < length a ->
  represents pg (exec (clickList pg (TRemove i)) s) (AbstractList.remove i a).
Proof.
  intros Hrep Hnd Hi. destruct (represents_lookup s a i Hrep Hi) as (x & Hx & Hr & Ha).
  pose proof (clickList_inv pg s (TRemove i) (proj1 Hrep)) as Hinv'.
  destruct Hrep as (Hinv & Hd & Hl & Hit & Hs).
  assert (exec (clickList pg (TRemove i)) s = exec (removeEntry pg i) s) as E
    by (unfold clickList; st_simpl; by rewrite Hx, Hr).
  rewrite E in *. split; [exact Hinv'|]. clear Hinv'. run_on_list_page Hpg. rewrite Hx.
  destruct (li_got x); st_fields;
    rewrite Hit; change (li_text x) with (li_entry x).1;
    rewrite (remove_text_distinct a i (li_entry x)), map_li_entry_delete, Hl by done;
    do 3 (split; [done|]); rewrite lookup_insert_eq; reflexivity.
Qed.

(** A click on an entry or on its text. *)
Lemma clickToggle_refines s a i t :
  t = TItem i \/ t = TText i ->
  represents pg s a -> NoDup (AbstractList.texts a) -> i < length a ->
  represents pg (exec (clickList pg t) s) (AbstractList.toggle i a).
Proof.
  intros Ht Hrep Hnd Hi. destruct (represents_lookup s a i Hrep Hi) as (x & Hx & Hr & Ha).
  pose proof (clickList_inv pg s t (proj1 Hrep)) as Hinv'.
  destruct Hrep as (Hinv & Hd & Hl & Hit & Hs).
  assert (exec (clickList pg t) s = exec (toggleEntry pg i) s) as E
    by (destruct Ht as [-> | ->]; unfold clickList; st_simpl; by rewrite Hx, Hr).
  rewrite E in *. split; [exact Hinv'|]. clear Hinv'. run_on_list_page Hpg. rewrite Hx.
  rewrite (toggle_insert a i (li_entry x)) by done.
  destruct (li_got x) eqn:Hg; st_fields;
    rewrite Hit; change (li_text x) with (li_entry x).1;
    rewrite (set_got_first_distinct a i (li_entry x)), map_li_entry_insert, Hl by done;
    unfold li_entry, toggle_got; rewrite Hg; simpl;
    do 3 (split; [done|]); rewrite lookup_insert_eq; reflexivity.
Qed.

(** A filter button changes only the displays. *)
Lemma clickFilters_refines s a t :
  represents pg s a -> represents pg (exec (clickFilters t) s) a.
Proof.
  intros Hrep. pose proof (clickFilters_inv pg s t (proj1 Hrep)) as Hinv'.
  destruct Hrep as (Hinv & Hd & Hl & Hit & Hs).
  destruct t as [f|]; [|done]. split; [exact Hinv'|]. clear Hinv'.
  unfold clickFilters, exec, st_modify. st_fields. split; [done|]. split; [|done].
  rewrite map_map, <- Hl. apply map_ext, apply_filter_entry.
Qed.

Lemma keyDown_frame s k :
  same_list_state s (exec (keyDown pg k) s) /\ st_storage (exec (keyDown pg k) s) = st_storage s.
Proof. unfold keyDown, need, same_list_state. st_run; st_fields; auto 10. Qed.

Lemma submitRegister_list_storage u e p s :
  st_storage (exec (submitRegister pg u e p) s) !! "shoppingList" = st_storage s !! "shoppingList".
Proof.
  unfold submitRegister, setItem, need. st_run; st_fields; try done.
  by rewrite lookup_insert_ne.
Qed.

(** What the handlers do to the input field. *)
Lemma submitItem_input s :
  st_input (exec (submitItem pg) s) =
  if bool_decide (trim (st_input s) = EmptyString) then st_input s else EmptyString.
Proof. run_on_list_page Hpg. case_bool_decide; [done|]. by destruct (st_showingDemo s). Qed.

Lemma clickList_input t s : st_input (exec (clickList pg t) s) = st_input s.
Proof.
  assert (H : st_preserves (fun s' => st_input s' = st_input s) (clickList pg t)) by preserves_tac.
  by apply H.
Qed.

End Simulation.

(** ** The abstract machine and the refinement *)

(** The abstract page: the list and the text in the input field. *)
Record astate : Type := AState { a_list : list AbstractList.entry; a_input : string }.

(** One user event on the abstract page.  [None] marks what the contract
    leaves out: [DOMContentLoaded], a click on an entry that does not
    exist, and adding a text the list already has. *)
Definition astep (st : astate) (ev : event) : option astate :=
  match ev with
  | EvLoaded => None
  | EvInput v => Some (AState (a_list st) v)
  | EvSubmitItem =>
      let t := trim (a_input st) in
      if bool_decide (t = EmptyString) then Some st
      else if bool_decide (t ∈ AbstractList.texts (a_list st)) then None
      else Some (AState (AbstractList.add t (a_list st)) EmptyString)
  | EvClickList TList => Some st
  | EvClickList (TRemove i) =>
      if bool_decide (i < length (a_list st))
      then Some (AState (AbstractList.remove i (a_list st)) (a_input st)) else None
  | EvClickList (TItem i | TText i) =>
      if bool_decide (i < length (a_list st))
      then Some (AState (AbstractList.toggle i (a_list st)) (a_input st)) else None
  | EvClickFilters _ => Some st
  | EvKeyDown k =>
      if bool_decide (k = "Escape") then Some (AState (a_list st) EmptyString) else Some st
  | EvSubmitRegister _ _ _ => Some st
  end.

Fixpoint arun (st : astate) (evs : list event) : option astate :=
  match evs with
  | [] => Some st
  | ev :: evs' => match astep st ev with Some st' => arun st' evs' | None => None end
  end.

(** A loaded page that shows, stores and edits the abstract page [st],
    whose texts are distinct. *)
Definition represents_st (pg : page) (s : St) (st : astate) : Prop :=
  represents pg s (a_list st) /\ st_input s = a_input st /\
  NoDup (AbstractList.texts (a_list st)) /\ st_loaded s = true.

Lemma texts_add_nodup a t :
  NoDup (AbstractList.texts a) -> t ∉ AbstractList.texts a ->
  NoDup (AbstractList.texts (AbstractList.add t a)).
Proof.
  intros Hnd Ht. unfold AbstractList.texts, AbstractList.add in *.
  rewrite map_app. apply NoDup_app. split; [done|]. split; [|apply NoDup_singleton].
  intros x Hx. simpl. set_solver.
Qed.

Lemma texts_remove_nodup a i :
  NoDup (AbstractList.texts a) -> NoDup (AbstractList.texts (AbstractList.remove i a)).
Proof.
  unfold AbstractList.texts, AbstractList.remove. rewrite !map_fmap, list_fmap_delete.
  intros Hnd. eapply sublist_NoDup; [exact Hnd|apply sublist_delete].
Qed.

Section Machine.
Context (pg : page) (Hpg : list_page pg) (Hform : pg_itemForm pg = true).

Lemma represents_st_frame s s' st :
  same_list_state s s' -> st_storage s' !! "shoppingList" = st_storage s !! "shoppingList" ->
  st_input s' = st_input s -> st_loaded s' = st_loaded s ->
  represents_st pg s st -> represents_st pg s' st.
Proof.
  intros Hsame Hst Hin Hl (Hrep & Hin0 & Hnd & Hl0).
  split; [by eapply represents_frame|]. split; [congruence|]. split; [done|congruence].
Qed.


(** The concrete step an accepted abstract event corresponds to is a
    step of the event loop. *)
Lemma astep_step s st ev st' :
  represents_st pg s st -> astep st ev = Some st' -> step pg s (exec (dispatch pg ev) s).
Proof.
  intros (Hrep & _ & _ & Hl) Hst. destruct Hrep as (_ & _ & Hla & _).
  apply step_user; [done|by destruct ev|].
  destruct ev as [| | |[|i|i|i]| | |]; simpl in *; try done;
    case_bool_decide as Hi; try done; by rewrite <- Hla, length_map in Hi.
Qed.

(** The cases of [astep_refines], one listener each; [Hl] is the
    loaded flag after the listener, which no user event clears. *)
Lemma input_refines_st s st v :
  represents_st pg s st ->
  represents_st pg (exec (st_modify (upd_input (fun _ => v)) : M unit) s) (AState (a_list st) v).
Proof.
  intros (Hrep & Hin & Hnd & Hl). unfold exec, st_modify. simpl.
  split; [|by st_fields]. eapply represents_frame; [by repeat split|reflexivity|exact Hrep].
Qed.

Lemma submit_refines_st s st st' :
  represents_st pg s st -> astep st EvSubmitItem = Some st' ->
  st_loaded (exec (submitItem pg) s) = true ->
  represents_st pg (exec (submitItem pg) s) st'.
Proof.
  intros (Hrep & Hin & Hnd & Hl) Hst Hl'. simpl in Hst.
  pose proof (submitItem_refines pg Hpg s _ Hrep) as H. cbv zeta in H.
  pose proof (submitItem_input pg Hpg s) as Hi'. rewrite Hin in H, Hi'.
  destruct (bool_decide (trim (a_input st) = EmptyString)) eqn:Hb.
  - injection Hst as <-. split; [done|]. by split.
  - case_bool_decide as Hm; [done|]. injection Hst as <-.
    split; [done|]. split; [done|]. split; [by apply texts_add_nodup|done].
Qed.

Lemma click_refines_st s st t st' :
  represents_st pg s st -> astep st (EvClickList t) = Some st' ->
  st_loaded (exec (clickList pg t) s) = true ->
  represents_st pg (exec (clickList pg t) s) st'.
Proof.
  intros Hr Hst Hl'. pose proof Hr as (Hrep & Hin & Hnd & Hl). simpl in Hst.
  destruct t as [|i|i|i].
  - injection Hst as <-. unfold clickList, exec, st_bind, st_get, st_ret. done.
  - case_bool_decide as Hi; [|done]. injection Hst as <-.
    split; [by apply (clickToggle_refines pg Hpg s _ i _ (or_introl eq_refl))|].
    split; [by rewrite clickList_input|]. split; [simpl; by rewrite texts_toggle|done].
  - case_bool_decide as Hi; [|done]. injection Hst as <-.
    split; [by apply (clickToggle_refines pg Hpg s _ i _ (or_intror eq_refl))|].
    split; [by rewrite clickList_input|]. split; [simpl; by rewrite texts_toggle|done].
  - case_bool_decide as Hi; [|done]. injection Hst as <-.
    split; [by apply clickRemove_refines|].
    split; [by rewrite clickList_input|]. split; [by apply texts_remove_nodup|done].
Qed.

Lemma filters_refines_st s st t :
  represents_st pg s st -> represents_st pg (exec (clickFilters t) s) st.
Proof.
  intros (Hrep & Hin & Hnd & Hl). pose proof (clickFilters_refines pg s _ t Hrep) as H.
  destruct t; [|done]. unfold clickFilters in *. st_simpl. st_fields. done.
Qed.

Lemma keyDown_refines_st s st k st' :
  represents_st pg s st -> astep st (EvKeyDown k) = Some st' ->
  represents_st pg (exec (keyDown pg k) s) st'.
Proof.
  intros (Hrep & Hin & Hnd & Hl) Hst. simpl in Hst. pose proof Hpg as (Hii & _).
  pose proof (keyDown_frame pg s k) as [Hsame Hsto].
  assert (st_loaded (exec (keyDown pg k) s) = true /\
          st_input (exec (keyDown pg k) s) =
            if bool_decide (k = "Escape") then EmptyString else st_input s) as [Hl' Hi']
    by (unfold keyDown, need; rewrite Hii; case_bool_decide; st_simpl; st_fields; auto).
  case_bool_decide; injection Hst as <-;
    (split; [eapply represents_frame; eauto; by rewrite Hsto|]); simpl; repeat split; congruence.
Qed.

Lemma register_refines_st s st u e p :
  represents_st pg s st -> represents_st pg (exec (submitRegister pg u e p) s) st.
Proof.
  apply represents_st_frame; [apply submitRegister_frame|apply submitRegister_list_storage|..].
  all: unfold submitRegister, need; st_run; st_fields; auto.
Qed.

(** Each accepted abstract event is simulated by the listener the event
    reaches. *)
Lemma astep_refines s st ev st' :
  represents_st pg s st -> astep st ev = Some st' ->
  represents_st pg (exec (dispatch pg ev) s) st'.
Proof.
  intros Hr Hst. assert (Hu : is_user_event ev = true) by (by destruct ev).
  pose proof (user_event_loaded pg ev true Hu s (proj2 (proj2 (proj2 Hr)))) as Hl'.
  pose proof Hpg as (Hii & Hil & _). revert Hl'.
  destruct ev as [|v| |t|t|k|u e p]; simpl; rewrite ?Hii, ?Hil, ?Hform; intros Hl'.
  - done.
  - injection Hst as <-. by apply input_refines_st.
  - by apply (submit_refines_st s st).
  - by apply (click_refines_st s st).
  - injection Hst as <-. destruct (pg_filters pg); [by apply filters_refines_st|done].
  - by apply (keyDown_refines_st s st).
  - injection Hst as <-. destruct (pg_registerForm pg); [by apply register_refines_st|done].
Qed.

(** C22: the list page refines the abstract shopping list.  From a
    loaded page that shows and stores an abstract page with distinct
    texts, every sequence of user events the abstract machine accepts
    is a run of the event loop, and at its end the page shows, stores
    and edits exactly what the abstract machine computes: the [li]
    entries, [items], the counters and the saved JSON text all follow
    the abstract list. *)
Theorem run_refines s st evs st' :
  represents_st pg s st -> arun st evs = Some st' ->
  represents_st pg (run pg s evs) st' /\ star (step pg) s (run pg s evs).
Proof.
  revert s st. induction evs as [|ev evs IH]; intros s st Hr Ha; simpl in Ha.
  - injection Ha as <-. split; [done|constructor].
  - destruct (astep st ev) as [st1|] eqn:E; [|done]. simpl.
    destruct (IH _ st1 (astep_refines s st ev st1 Hr E) Ha) as [H1 H2].
    split; [done|]. eapply star_step; [by eapply astep_step|exact H2].
Qed.

Lemma item_of_plain a : Forall (fun it => plain_item it = true) (map item_of a).
Proof. apply Forall_forall. intros it (e & <- & _)%list_elem_of_In%in_map_iff. done. Qed.

(** The entries the load loop creates for the items of [a] show [a]. *)
Lemma entries_of_items a : map li_entry (map entry_of (map item_of a)) = a.
Proof. induction a as [|[t []] a IH]; simpl; by rewrite ?IH. Qed.

(** C28: loading refines the abstract list's start.  A fresh list page
    whose [localStorage] holds what [saveItems] writes for a non-empty
    abstract list with distinct texts loads into a state that shows,
    stores and edits that list, with an empty input; [run_refines]
    then applies to every run from there.  (An empty saved list gives
    the demo entries instead.) *)
Theorem load_refines store a :
  a <> [] -> NoDup (AbstractList.texts a) ->
  store !! "shoppingList" = Some (saved_text a) ->
  represents_st pg (exec (dispatch pg EvLoaded) (fresh_state store)) (AState a EmptyString).
Proof.
  intros Hne Hnd Hs.
  assert (Hinv : list_inv pg (exec (dispatch pg EvLoaded) (fresh_state store)))
    by (apply (reachable_inv pg store), star_one, step_load; reflexivity).
  set (s0 := upd_loaded (fun _ => true) (fresh_state store)).
  assert (Hx : exec (dispatch pg EvLoaded) (fresh_state store) = exec (domContentLoaded pg) s0)
    by reflexivity.
  pose proof (domContentLoaded_fields pg EmptyString true store s0 (conj eq_refl (conj eq_refl eq_refl)))
    as Hf.
  change (snd (domContentLoaded pg s0)) with (exec (domContentLoaded pg) s0) in Hf.
  destruct Hf as (Hin & Hl & Hsto).
  rewrite Hx in Hinv |- *.
  assert (Hne' : map item_of a <> []) by (by destruct a).
  pose proof (item_of_plain a) as Hp.
  destruct (loadItems_plain_effect pg Hpg (map item_of a) (saved_text a) s0 Hs (items_json_parse _ Hp)
              Hne' Hp) as (Hok & Hi & Hli & _ & _ & Hd).
  assert (E1 : exec (domContentLoaded pg) s0 = exec (loadProfile pg) (exec (loadItems pg) s0)).
  { unfold domContentLoaded, exec, st_bind. destruct (loadItems pg s0) as [r s1] eqn:E.
    cbn in Hok |- *. by subst r. }
  rewrite E1 in Hinv, Hin, Hl, Hsto |- *.
  pose proof (loadProfile_frame pg (exec (loadItems pg) s0)) as (Hl' & Hi' & _ & _ & Hd' & _).
  split; [|split; [exact Hin|split; [exact Hnd|exact Hl]]]. split; [exact Hinv|].
  rewrite Hl', Hi', Hd', Hli, Hi, Hd. split; [done|]. split; [|split; [done|by rewrite Hsto]].
  apply entries_of_items.
Qed.

End Machine.
