(* ===== verification/Witnesses.v ===== *)
(** * Concrete runs of the theorems

    Each lemma here applies one theorem of the development at a concrete
    page, state and input where its hypotheses hold, discharged by
    evaluation.  The states are runs of [App.run] on the list page
    [index_page] (every element but the register form) or on
    [register_page] (a register form and no item list). *)

From S2P Require Import Prelude JsString JsValue Json JsonRoundtrip JsonFuel Dom ListController Persistence Profile App Bounds Shape Session Tabs Early Refinement.
From Stdlib Require Import Ascii.

(** The markup of a register page without the item list. *)
Definition register_page : page :=
  mkPage false false false false false false false false false false true true.

(** The list page just loaded from empty storage: demo mode. *)
Definition demo_state : St := run index_page (fresh_state ∅) [EvLoaded].

(** The list page after two items were added. *)
Definition list_state : St :=
  run index_page (fresh_state ∅) [EvLoaded; EvInput "Milk"; EvSubmitItem; EvInput "Eggs"; EvSubmitItem].

Lemma list_state_reachable : reachable index_page ∅ list_state.
Proof. apply star_run. by vm_compute. Qed.

Lemma index_list_page : list_page index_page.
Proof. repeat split. Qed.

Lemma reachable_counters_witness :
  reachable index_page ∅ list_state /\
  st_total list_state = Z.of_nat (count_by is_real (st_list list_state)) /\
  st_got list_state = Z.of_nat (count_by is_real_got (st_list list_state)).
Proof.
  split; [exact list_state_reachable|].
  exact (reachable_counters index_page ∅ list_state list_state_reachable).
Defined.

Lemma reachable_remaining_view_witness :
  reachable index_page ∅ list_state /\
  (st_remaining_view list_state = None \/
   st_remaining_view list_state =
     Some (Z_to_string (Z.of_nat (count_by is_real_need (st_list list_state))))).
Proof.
  split; [exact list_state_reachable|].
  exact (reachable_remaining_view index_page ∅ list_state list_state_reachable).
Defined.

Lemma submitItem_whitespace_noop_witness :
  let s := run index_page (fresh_state ∅) [EvLoaded; EvInput "   "] in
  all_space (st_input s) = true /\ exec (submitItem index_page) s = s.
Proof.
  split; [by vm_compute|]. apply submitItem_whitespace_noop. by vm_compute.
Defined.

Lemma load_empty_shows_demo_witness :
  pg_itemList index_page = true /\
  json_parse (default "null" ((∅ : gmap string string) !! "shoppingList")) = Ok VNull /\
  (let s := exec (dispatch index_page EvLoaded) (fresh_state ∅) in
   st_list s = demo_entries /\ st_items s = [] /\
   st_total s = 0%Z /\ st_got s = 0%Z /\ st_showingDemo s = true /\ st_storage s = ∅).
Proof.
  split; [reflexivity|]. split; [by vm_compute|].
  apply (load_empty_shows_demo index_page ∅ VNull); [reflexivity | by vm_compute | by left].
Defined.

Lemma submitItem_from_demo_witness :
  let s := run index_page (fresh_state ∅) [EvLoaded; EvInput " Bread "] in
  st_showingDemo s = true /\ trim (st_input s) = "Bread" /\
  (let s' := exec (submitItem index_page) s in
   st_list s' = [mkLi false false "Bread" None] /\ st_showingDemo s' = false /\
   st_total s' = 1%Z /\ st_got s' = 0%Z /\
   st_items s' = st_items s ++ [mkItem (VStr "Bread") (VBool false)] /\
   st_input s' = EmptyString /\
   st_storage s' = <["shoppingList" := to_string (json_stringify
                       (VArr (map item_value (st_items s'))))]> (st_storage s)).
Proof.
  cbv zeta. split; [by vm_compute|]. split; [by vm_compute|].
  apply submitItem_from_demo.
  - exact index_list_page.
  - apply (reachable_inv index_page ∅). apply star_run. by vm_compute.
  - by vm_compute.
  - by vm_compute.
  - done.
Defined.

Lemma toggle_twice_witness :
  st_list list_state !! 0 = Some (mkLi false false "Milk" None) /\
  (let s' := exec (clickList index_page (TText 0)) (exec (clickList index_page (TText 0)) list_state) in
   st_list s' = st_list list_state /\ st_got s' = st_got list_state /\
   st_total s' = st_total list_state).
Proof.
  split; [by vm_compute|].
  apply (toggle_twice index_page list_state 0 (mkLi false false "Milk" None));
    [exact index_list_page | by vm_compute | done].
Defined.

Lemma submitRegister_incomplete_noop_witness :
  trim "  " = EmptyString /\
  exec (submitRegister register_page "ann" "ann@example.com" "  ") (fresh_state ∅) = fresh_state ∅.
Proof.
  split; [by vm_compute|]. apply submitRegister_incomplete_noop. right; right. by vm_compute.
Defined.

Lemma step_phase_witness :
  step index_page (fresh_state ∅) demo_state /\
  phase_edge (phase_of (fresh_state ∅)) (phase_of demo_state).
Proof.
  assert (step index_page (fresh_state ∅) demo_state) as H
    by exact (step_load index_page (fresh_state ∅) eq_refl).
  split; [exact H | exact (step_phase index_page _ _ H)].
Defined.

Lemma real_list_terminal_witness :
  phase_of list_state = RealList /\
  phase_of (exec (dispatch index_page (EvClickList (TRemove 0))) list_state) = RealList.
Proof.
  assert (phase_of list_state = RealList) as H by (by vm_compute).
  split; [exact H|]. apply (real_list_terminal index_page list_state); [|exact H].
  apply star_one. apply step_user; [by vm_compute | done | simpl; vm_compute; lia].
Defined.

Lemma removeEntry_spec_witness :
  st_list list_state !! 1 = Some (mkLi false false "Eggs" None) /\
  (let s' := exec (removeEntry index_page 1) list_state in
   st_list s' = delete 1 (st_list list_state) /\
   st_total s' = (st_total list_state - 1)%Z /\
   st_got s' = (st_got list_state - 0)%Z /\
   st_items s' = remove_text "Eggs" (st_items list_state) /\
   st_storage s' = <["shoppingList" := to_string (json_stringify
                       (VArr (map item_value (st_items s'))))]> (st_storage list_state)).
Proof.
  split; [by vm_compute|].
  apply (removeEntry_spec index_page list_state 1 (mkLi false false "Eggs" None));
    [exact index_list_page | by vm_compute].
Defined.

Lemma toggle_spec_witness :
  st_list list_state !! 0 = Some (mkLi false false "Milk" None) /\
  (let s' := exec (clickList index_page (TItem 0)) list_state in
   st_list s' = <[0 := toggle_got (mkLi false false "Milk" None)]> (st_list list_state) /\
   st_got s' = (st_got list_state + 1)%Z /\
   st_total s' = st_total list_state /\
   st_items s' = set_got_first "Milk" true (st_items list_state) /\
   st_storage s' = <["shoppingList" := to_string (json_stringify
                       (VArr (map item_value (st_items s'))))]> (st_storage list_state)).
Proof.
  split; [by vm_compute|].
  apply (toggle_spec index_page list_state 0 (mkLi false false "Milk" None) (TItem 0));
    [exact index_list_page | by vm_compute | done | by left].
Defined.

Lemma submitItem_appends_witness :
  let s := run index_page (fresh_state ∅) [EvLoaded; EvInput "Milk"; EvSubmitItem; EvInput "Tea "] in
  st_showingDemo s = false /\ trim (st_input s) = "Tea" /\
  (let s' := exec (submitItem index_page) s in
   st_list s' = st_list s ++ [mkLi false false "Tea" None] /\ st_showingDemo s' = false /\
   st_total s' = (st_total s + 1)%Z /\ st_got s' = st_got s /\
   st_items s' = st_items s ++ [mkItem (VStr "Tea") (VBool false)] /\
   st_storage s' = <["shoppingList" := to_string (json_stringify
                       (VArr (map item_value (st_items s'))))]> (st_storage s)).
Proof.
  cbv zeta. split; [by vm_compute|]. split; [by vm_compute|].
  apply submitItem_appends; [exact index_list_page | by vm_compute | by vm_compute | done].
Defined.

Lemma clickList_demo_noop_witness :
  st_list demo_state !! 0 = Some (mkLi true false "Milk (example)" None) /\
  exec (clickList index_page (TRemove 0)) demo_state = demo_state.
Proof.
  split; [by vm_compute|].
  apply (clickList_demo_noop index_page demo_state 0 (mkLi true false "Milk (example)" None));
    [by vm_compute | done | by right; right].
Defined.

Lemma no_item_list_no_profile_witness :
  pg_itemList register_page = false /\
  (let s := exec (dispatch register_page EvLoaded)
              (fresh_state {[ "userProfile" := "[1, 2]" ]}) in
   st_name_view s = None /\ st_email_view s = None /\ st_profile s = VNull).
Proof. split; [reflexivity|]. by apply no_item_list_no_profile. Defined.

Lemma submitRegister_saves_witness :
  pg_registerInputs register_page = true /\
  (let s' := exec (submitRegister register_page " ann " "ann@example.com" "secret") (fresh_state ∅) in
   st_storage s' = <["userProfile" := "{" +:+ quote "username" +:+ ":" +:+ quote (trim " ann ")
                       +:+ "," +:+ quote "email" +:+ ":" +:+ quote (trim "ann@example.com") +:+ "}"]>
                     (st_storage (fresh_state ∅)) /\
   st_profile s' = VObj [("username", VStr (trim " ann ")); ("email", VStr (trim "ann@example.com"))] /\
   st_alerts s' = st_alerts (fresh_state ∅) ++ [registered_msg] /\
   st_location s' = Some "profile.html").
Proof.
  split; [reflexivity|].
  apply submitRegister_saves; [reflexivity | by vm_compute | by vm_compute | by vm_compute].
Defined.

(** A list with a quote, a line feed, a [got] item, an [undefined]
    element and a negative number. *)
Lemma json_roundtrip_witness :
  let v := VArr [VObj [("text", VStr (String dq ("hi" +:+ String (ascii_of_nat 10) EmptyString)));
                       ("got", VBool true); ("note", VUndefined)];
                 VUndefined; VNum (-120); VNull; VArr []] in
  v <> VUndefined /\ json_parse (to_string (json_stringify v)) = Ok (json_norm v).
Proof. cbv zeta. split; [done|]. apply json_roundtrip. done. Defined.

(** The list page after two items were added and the second one checked. *)
Definition checked_state : St :=
  run index_page (fresh_state ∅)
    [EvLoaded; EvInput "Milk"; EvSubmitItem; EvInput "Eggs"; EvSubmitItem; EvClickList (TText 1)].

Lemma reload_restores_witness :
  list_page index_page /\ st_items checked_state <> [] /\
  Forall (fun it => plain_item it = true) (st_items checked_state) /\
  (let s' := exec (loadItems index_page)
               (fresh_state (st_storage (exec saveItems checked_state))) in
   st_items s' = st_items checked_state /\ st_list s' = map entry_of (st_items checked_state) /\
   st_total s' = Z.of_nat (length (st_items checked_state)) /\
   st_got s' = Z.of_nat (count_by (fun it => truthy (it_got it)) (st_items checked_state)) /\
   st_showingDemo s' = false).
Proof.
  assert (Hne : st_items checked_state <> []) by (vm_compute; discriminate).
  assert (Hp : Forall (fun it => plain_item it = true) (st_items checked_state))
    by (vm_compute; repeat constructor).
  split; [exact index_list_page|]. split; [exact Hne|]. split; [exact Hp|].
  exact (reload_restores index_page index_list_page checked_state Hne Hp).
Defined.

(** The list page with Milk and Eggs, then: type Tea and add it, check
    Milk, remove Eggs, press Escape. *)
Definition refine_events : list event :=
  [EvInput "Tea"; EvSubmitItem; EvClickList (TText 0); EvClickList (TRemove 1); EvKeyDown "Escape"].

Lemma list_state_represents :
  represents_st index_page list_state (AState [("Milk", false); ("Eggs", false)] EmptyString).
Proof.
  split; [split; [exact (proj1 (reachable_inv index_page ∅ list_state list_state_reachable))|]|].
  - by vm_compute.
  - split; [by vm_compute|]. split; [|done]. apply (bool_decide_unpack _). by vm_compute.
Defined.

Lemma run_refines_witness :
  list_page index_page /\ pg_itemForm index_page = true /\
  represents_st index_page list_state (AState [("Milk", false); ("Eggs", false)] EmptyString) /\
  arun (AState [("Milk", false); ("Eggs", false)] EmptyString) refine_events =
    Some (AState [("Milk", true); ("Tea", false)] EmptyString) /\
  (represents_st index_page (run index_page list_state refine_events)
     (AState [("Milk", true); ("Tea", false)] EmptyString) /\
   star (step index_page) list_state (run index_page list_state refine_events)).
Proof.
  split; [exact index_list_page|]. split; [done|]. split; [exact list_state_represents|].
  split; [by vm_compute|].
  apply (run_refines index_page index_list_page eq_refl list_state
           (AState [("Milk", false); ("Eggs", false)] EmptyString));
    [exact list_state_represents|by vm_compute].
Defined.

Lemma reachable_counter_bounds_witness :
  reachable index_page ∅ list_state /\
  (0 <= st_got list_state <= st_total list_state)%Z /\
  (st_total list_state <= Z.of_nat (length (st_list list_state)))%Z.
Proof.
  split; [exact list_state_reachable|].
  exact (reachable_counter_bounds index_page ∅ list_state list_state_reachable).
Defined.

(** Nested arrays, an object and whitespace, with fuel 100. *)

(** A stored object [{}] where the list should be. *)
Definition object_store : gmap string string := {[ "shoppingList" := "{}" ]}.

Lemma load_unreadable_storage_witness :
  object_store !! "shoppingList" = Some "{}" /\
  (exists v len, json_parse "{}" = Ok v /\ truthy v = true /\ (forall l, v <> VArr l) /\
     get_prop v "length" = Ok len /\ strict_eq_num len 0 = false) /\
  (let s := exec (dispatch index_page EvLoaded) (fresh_state object_store) in
   st_list s = [] /\ st_items s = [] /\ st_showingDemo s = false /\
   st_profile s = VNull /\ st_name_view s = None /\ st_email_view s = None).
Proof.
  assert (Hbad : exists v len, json_parse "{}" = Ok v /\ truthy v = true /\
            (forall l, v <> VArr l) /\ get_prop v "length" = Ok len /\
            strict_eq_num len 0 = false)
    by (exists (VObj []), VUndefined; repeat split; try reflexivity; congruence).
  split; [reflexivity|]. split; [exact Hbad|].
  apply (load_unreadable_storage index_page object_store "{}"); [reflexivity|by right].
Defined.

(** A storage that holds the JSON text of one bought item, and the page
    after a load and a toggle of that item. *)
Definition milk : item := {| it_text := VStr "Milk"; it_got := VBool true |}.

Definition milk_store : gmap string string :=
  {[ "shoppingList" := default EmptyString (stringify (VArr [item_value milk])) ]}.

Definition milk_state : St := run index_page (fresh_state milk_store) [EvLoaded; EvClickList (TItem 0)].

Lemma milk_store_plain : storage_plain milk_store.
Proof.
  intros t Ht. vm_compute in Ht. injection Ht as <-.
  exists [milk]. split; [by repeat constructor|]. by vm_compute.
Qed.

Lemma milk_state_reachable : reachable index_page milk_store milk_state.
Proof. apply star_run. by vm_compute. Qed.

Lemma reachable_items_shape_witness :
  storage_plain milk_store /\ reachable index_page milk_store milk_state /\
  (forall it, it ∈ st_items milk_state ->
     exists t b, it = {| it_text := VStr t; it_got := VBool b |}) /\
  storage_plain (st_storage milk_state).
Proof.
  split; [exact milk_store_plain|]. split; [exact milk_state_reachable|].
  exact (reachable_items_shape index_page milk_store milk_state milk_store_plain milk_state_reachable).
Defined.

(** From the fresh page, with " Bread " typed. *)
Lemma can_add_item_witness :
  list_page index_page /\ pg_itemForm index_page = true /\ trim " Bread " <> EmptyString /\
  exists s', star (step index_page) (fresh_state ∅) s' /\ phase_of s' = RealList /\
    last (st_list s') = Some (mkLi false false (trim " Bread ") None) /\
    last (st_items s') = Some (mkItem (VStr (trim " Bread ")) (VBool false)) /\
    st_storage s' !! "shoppingList" =
      Some (to_string (json_stringify (VArr (map item_value (st_items s'))))).
Proof.
  assert (Hne : trim " Bread " <> EmptyString) by (vm_compute; discriminate).
  split; [exact index_list_page|]. split; [reflexivity|]. split; [exact Hne|].
  exact (can_add_item index_page index_list_page eq_refl (fresh_state ∅) " Bread " Hne).
Defined.

(** A site of two pages: the register page and a profile page with the
    list markup and the profile card. *)
Definition two_pages : site :=
  fun url => if String.eqb url "profile.html" then index_page else register_page.

Definition register_state : St := run register_page (fresh_state ∅) [EvLoaded].

Lemma registration_shown_witness :
  pg_registerForm (two_pages "register.html") = true /\
  pg_registerInputs (two_pages "register.html") = true /\ st_loaded register_state = true /\
  trim " ann " <> EmptyString /\ trim "ann@example.com" <> EmptyString /\
  trim "secret" <> EmptyString /\
  list_page (two_pages "profile.html") /\ pg_profileCard (two_pages "profile.html") = true /\
  pg_strong (two_pages "profile.html") = true /\ pg_emailTag (two_pages "profile.html") = true /\
  storage_plain (st_storage register_state) /\
  exists s2, star (sstep two_pages) (mkSession "register.html" register_state)
                                      (mkSession "profile.html" s2) /\
    st_profile s2 = registered_profile (trim " ann ") (trim "ann@example.com") /\
    st_name_view s2 = Some (trim " ann ") /\
    st_email_view s2 = Some ("Email: " +:+ trim "ann@example.com").
Proof.
  assert (Hu : trim " ann " <> EmptyString) by (vm_compute; discriminate).
  assert (He : trim "ann@example.com" <> EmptyString) by (vm_compute; discriminate).
  assert (Hp : trim "secret" <> EmptyString) by (vm_compute; discriminate).
  assert (Hst : storage_plain (st_storage register_state))
    by (intros t Ht; vm_compute in Ht; discriminate).
  do 3 (split; [reflexivity|]). do 3 (split; [assumption|]).
  split; [exact index_list_page|]. do 3 (split; [reflexivity|]). split; [exact Hst|].
  exact (registration_shown two_pages "register.html" register_state " ann " "ann@example.com"
           "secret" eq_refl eq_refl eq_refl Hu He Hp index_list_page eq_refl eq_refl eq_refl Hst).
Defined.

(** A store that holds the saved text of two entries, one checked. *)
Definition two_entries : list AbstractList.entry := [("Milk", true); ("Eggs", false)].

Definition two_entries_store : gmap string string :=
  {[ "shoppingList" := saved_text two_entries ]}.

Lemma load_refines_witness :
  list_page index_page /\ two_entries <> [] /\ NoDup (AbstractList.texts two_entries) /\
  two_entries_store !! "shoppingList" = Some (saved_text two_entries) /\
  represents_st index_page (exec (dispatch index_page EvLoaded) (fresh_state two_entries_store))
    (AState two_entries EmptyString).
Proof.
  assert (Hnd : NoDup (AbstractList.texts two_entries))
    by (apply (bool_decide_unpack _); by vm_compute).
  assert (Hs : two_entries_store !! "shoppingList" = Some (saved_text two_entries))
    by apply lookup_singleton_eq.
  split; [exact index_list_page|]. split; [discriminate|].
  split; [exact Hnd|]. split; [exact Hs|].
  exact (load_refines index_page index_list_page two_entries_store two_entries
           ltac:(discriminate) Hnd Hs).
Defined.

(** Escape and Enter pressed on the register page. *)
Lemma escape_without_input_throws_witness :
  pg_itemInput register_page = false /\
  ((EmptyString <> "Escape" ->
    dispatch register_page (EvKeyDown EmptyString) (fresh_state ∅) = (Ok tt, fresh_state ∅)) /\
   ("Escape" = "Escape" ->
    exists msg, dispatch register_page (EvKeyDown "Escape") (fresh_state ∅) =
                  (Err (TypeError msg), fresh_state ∅))).
Proof.
  split; [reflexivity|]. split.
  - apply (escape_without_input_throws register_page (fresh_state ∅) EmptyString eq_refl).
  - apply (escape_without_input_throws register_page (fresh_state ∅) "Escape" eq_refl).
Defined.

(** Two tabs over an empty store, each adding one item. *)
Definition two_tabs : browser :=
  brun index_page (closed_browser ∅)
    [BOpen; BOpen; BTab 0 EvLoaded; BTab 1 EvLoaded;
     BTab 0 (EvInput "Milk"); BTab 0 EvSubmitItem; BTab 1 (EvInput "Eggs"); BTab 1 EvSubmitItem].

Lemma two_tabs_reachable : star (bstep index_page) (closed_browser ∅) two_tabs.
Proof. apply star_brun. by vm_compute. Qed.

Lemma tabs_store_sync_witness :
  list_page index_page /\ Forall (fun it => plain_item it = true) [] /\
  ((∅ : gmap string string) !! "shoppingList" = None \/
   (∅ : gmap string string) !! "shoppingList" = Some (items_json [])) /\
  star (bstep index_page) (closed_browser ∅) two_tabs /\
  (br_store two_tabs !! "shoppingList" = None \/
   exists l, br_store two_tabs !! "shoppingList" = Some (items_json l) /\
     (l = [] \/ exists s, s ∈ br_tabs two_tabs /\ st_items s = l)).
Proof.
  assert (Hm : (∅ : gmap string string) !! "shoppingList" = None \/
               (∅ : gmap string string) !! "shoppingList" = Some (items_json [])) by (left; reflexivity).
  split; [exact index_list_page|]. split; [constructor|]. split; [exact Hm|].
  split; [exact two_tabs_reachable|].
  exact (tabs_store_sync index_page index_list_page [] ∅ two_tabs (Forall_nil_2 _) Hm two_tabs_reachable).
Defined.

(** A stored profile with a user name and no e-mail. *)
Definition ann_store : gmap string string :=
  {[ "userProfile" := default EmptyString (stringify (VObj [("username", VStr "ann")])) ]}.

Lemma loadProfile_cases_witness :
  pg_profileCard index_page = true /\ pg_strong index_page = true /\
  pg_emailTag index_page = true /\
  st_email_view (exec (loadProfile index_page) (fresh_state ann_store)) = Some "Email: undefined" /\
  ((st_storage (fresh_state ann_store) !! "userProfile" = None ->
    st_name_view (exec (loadProfile index_page) (fresh_state ann_store)) = Some "Demo User" /\
    st_email_view (exec (loadProfile index_page) (fresh_state ann_store)) =
      Some "Email: user@example.com") /\
   (forall t e, st_storage (fresh_state ann_store) !! "userProfile" = Some t -> json_parse t = Err e ->
    in_fragment t = true -> loadProfile index_page (fresh_state ann_store) = (Err e, fresh_state ann_store)) /\
   (forall t ps, st_storage (fresh_state ann_store) !! "userProfile" = Some t ->
    json_parse t = Ok (VObj ps) -> prop_lookup "email" ps = None ->
    st_email_view (exec (loadProfile index_page) (fresh_state ann_store)) = Some "Email: undefined")).
Proof.
  pose proof (loadProfile_cases index_page eq_refl eq_refl eq_refl (fresh_state ann_store)) as H.
  do 3 (split; [reflexivity|]). split; [|exact H].
  apply (proj2 (proj2 H) (default EmptyString (stringify (VObj [("username", VStr "ann")])))
           [("username", VStr "ann")]); by vm_compute.
Defined.


(** A load of two saved entries, then one added item. *)
Definition bounds_events : list event := [EvLoaded; EvInput "Bread"; EvSubmitItem].

Lemma run_bounds_witness :
  valid_run index_page false (fresh_state two_entries_store) bounds_events = true /\
  let s := run index_page (fresh_state two_entries_store) bounds_events in
  entries s <= stored_count two_entries_store + 2 + length bounds_events /\
  (st_total s <= Z.of_nat (stored_count two_entries_store + 2 + length bounds_events))%Z.
Proof.
  assert (Hv : valid_run index_page false (fresh_state two_entries_store) bounds_events = true)
    by (by vm_compute).
  split; [exact Hv|]. exact (run_bounds index_page two_entries_store bounds_events Hv).
Defined.

(** Early events with distinct texts: two items added, checked and
    removed before the load, which then reads the saved list back. *)
Definition early_events : list event :=
  [EvInput "A"; EvSubmitItem; EvInput "B"; EvSubmitItem; EvClickList (TText 1);
   EvClickList (TRemove 0); EvLoaded; EvInput "C"; EvSubmitItem].

Lemma early_counters_witness :
  nd_run index_page (fresh_state ∅) early_events = true /\
  counters_ok (run index_page (fresh_state ∅) early_events).
Proof.
  assert (Hv : nd_run index_page (fresh_state ∅) early_events = true) by (by vm_compute).
  split; [exact Hv|].
  apply (early_counters index_page ∅); [exact index_list_page| |exact (star_nd_run _ _ _ Hv)].
  intros t Ht. by rewrite lookup_empty in Ht.
Defined.

(** Two entries "Milk" on a loaded page. *)
Definition dup_state : St :=
  run index_page (fresh_state ∅) [EvLoaded; EvInput "Milk"; EvSubmitItem; EvInput "Milk"; EvSubmitItem].

Definition milk_entry : li := mkLi false false "Milk" None.

Lemma remove_duplicate_loses_items_witness :
  reachable index_page ∅ dup_state /\
  (let s' := exec (clickList index_page (TRemove 0)) dup_state in
   (milk_entry ∈ st_list s' /\
    Forall (fun it => it_text it <> VStr (li_text milk_entry)) (st_items s') /\
    st_storage s' !! "shoppingList" =
      Some (to_string (json_stringify (VArr (map item_value (st_items s')))))) /\
   st_showingDemo (run index_page (fresh_state (st_storage s')) [EvLoaded]) = true).
Proof.
  split; [apply star_run; by vm_compute|]. split; [|by vm_compute].
  apply (remove_duplicate_loses_items index_page dup_state 0 1 milk_entry milk_entry);
    [exact index_list_page|by vm_compute|by vm_compute|lia|done|done].
Defined.

(** "Bread" added before [DOMContentLoaded]. *)
Definition bread_events : list event := [EvInput "Bread"; EvSubmitItem].

Lemma empty_store_plain : storage_plain ∅.
Proof. intros t Ht. by rewrite lookup_empty in Ht. Qed.

Lemma early_load_duplicates_witness :
  nd_run index_page (fresh_state ∅) bread_events = true /\
  (let s := run index_page (fresh_state ∅) bread_events in
   let s' := exec (dispatch index_page EvLoaded) s in
   entry_texts s' = entry_texts s ++ entry_texts s /\
   st_items s' = st_items s ++ st_items s /\
   st_storage s' !! "shoppingList" = Some (items_json (st_items s))).
Proof.
  assert (Hv : nd_run index_page (fresh_state ∅) bread_events = true) by (by vm_compute).
  split; [exact Hv|].
  apply (early_load_duplicates index_page ∅); [exact index_list_page|exact empty_store_plain|
    exact (star_nd_run _ _ _ Hv)|by vm_compute|by vm_compute].
Defined.

(** Two tabs: the second adds "Eggs" and types "Bread" while the first
    saves "Milk". *)
Definition racing_tabs : browser :=
  brun index_page (closed_browser ∅)
    [BOpen; BOpen; BTab 0 EvLoaded; BTab 1 EvLoaded;
     BTab 1 (EvInput "Eggs"); BTab 1 EvSubmitItem;
     BTab 0 (EvInput "Milk"); BTab 0 EvSubmitItem; BTab 1 (EvInput "Bread")].

Definition racing_tab : St := default (fresh_state ∅) (br_tabs racing_tabs !! 1).

Definition milk_item : item := mkItem (VStr "Milk") (VBool false).

Lemma lost_update_witness :
  star (bstep index_page) (closed_browser ∅) racing_tabs /\
  exists s, br_tabs (bexec index_page (bexec index_page
              (bexec index_page racing_tabs (BTab 1 EvSubmitItem)) BOpen) (BTab 2 EvLoaded)) !! 2 = Some s /\
    st_items s = st_items racing_tab ++ [mkItem (VStr (trim (st_input racing_tab))) (VBool false)] /\
    milk_item ∉ st_items s.
Proof.
  split; [apply star_brun; by vm_compute|].
  apply (lost_update index_page racing_tabs 1 racing_tab [milk_item] milk_item);
    [exact index_list_page|reflexivity|by vm_compute|by vm_compute| |by vm_compute|by vm_compute|
     by left| |by vm_compute].
  - unfold items_plain. vm_compute. repeat constructor.
  - vm_compute. intros Hin. apply list_elem_of_singleton in Hin. discriminate.
Defined.

(** Two entries "A" added before the load and one of them removed: one
    real entry, and an empty saved list. *)
Definition unsaved_state : St :=
  run index_page (fresh_state ∅)
    [EvInput "A"; EvSubmitItem; EvInput "A"; EvSubmitItem; EvClickList (TRemove 0)].

Lemma load_over_unsaved_entries_witness :
  star (early_step index_page) (fresh_state ∅) unsaved_state /\
  (let s1 := exec (dispatch index_page EvLoaded) unsaved_state in
   let s' := run index_page s1 [EvInput "B"; EvSubmitItem] in
   st_showingDemo s1 = true /\ count_by is_real (st_list s1) = count_by is_real (st_list unsaved_state) /\
   st_total s' = (st_total unsaved_state + 1)%Z /\ entry_texts s' = [trim "B"] /\
   ~ counters_ok s').
Proof.
  split; [apply star_run_early; by vm_compute|].
  apply (load_over_unsaved_entries index_page unsaved_state "B");
    [exact index_list_page|reflexivity|by vm_compute| |by vm_compute|by vm_compute|
     right; by vm_compute|by vm_compute].
  unfold list_inv, counters_ok, views_ok, demo_ok. vm_compute.
  split_and!; try reflexivity; try (right; split_and!; reflexivity); repeat constructor.
Defined.

(** [Json.in_fragment] leaves out the valid JSON the model's parser
    rejects, and keeps texts that are not JSON. *)
Lemma in_fragment_examples :
  json_parse "[1.5]" = Err (SyntaxError "Unexpected token") /\ in_fragment "[1.5]" = false /\
  json_parse "[1e3]" = Err (SyntaxError "Unexpected token") /\ in_fragment "[1e3]" = false /\
  json_parse "[1,]" = Err (SyntaxError "Unexpected token") /\ in_fragment "[1,]" = true.
Proof. by vm_compute. Qed.

Lemma reachable_saved_list_witness :
  reachable index_page ∅ list_state /\ st_loaded list_state = true /\
  saved_list (st_storage list_state) (st_items list_state) /\
  st_items (exec (dispatch index_page EvLoaded) (fresh_state (st_storage list_state))) =
    st_items list_state.
Proof.
  split; [exact list_state_reachable|]. split; [by vm_compute|].
  apply (reachable_saved_list index_page ∅ []); [exact index_list_page|constructor|by right|
    exact list_state_reachable|by vm_compute].
Defined.
